(** * Metanet scaffold: signed-request handlers over the user directory

    A shallow embedding of the Appwrite functions of the scaffold

    - [register]       (register-metanet-user, first handler of register.js),
    - [authenticate]   (second handler of register.js),
    - [grantUserRole]  (the self-service grant-user-role handler),
    - [authOrRegister] (the auth-or-register handler),

    together with the part of the document store they talk to.  A handler
    is a tree of directory calls ([prog]); every [await] of the source is
    one node of the tree, and the [try { ... } catch (err)] that wraps each
    handler body is the [catch] continuation passed to [await]. *)

From Stdlib Require Import ZArith List String Bool Lia.
Import ListNotations.
Local Open Scope string_scope.
Local Open Scope Z_scope.

(** ** JavaScript values as the handlers use them

    The payload is [JSON.parse(req.body)] destructured into the documented
    fields: strings and one number.  [None] stands for a field that is
    absent ([undefined]) or [null]. *)
Module JS.

(** Truthiness of a string field: [undefined], [null] and [''] are falsy. *)
Definition truthy (v : option string) : bool :=
  match v with
  | Some s => negb (String.eqb s "")
  | None => false
  end.

(** Truthiness of a number field: [undefined], [null] and [0] are falsy. *)
Definition truthy_num (v : option Z) : bool :=
  match v with
  | Some n => negb (Z.eqb n 0)
  | None => false
  end.

(** [a || b] *)
Definition or_else (a b : option string) : option string :=
  if truthy a then a else b.

(** [a !== b] on strings and null. *)
Definition strict_neq (a b : option string) : bool :=
  match a, b with
  | Some x, Some y => negb (String.eqb x y)
  | None, None => false
  | _, _ => true
  end.

(** [array.includes(x)] *)
Definition includes (l : list string) (x : string) : bool :=
  existsb (String.eqb x) l.

(** [now - timestamp]; an undefined operand gives NaN, here [None]. *)
Definition minus (now : Z) (t : option Z) : option Z :=
  option_map (Z.sub now) t.

(** [Math.abs] *)
Definition Math_abs (x : option Z) : option Z := option_map Z.abs x.

(** [x > c]; every comparison with NaN is false. *)
Definition gt (x : option Z) (c : Z) : bool :=
  match x with
  | Some v => Z.gtb v c
  | None => false
  end.

End JS.

(** ** Documents of the users collection *)

(** The [metadata] attribute holds serialized JSON: ['{}'] from
    auth-or-register, the registration stamp from register. *)
Inductive metadata_json : Type :=
| MetaEmpty
| MetaRegistered (registeredAt : Z) (registrationSource appPublicKey : string).

Module Doc.

(** A user document.  [roles] is the string attribute holding
    [JSON.stringify(rolesArray)]: [Some l] is the serialized array [l],
    [None] an unset attribute. *)
Record t : Type := mk {
  id : nat;
  bsvAddress : option string;
  appPublicKey : option string;
  metanetPrincipal : option string;
  bsvPublicKey : option string;
  username : option string;
  displayName : option string;
  avatar : option string;
  bio : option string;
  role : option string;
  isActive : option bool;
  lastLogin : option Z;
  metadata : option metadata_json;
  roles : option (list string);
  status : option string
}.

Definition set_id (n : nat) (d : t) : t :=
  mk n (bsvAddress d) (appPublicKey d) (metanetPrincipal d) (bsvPublicKey d)
     (username d) (displayName d) (avatar d) (bio d) (role d) (isActive d)
     (lastLogin d) (metadata d) (roles d) (status d).

Definition set_status (v : option string) (d : t) : t :=
  mk (id d) (bsvAddress d) (appPublicKey d) (metanetPrincipal d) (bsvPublicKey d)
     (username d) (displayName d) (avatar d) (bio d) (role d) (isActive d)
     (lastLogin d) (metadata d) (roles d) v.

End Doc.

(** The partial object handed to [updateDocument]: [None] means the key is
    not in the object. *)
Module Patch.

Record t : Type := mk {
  username : option string;
  displayName : option string;
  avatar : option string;
  lastLogin : option Z;
  roles : option (list string);
  status : option string
}.

Definition empty : t := mk None None None None None None.

(** [Object.keys(updates).length > 0] *)
Definition nonempty (p : t) : bool :=
  match username p, displayName p, avatar p, lastLogin p, roles p, status p with
  | None, None, None, None, None, None => false
  | _, _, _, _, _, _ => true
  end.

Definition over {A} (new old : option A) : option A :=
  match new with
  | Some _ => new
  | None => old
  end.

Definition apply (p : t) (d : Doc.t) : Doc.t :=
  Doc.mk (Doc.id d) (Doc.bsvAddress d) (Doc.appPublicKey d)
         (Doc.metanetPrincipal d) (Doc.bsvPublicKey d)
         (over (username p) (Doc.username d))
         (over (displayName p) (Doc.displayName d))
         (over (avatar p) (Doc.avatar d))
         (Doc.bio d) (Doc.role d) (Doc.isActive d)
         (over (lastLogin p) (Doc.lastLogin d))
         (Doc.metadata d)
         (over (roles p) (Doc.roles d))
         (over (status p) (Doc.status d)).

End Patch.

(** Documents of the roles collection, as register writes them. *)
Module RoleDoc.

Record t : Type := mk {
  id : nat;
  userPrincipal : option string;
  roleName : option string;
  permissions : list string;
  grantedBy : string;
  grantedAt : Z
}.

Definition set_id (n : nat) (d : t) : t :=
  mk n (userPrincipal d) (roleName d) (permissions d) (grantedBy d) (grantedAt d).

End RoleDoc.

(** ** The document store *)

Inductive attribute : Type :=
| A_bsvAddress
| A_appPublicKey
| A_username.

(** [Query.equal(attribute, value)] *)
Inductive query : Type :=
| Query_equal (a : attribute) (v : option string).

(** What a directory call throws: the two errors the store itself raises,
    and any other failure of the call (the service cannot be reached, the
    collection refuses the document). *)
Inductive exn : Type :=
| DuplicateKey
| DocumentNotFound
| ServiceFailure.

Inductive result (A : Type) : Type :=
| Ok (a : A)
| Threw (e : exn).

Arguments Ok {A} a.
Arguments Threw {A} e.

Record store : Type := mkStore {
  users : list Doc.t;
  roleAssignments : list RoleDoc.t;
  next_id : nat
}.

Definition empty_store : store := mkStore [] [] 0.

Definition attr (a : attribute) (d : Doc.t) : option string :=
  match a with
  | A_bsvAddress => Doc.bsvAddress d
  | A_appPublicKey => Doc.appPublicKey d
  | A_username => Doc.username d
  end.

Definition same_value (v w : option string) : bool :=
  match v, w with
  | Some x, Some y => String.eqb x y
  | _, _ => false
  end.

Definition satisfies (d : Doc.t) (q : query) : bool :=
  match q with
  | Query_equal a v => same_value v (attr a d)
  end.

(** No handler passes [Query.limit]: the store answers a list call with
    its first page, 25 documents by default. *)
Definition page_size : nat := 25.

Definition page {A : Type} (l : list A) : list A := firstn page_size l.

Arguments page : simpl never.

(** [databases.listDocuments(db, users, queries)]: the first page of the
    documents that satisfy every query, in creation order. *)
Definition listDocuments (qs : list query) (s : store) : list Doc.t :=
  page (filter (fun d => forallb (satisfies d) qs) (users s)).

(** Attribute defaults of the users collection (setup-appwrite.js):
    [status] is created with default ['active']; no other attribute has one. *)
Definition with_defaults (d : Doc.t) : Doc.t :=
  match Doc.status d with
  | Some _ => d
  | None => Doc.set_status (Some "active") d
  end.

(** [idx_app_public_key] (setup-appwrite.js) is the one unique index
    declared for the users collection.  register writes the same collection
    id with the attributes of another schema, which lists [appPublicKey] as
    indexed only: what is proved of register holds whether or not the
    create is refused here. *)
Definition violates_unique (data : Doc.t) (s : store) : bool :=
  existsb (fun u => same_value (Doc.appPublicKey data) (Doc.appPublicKey u)) (users s).

(** [databases.createDocument(db, users, ID.unique(), data)] *)
Definition createDocument (data : Doc.t) (s : store) : result Doc.t * store :=
  if violates_unique data s then (Threw DuplicateKey, s)
  else
    let doc := with_defaults (Doc.set_id (next_id s) data) in
    (Ok doc, mkStore (users s ++ [doc])%list (roleAssignments s) (S (next_id s))).

Fixpoint update_first (i : nat) (p : Patch.t) (l : list Doc.t)
  : option (Doc.t * list Doc.t) :=
  match l with
  | [] => None
  | d :: rest =>
      if Nat.eqb (Doc.id d) i then Some (Patch.apply p d, Patch.apply p d :: rest)
      else
        match update_first i p rest with
        | Some (d', rest') => Some (d', d :: rest')
        | None => None
        end
  end.

(** [databases.updateDocument(db, users, id, patch)] *)
Definition updateDocument (i : nat) (p : Patch.t) (s : store) : result Doc.t * store :=
  match update_first i p (users s) with
  | Some (d', us) => (Ok d', mkStore us (roleAssignments s) (next_id s))
  | None => (Threw DocumentNotFound, s)
  end.

(** [databases.createDocument(db, roles, ID.unique(), data)].  The store
    has no rule of its own to refuse the document; a call that fails for
    another reason is a fault of [run_faulty]. *)
Definition createRoleDocument (data : RoleDoc.t) (s : store) : result RoleDoc.t * store :=
  let doc := RoleDoc.set_id (next_id s) data in
  (Ok doc, mkStore (users s) (roleAssignments s ++ [doc])%list (S (next_id s))).

(** ** Responses: [res.json(body, statusCode)] *)

Inductive error_text : Type :=
| Text (s : string)
| Message (e : exn).   (* err.message *)

Module Res.

(** [user] is the document the body's [user] object is projected from. *)
Record t : Type := mk {
  statusCode : Z;
  success : bool;
  code : option string;
  error : option error_text;
  isNewUser : option bool;
  user : option Doc.t;
  needsRegistration : bool
}.

Definition failure (e : error_text) (c : string) (http : Z) : t :=
  mk http false (Some c) (Some e) None None false.

End Res.

(** ** Handler programs *)

Inductive prog : Type :=
| Return (r : Res.t)
| ListUsers (qs : list query) (k : result (list Doc.t) -> prog)
| CreateUser (data : Doc.t) (k : result Doc.t -> prog)
| UpdateUser (i : nat) (p : Patch.t) (k : result Doc.t -> prog)
| CreateRole (data : RoleDoc.t) (k : result RoleDoc.t -> prog).

(** [const x = await call] inside [try { ... } catch (err) { handler }]. *)
Definition await {A : Type} (call : (result A -> prog) -> prog)
  (catch : exn -> prog) (k : A -> prog) : prog :=
  call (fun r => match r with
                 | Ok a => k a
                 | Threw e => catch e
                 end).

Inductive event : Type :=
| EvListUsers (qs : list query) (out : result (list Doc.t))
| EvCreateUser (data : Doc.t) (out : result Doc.t)
| EvUpdateUser (i : nat) (p : Patch.t) (out : result Doc.t)
| EvCreateRole (data : RoleDoc.t) (out : result RoleDoc.t).

Definition outcome : Type := (Res.t * store * list event)%type.

Definition record (ev : event) (o : outcome) : outcome :=
  let '(r, s, tr) := o in (r, s, ev :: tr).

(** What other requests committed to the store since this request's last
    await: the head of [others] lands before the next directory call. *)
Definition interfere (others : list (store -> store)) (s : store) : store :=
  match others with
  | f :: _ => f s
  | [] => s
  end.

(** Runs a handler against the store.  Each await is a suspension point at
    which the writes of concurrent requests ([others], one entry per
    await) become visible. *)
Fixpoint run_interleaved (others : list (store -> store)) (p : prog) (s : store)
  : outcome :=
  match p with
  | Return r => (r, s, [])
  | ListUsers qs k =>
      let s0 := interfere others s in
      let out := Ok (listDocuments qs s0) in
      record (EvListUsers qs out) (run_interleaved (tl others) (k out) s0)
  | CreateUser data k =>
      let s0 := interfere others s in
      let '(out, s1) := createDocument data s0 in
      record (EvCreateUser data out) (run_interleaved (tl others) (k out) s1)
  | UpdateUser i p k =>
      let s0 := interfere others s in
      let '(out, s1) := updateDocument i p s0 in
      record (EvUpdateUser i p out) (run_interleaved (tl others) (k out) s1)
  | CreateRole data k =>
      let s0 := interfere others s in
      let '(out, s1) := createRoleDocument data s0 in
      record (EvCreateRole data out) (run_interleaved (tl others) (k out) s1)
  end.

(** A request handled with no other request in flight and no failing call. *)
Definition run (p : prog) (s : store) : outcome := run_interleaved [] p s.

(** Whether the next directory call fails: the head of [faults]. *)
Definition fails (faults : list bool) : bool :=
  match faults with
  | b :: _ => b
  | [] => false
  end.

(** Runs a handler alone against a directory whose calls can fail: a call
    marked in [faults] (one entry per await) throws [ServiceFailure] and
    leaves the store as it is, any other call is carried out. *)
Fixpoint run_faulty (faults : list bool) (p : prog) (s : store) : outcome :=
  match p with
  | Return r => (r, s, [])
  | ListUsers qs k =>
      let out := if fails faults then Threw ServiceFailure else Ok (listDocuments qs s) in
      record (EvListUsers qs out) (run_faulty (tl faults) (k out) s)
  | CreateUser data k =>
      let '(out, s1) :=
        if fails faults then (Threw ServiceFailure, s) else createDocument data s in
      record (EvCreateUser data out) (run_faulty (tl faults) (k out) s1)
  | UpdateUser i p k =>
      let '(out, s1) :=
        if fails faults then (Threw ServiceFailure, s) else updateDocument i p s in
      record (EvUpdateUser i p out) (run_faulty (tl faults) (k out) s1)
  | CreateRole data k =>
      let '(out, s1) :=
        if fails faults then (Threw ServiceFailure, s) else createRoleDocument data s in
      record (EvCreateRole data out) (run_faulty (tl faults) (k out) s1)
  end.

Definition response (o : outcome) : Res.t := fst (fst o).
Definition final (o : outcome) : store := snd (fst o).
Definition trace (o : outcome) : list event := snd o.

(** ** Request payloads and configuration *)

Module Req.

(** The fields the four handlers destructure from the parsed body. *)
Record t : Type := mk {
  bsvAddress : option string;
  appPublicKey : option string;
  rootPrincipal : option string;
  username : option string;
  displayName : option string;
  avatar : option string;
  role : option string;
  timestamp : option Z;
  signature : option string
}.

Definition with_signature (sig : option string) (p : t) : t :=
  mk (bsvAddress p) (appPublicKey p) (rootPrincipal p) (username p)
     (displayName p) (avatar p) (role p) (timestamp p) sig.

Definition with_timestamp (ts : option Z) (p : t) : t :=
  mk (bsvAddress p) (appPublicKey p) (rootPrincipal p) (username p)
     (displayName p) (avatar p) (role p) ts (signature p).

End Req.

(** [process.env] *)
Record Env : Type := mkEnv {
  VITE_DEFAULT_ROLE : option string
}.

(** ** register-metanet-user *)

Definition register (env : Env) (payload : Req.t) (now : Z) : prog :=
  let bsvAddress := Req.bsvAddress payload in
  let appPublicKey := Req.appPublicKey payload in
  let rootPrincipal := Req.rootPrincipal payload in
  let username := Req.username payload in
  let displayName := Req.displayName payload in
  let avatar := Req.avatar payload in
  let timestamp := Req.timestamp payload in
  let signature := Req.signature payload in
  let catch err := Return (Res.failure (Message err) "REGISTRATION_ERROR" 500) in
  if negb (JS.truthy bsvAddress) || negb (JS.truthy appPublicKey)
     || negb (JS.truthy signature) || negb (JS.truthy_num timestamp)
  then
    Return (Res.failure
              (Text "Missing required fields: bsvAddress, appPublicKey, signature, and timestamp")
              "MISSING_FIELDS" 400)
  else
    let timeDiff := JS.Math_abs (JS.minus now timestamp) in
    if JS.gt timeDiff 300000 then
      Return (Res.failure (Text "Request expired. Timestamp too old.") "EXPIRED_REQUEST" 400)
    else
      (* the signature is not checked: the source leaves it as a TODO *)
      await (ListUsers [Query_equal A_bsvAddress bsvAddress]) catch (fun existingBsvUsers =>
      if (0 <? List.length existingBsvUsers)%nat then
        Return (Res.failure (Text "BSV address already registered") "ADDRESS_EXISTS" 409)
      else
      await (ListUsers [Query_equal A_appPublicKey appPublicKey]) catch (fun existingKeyUsers =>
      if (0 <? List.length existingKeyUsers)%nat then
        Return (Res.failure (Text "App public key already registered") "KEY_EXISTS" 409)
      else
      await (CreateUser
               (Doc.mk 0 bsvAddress appPublicKey
                  (JS.or_else rootPrincipal (Some ""))
                  (Some "")
                  (JS.or_else username (Some ""))
                  (JS.or_else displayName (Some ""))
                  (JS.or_else avatar (Some ""))
                  (Some "")
                  (JS.or_else (VITE_DEFAULT_ROLE env) (Some "user"))
                  (Some true)
                  (Some now)
                  (Some (MetaRegistered now "metanet-scaffold"
                           (match appPublicKey with Some k => k | None => "" end)))
                  None None))
            catch (fun newUser =>
      await (CreateRole
               (RoleDoc.mk 0 bsvAddress
                  (JS.or_else (VITE_DEFAULT_ROLE env) (Some "user"))
                  ["read:own"; "write:own"; "delete:own"]
                  "system" now))
            catch (fun _ =>
      Return (Res.mk 201 true None None (Some true) (Some newUser) false))))).

(** ** authenticate-metanet-user *)

Definition authenticate (payload : Req.t) (now : Z) : prog :=
  let bsvAddress := Req.bsvAddress payload in
  let appPublicKey := Req.appPublicKey payload in
  let timestamp := Req.timestamp payload in
  let signature := Req.signature payload in
  let catch err := Return (Res.failure (Message err) "AUTH_ERROR" 500) in
  if negb (JS.truthy bsvAddress) || negb (JS.truthy appPublicKey)
     || negb (JS.truthy_num timestamp) || negb (JS.truthy signature)
  then
    Return (Res.failure
              (Text "Missing required fields: bsvAddress, appPublicKey, timestamp, and signature")
              "MISSING_FIELDS" 400)
  else
    let timeDiff := JS.Math_abs (JS.minus now timestamp) in
    if JS.gt timeDiff 300000 then
      Return (Res.failure (Text "Request expired. Timestamp too old.") "EXPIRED_REQUEST" 400)
    else
      await (ListUsers [Query_equal A_bsvAddress bsvAddress]) catch (fun documents =>
      match documents with
      | user :: _ =>
          if JS.strict_neq (Doc.appPublicKey user) appPublicKey then
            Return (Res.failure (Text "Invalid app public key for this user") "INVALID_KEY" 401)
          else
            await (UpdateUser (Doc.id user)
                     (Patch.mk None None None (Some now) None None))
                  catch (fun user =>
            Return (Res.mk 200 true None None (Some false) (Some user) false))
      | [] =>
          Return (Res.mk 404 false (Some "USER_NOT_FOUND") (Some (Text "User not registered"))
                         None None true)
      end).

(** ** grant-user-role (self-service) *)

Definition validRoles : list string := ["admin"; "moderator"; "user"].

(** [u.roles ? JSON.parse(u.roles) : []] *)
Definition parse_roles (u : Doc.t) : list string :=
  match Doc.roles u with
  | Some l => l
  | None => []
  end.

Definition grantUserRole (payload : Req.t) (now : Z) : prog :=
  let appPublicKey := Req.appPublicKey payload in
  let role := Req.role payload in
  let timestamp := Req.timestamp payload in
  let signature := Req.signature payload in
  let catch err := Return (Res.failure (Message err) "GRANT_ERROR" 500) in
  if negb (JS.truthy appPublicKey) || negb (JS.truthy role)
     || negb (JS.truthy_num timestamp) || negb (JS.truthy signature)
  then
    Return (Res.failure
              (Text "Missing required fields: appPublicKey, role, timestamp, signature")
              "MISSING_FIELDS" 400)
  else
    match role with
    | None => Return (Res.failure (Text "Invalid role") "INVALID_ROLE" 400)
    | Some role =>
    if negb (JS.includes validRoles role) then
      Return (Res.failure (Text "Invalid role") "INVALID_ROLE" 400)
    else
    let timeDiff := JS.Math_abs (JS.minus now timestamp) in
    if JS.gt timeDiff 300000 then
      Return (Res.failure (Text "Request expired") "EXPIRED_REQUEST" 400)
    else
      (* TODO of the source: verify signature *)
      await (ListUsers [Query_equal A_appPublicKey appPublicKey]) catch (fun documents =>
      match documents with
      | [] =>
          Return (Res.failure (Text "User not found. Please register first.")
                              "USER_NOT_FOUND" 404)
      | user :: _ =>
          let rolesArray := parse_roles user in
          let isCurrentUserAdmin := JS.includes rolesArray "admin" in
          await (ListUsers []) catch (fun allUsers =>
          let hasExistingAdmin :=
            existsb (fun u => JS.includes (parse_roles u) "admin") allUsers in
          if hasExistingAdmin && negb isCurrentUserAdmin then
            Return (Res.failure
                      (Text "Only admins can grant roles. First admin can self-assign.")
                      "UNAUTHORIZED" 403)
          else
            let rolesArray :=
              if negb (JS.includes rolesArray role)
              then (rolesArray ++ [role])%list
              else rolesArray in
            await (UpdateUser (Doc.id user)
                     (Patch.mk None None None None (Some rolesArray) (Some "active")))
                  catch (fun updatedUser =>
            Return (Res.mk 200 true None None None (Some updatedUser) false)))
      end)
    end.

(** ** auth-or-register *)

Definition authOrRegister (payload : Req.t) (now : Z) : prog :=
  let appPublicKey := Req.appPublicKey payload in
  let username := Req.username payload in
  let displayName := Req.displayName payload in
  let avatar := Req.avatar payload in
  let timestamp := Req.timestamp payload in
  let signature := Req.signature payload in
  let catch err := Return (Res.failure (Message err) "AUTH_ERROR" 500) in
  let respond isNewUser user :=
    Return (Res.mk 200 true None None (Some isNewUser) (Some user) false) in
  if negb (JS.truthy appPublicKey) || negb (JS.truthy_num timestamp)
     || negb (JS.truthy signature)
  then
    Return (Res.failure
              (Text "Missing required fields: appPublicKey, timestamp, and signature")
              "MISSING_FIELDS" 400)
  else
    let timeDiff := JS.Math_abs (JS.minus now timestamp) in
    if JS.gt timeDiff 300000 then
      Return (Res.failure (Text "Request expired. Timestamp too old.") "EXPIRED_REQUEST" 400)
    else
      await (ListUsers [Query_equal A_appPublicKey appPublicKey]) catch (fun documents =>
      match documents with
      | user :: _ =>
          (* User exists - authenticate *)
          let updates :=
            Patch.mk
              (if JS.truthy username && JS.strict_neq username (Doc.username user)
               then username else None)
              (if JS.truthy displayName && JS.strict_neq displayName (Doc.displayName user)
               then displayName else None)
              (if JS.truthy avatar && JS.strict_neq avatar (Doc.avatar user)
               then avatar else None)
              None None None in
          if Patch.nonempty updates then
            await (UpdateUser (Doc.id user) updates) catch (fun user => respond false user)
          else respond false user
      | [] =>
          (* User doesn't exist - register *)
          let create :=
            await (CreateUser
                     (Doc.mk 0 None appPublicKey None None
                        (JS.or_else username None)
                        (JS.or_else displayName None)
                        (JS.or_else avatar None)
                        None None None None (Some MetaEmpty) None None))
                  catch (fun user => respond true user) in
          if JS.truthy username then
            await (ListUsers [Query_equal A_username username]) catch (fun existingUsername =>
            if (0 <? List.length existingUsername)%nat then
              Return (Res.failure (Text "Username already taken") "USERNAME_TAKEN" 409)
            else create)
          else create
      end).

(** ** Vocabulary of the properties *)

(** The request was answered with [c] and [http] without one directory
    call, and the store is as it was. *)
Definition rejected_untouched (c : string) (http : Z) (s : store) (o : outcome) : Prop :=
  Res.statusCode (response o) = http /\
  Res.code (response o) = Some c /\
  Res.success (response o) = false /\
  trace o = [] /\
  final o = s.

(** A payload in which one of the three fields every handler requires is
    falsy. *)
Definition falsy_required (payload : Req.t) : bool :=
  negb (JS.truthy (Req.appPublicKey payload))
  || negb (JS.truthy (Req.signature payload))
  || negb (JS.truthy_num (Req.timestamp payload)).

(** The request was answered with the expiry rejection. *)
Definition expired (o : outcome) : Prop :=
  Res.statusCode (response o) = 400 /\ Res.code (response o) = Some "EXPIRED_REQUEST".

(** The handler's freshness test passes at server time [now]. *)
Definition fresh (payload : Req.t) (now : Z) : bool :=
  negb (JS.gt (JS.Math_abs (JS.minus now (Req.timestamp payload))) 300000).

(** The lookup by signing key that auth-or-register and the grant start with. *)
Definition by_key (payload : Req.t) : list query :=
  [Query_equal A_appPublicKey (Req.appPublicKey payload)].

(** The request was answered as an authenticated, existing user. *)
Definition authenticated (o : outcome) : Prop :=
  Res.statusCode (response o) = 200 /\
  Res.success (response o) = true /\
  Res.code (response o) = None /\
  Res.isNewUser (response o) = Some false.

(** Some record of the directory holds the [admin] role. *)
Definition has_admin (s : store) : bool :=
  existsb (fun u => JS.includes (parse_roles u) "admin") (users s).

(** The grant went through: HTTP 200, and the caller's record in the store
    now carries [role] and an active status. *)
Definition granted (role : string) (caller : Doc.t) (o : outcome) : Prop :=
  Res.statusCode (response o) = 200 /\
  Res.success (response o) = true /\
  exists u,
    Res.user (response o) = Some u /\
    In u (users (final o)) /\
    Doc.id u = Doc.id caller /\
    JS.includes (parse_roles u) role = true /\
    Doc.status u = Some "active".



(** A record with a non-empty role: a truthy [role] attribute or a
    non-empty [roles] array. *)
Definition has_role (d : Doc.t) : bool :=
  JS.truthy (Doc.role d) || (0 <? List.length (parse_roles d))%nat.

(** A record with an active status: [isActive] true or [status] ['active']. *)
Definition is_active (d : Doc.t) : bool :=
  match Doc.isActive d, Doc.status d with
  | Some true, _ => true
  | _, Some st => String.eqb st "active"
  | _, None => false
  end.

(** The claim that every record a request creates has a baseline role and
    an active status. *)
Definition created_with_baseline (o : outcome) : Prop :=
  forall data doc,
    In (EvCreateUser data (Ok doc)) (trace o) ->
    has_role doc = true /\ is_active doc = true.

(** The claim that a create lost to a concurrent request is recovered:
    the caller is answered as an authenticated, existing user. *)
Definition duplicate_key_recovered (others : list (store -> store))
  (payload : Req.t) (now : Z) (s : store) : Prop :=
  let o := run_interleaved others (authOrRegister payload now) s in
  (exists data, In (EvCreateUser data (Threw DuplicateKey)) (trace o)) ->
  Res.success (response o) = true /\
  Res.isNewUser (response o) = Some false /\
  Res.statusCode (response o) <> 500.

(** ** Sample requests *)

Definition sample_env : Env := mkEnv (Some "user").

Definition sample_now : Z := 1700000000000.

Definition alice : Req.t :=
  Req.mk (Some "1AliceAddr") (Some "02a1") None (Some "alice") (Some "Alice") None
         (Some "admin") (Some sample_now) (Some "3044aa").

Definition bob : Req.t :=
  Req.mk (Some "1BobAddr") (Some "02b2") None (Some "bob") None None
         (Some "admin") (Some sample_now) (Some "3044bb").

(** A payload of [alice] whose signature is not a signature at all. *)
Definition forged : Req.t := Req.with_signature (Some "not-a-signature") alice.


(** The store after [alice] registered through auth-or-register. *)
Definition alice_registered : store :=
  final (run (authOrRegister alice sample_now) empty_store).

(** A concurrent request with the key of [alice] that runs to completion
    between two awaits of another request. *)
Definition concurrent_winner (s : store) : store :=
  final (run (authOrRegister alice sample_now) s).

(** The store after [alice] and then [bob] registered. *)
Definition both_registered : store :=
  final (run (authOrRegister bob sample_now) alice_registered).

(** The store after [alice], registered next to [bob], took the admin role. *)
Definition alice_is_admin : store :=
  final (run (grantUserRole alice sample_now) both_registered).

(** The store after [alice] registered through register-metanet-user. *)
Definition alice_registered_by_address : store :=
  final (run (register sample_env alice sample_now) empty_store).

From Stdlib Require Import Ascii DecimalString.

(** * The wider directory

    The admin-to-target grant-user-role handler and the content function
    (generate-bunny-upload-url/src/index.js) read and write two more
    collections, roles (with an expiry) and content, and look users up by
    attributes the four handlers above do not query.  They are embedded
    the same way, as trees of directory calls over a wider store. *)

(** [JSON.stringify(rolePermissions)] as stored in the [permissions]
    attribute of a role assignment. *)
Inductive permissions_json : Type :=
| JArray (l : list string)
| JEmptyObject.

Module Assignment.

(** A document of the roles collection; [permissions] and [expiresAt] are
    [None] when null. *)
Record t : Type := mk {
  id : nat;
  userPrincipal : option string;
  roleName : option string;
  permissions : option permissions_json;
  grantedBy : option string;
  grantedAt : Z;
  expiresAt : option string
}.

Definition set_id (n : nat) (d : t) : t :=
  mk n (userPrincipal d) (roleName d) (permissions d) (grantedBy d) (grantedAt d)
     (expiresAt d).

(** The assignment register writes, read back from the roles collection. *)
Definition of_role_doc (d : RoleDoc.t) : t :=
  mk (RoleDoc.id d) (RoleDoc.userPrincipal d) (RoleDoc.roleName d)
     (Some (JArray (RoleDoc.permissions d))) (Some (RoleDoc.grantedBy d))
     (RoleDoc.grantedAt d) None.

(** The object the admin grant hands to [updateDocument]: [permissions] is
    dropped from the request when it serializes to [undefined]; the other
    three keys are always sent. *)
Record patch : Type := mkPatch {
  p_permissions : option permissions_json;
  p_grantedBy : option string;
  p_grantedAt : Z;
  p_expiresAt : option string
}.

Definition apply (p : patch) (d : t) : t :=
  mk (id d) (userPrincipal d) (roleName d)
     (Patch.over (p_permissions p) (permissions d))
     (p_grantedBy p) (p_grantedAt p) (p_expiresAt p).

End Assignment.

(** The object [JSON.stringify(metadata)] of a content record. *)
Record content_metadata : Type := mkMeta {
  m_fileName : option string;
  m_fileType : option string;
  m_contentType : option string;
  m_fileSize : Z;
  m_uploadedAt : Z
}.

Module Content.

(** A document of the content collection; [userId] is the [$id] of the
    owner's user document. *)
Record t : Type := mk {
  id : nat;
  userId : nat;
  contentId : option string;
  namespace : option string;
  status : option string;
  metadata : option content_metadata
}.

Definition set_id (n : nat) (d : t) : t :=
  mk n (userId d) (contentId d) (namespace d) (status d) (metadata d).

End Content.

Module World.

Record t : Type := mk {
  users : list Doc.t;
  roles : list Assignment.t;
  contents : list Content.t;
  next_id : nat
}.

Definition empty : t := mk [] [] [] 0.

End World.

(** The attributes the wider handlers look users up by. *)
Inductive user_key : Type :=
| By_metanetPrincipal
| By_appPublicKey.

Definition key_of (by_ : user_key) (d : Doc.t) : option string :=
  match by_ with
  | By_metanetPrincipal => Doc.metanetPrincipal d
  | By_appPublicKey => Doc.appPublicKey d
  end.

(** [listDocuments(db, users, [Query.equal(attribute, v)])] *)
Definition findUsers (by_ : user_key) (v : option string) (w : World.t) : list Doc.t :=
  page (filter (fun d => same_value v (key_of by_ d)) (World.users w)).

Definition with_role (r : option string) (d : Doc.t) : Doc.t :=
  Doc.mk (Doc.id d) (Doc.bsvAddress d) (Doc.appPublicKey d) (Doc.metanetPrincipal d)
         (Doc.bsvPublicKey d) (Doc.username d) (Doc.displayName d) (Doc.avatar d)
         (Doc.bio d) r (Doc.isActive d) (Doc.lastLogin d) (Doc.metadata d)
         (Doc.roles d) (Doc.status d).

(** Replaces the first document of [l] whose id is [i] by its image under [f]. *)
Fixpoint replace_first {A : Type} (id_of : A -> nat) (f : A -> A) (i : nat) (l : list A)
  : option (A * list A) :=
  match l with
  | [] => None
  | d :: rest =>
      if Nat.eqb (id_of d) i then Some (f d, f d :: rest)
      else
        match replace_first id_of f i rest with
        | Some (d', rest') => Some (d', d :: rest')
        | None => None
        end
  end.

(** [updateDocument(db, users, id, { role })] *)
Definition setUserRole (i : nat) (r : option string) (w : World.t)
  : result Doc.t * World.t :=
  match replace_first Doc.id (with_role r) i (World.users w) with
  | Some (d', us) =>
      (Ok d', World.mk us (World.roles w) (World.contents w) (World.next_id w))
  | None => (Threw DocumentNotFound, w)
  end.

(** [listDocuments(db, roles, [Query.equal('userPrincipal', p),
    Query.equal('roleName', r)])] *)
Definition findAssignments (p r : option string) (w : World.t) : list Assignment.t :=
  page (filter (fun a => same_value p (Assignment.userPrincipal a)
                         && same_value r (Assignment.roleName a))
               (World.roles w)).

(** [updateDocument(db, roles, id, patch)] *)
Definition updateAssignment (i : nat) (p : Assignment.patch) (w : World.t)
  : result Assignment.t * World.t :=
  match replace_first Assignment.id (Assignment.apply p) i (World.roles w) with
  | Some (d', rs) =>
      (Ok d', World.mk (World.users w) rs (World.contents w) (World.next_id w))
  | None => (Threw DocumentNotFound, w)
  end.

(** [createDocument(db, roles, ID.unique(), data)].  The store has no rule
    of its own to refuse the document; a call that fails for another reason
    is a fault of [serve_faulty]. *)
Definition createAssignment (data : Assignment.t) (w : World.t)
  : result Assignment.t * World.t :=
  let doc := Assignment.set_id (World.next_id w) data in
  (Ok doc, World.mk (World.users w) (World.roles w ++ [doc])%list (World.contents w)
                    (S (World.next_id w))).

(** [createDocument(db, content, ID.unique(), data)] *)
Definition createContent (data : Content.t) (w : World.t)
  : result Content.t * World.t :=
  let doc := Content.set_id (World.next_id w) data in
  (Ok doc, World.mk (World.users w) (World.roles w) (World.contents w ++ [doc])%list
                    (S (World.next_id w))).

(** [listDocuments(db, content, [Query.equal('userId', u),
    Query.equal('namespace', n), Query.orderDesc('$createdAt')])]:
    the store keeps documents in creation order, so newest first is the
    reverse; the answer is its first page. *)
Definition findContents (u : nat) (n : option string) (w : World.t) : list Content.t :=
  page (rev (filter (fun c => Nat.eqb (Content.userId c) u
                              && same_value n (Content.namespace c))
                    (World.contents w))).

(** ** Replies of the wider handlers *)

(** The value of [rolePermissions] in the admin grant: an array of
    permission strings, or what [defaultPermissions[newRole]] finds on
    [Object.prototype] when [newRole] names one of its members. *)
Inductive role_permissions : Type :=
| Permissions (l : list string)
| InheritedMethod (name : string)
| InheritedPrototype.

(** One element of the [contents] array of a list-content reply. *)
Record content_item : Type := mkItem {
  i_id : nat;
  i_contentId : option string;
  i_namespace : option string;
  i_cdnUrl : string;
  i_status : option string;
  i_metadata : option content_metadata
}.

(** What a successful reply computes; fields that only echo the request
    are left out. *)
Inductive reply_body : Type :=
| NoBody
| Granted (targetUser : Doc.t) (newRole : option string) (permissions : role_permissions)
| Upload (uploadUrl : string) (accessKey : option string) (contentTypeHeader : option string)
         (contentId : string) (uploadedBy : nat) (streaming : option string)
| Saved (content : Content.t) (cdnUrl : string) (metadata : content_metadata)
| Listing (namespace : option string) (contents : list content_item) (total : nat).

Module Reply.

Record t : Type := mk {
  statusCode : Z;
  success : bool;
  code : option string;
  error : option error_text;
  body : reply_body
}.

Definition failure (e : error_text) (c : string) (http : Z) : t :=
  mk http false (Some c) (Some e) NoBody.

Definition ok (b : reply_body) : t := mk 200 true None None b.

End Reply.

(** ** Programs over the wider directory *)

Inductive wprog : Type :=
| Answer (r : Reply.t)
| FindUsers (by_ : user_key) (v : option string) (k : result (list Doc.t) -> wprog)
| SetUserRole (i : nat) (r : option string) (k : result Doc.t -> wprog)
| FindAssignments (p r : option string) (k : result (list Assignment.t) -> wprog)
| UpdateAssignment (i : nat) (p : Assignment.patch) (k : result Assignment.t -> wprog)
| CreateAssignment (data : Assignment.t) (k : result Assignment.t -> wprog)
| CreateContent (data : Content.t) (k : result Content.t -> wprog)
| FindContents (u : nat) (n : option string) (k : result (list Content.t) -> wprog).

(** [const x = await call] inside [try { ... } catch (err) { handler }]. *)
Definition wawait {A : Type} (call : (result A -> wprog) -> wprog)
  (catch : exn -> wprog) (k : A -> wprog) : wprog :=
  call (fun r => match r with
                 | Ok a => k a
                 | Threw e => catch e
                 end).

(** The collection a directory call touches, and how. *)
Inductive access : Type :=
| ReadUsers
| WriteUsers
| ReadRoles
| WriteRoles
| ReadContents
| WriteContents.

Definition served : Type := (Reply.t * World.t * list access)%type.

Definition logged (a : access) (o : served) : served :=
  let '(r, w, tr) := o in (r, w, a :: tr).

(** Runs a handler of the wider directory, one request at a time, every
    directory call being carried out. *)
Fixpoint serve (p : wprog) (w : World.t) : served :=
  match p with
  | Answer r => (r, w, [])
  | FindUsers by_ v k => logged ReadUsers (serve (k (Ok (findUsers by_ v w))) w)
  | SetUserRole i r k =>
      let '(out, w1) := setUserRole i r w in logged WriteUsers (serve (k out) w1)
  | FindAssignments p r k => logged ReadRoles (serve (k (Ok (findAssignments p r w))) w)
  | UpdateAssignment i p k =>
      let '(out, w1) := updateAssignment i p w in logged WriteRoles (serve (k out) w1)
  | CreateAssignment data k =>
      let '(out, w1) := createAssignment data w in logged WriteRoles (serve (k out) w1)
  | CreateContent data k =>
      let '(out, w1) := createContent data w in logged WriteContents (serve (k out) w1)
  | FindContents u n k => logged ReadContents (serve (k (Ok (findContents u n w))) w)
  end.

(** Runs a handler of the wider directory whose calls can fail: a call
    marked in [faults] throws [ServiceFailure] and leaves the directory as
    it is. *)
Fixpoint serve_faulty (faults : list bool) (p : wprog) (w : World.t) : served :=
  match p with
  | Answer r => (r, w, [])
  | FindUsers by_ v k =>
      let out := if fails faults then Threw ServiceFailure else Ok (findUsers by_ v w) in
      logged ReadUsers (serve_faulty (tl faults) (k out) w)
  | SetUserRole i r k =>
      let '(out, w1) :=
        if fails faults then (Threw ServiceFailure, w) else setUserRole i r w in
      logged WriteUsers (serve_faulty (tl faults) (k out) w1)
  | FindAssignments p r k =>
      let out := if fails faults then Threw ServiceFailure else Ok (findAssignments p r w) in
      logged ReadRoles (serve_faulty (tl faults) (k out) w)
  | UpdateAssignment i p k =>
      let '(out, w1) :=
        if fails faults then (Threw ServiceFailure, w) else updateAssignment i p w in
      logged WriteRoles (serve_faulty (tl faults) (k out) w1)
  | CreateAssignment data k =>
      let '(out, w1) :=
        if fails faults then (Threw ServiceFailure, w) else createAssignment data w in
      logged WriteRoles (serve_faulty (tl faults) (k out) w1)
  | CreateContent data k =>
      let '(out, w1) :=
        if fails faults then (Threw ServiceFailure, w) else createContent data w in
      logged WriteContents (serve_faulty (tl faults) (k out) w1)
  | FindContents u n k =>
      let out := if fails faults then Threw ServiceFailure else Ok (findContents u n w) in
      logged ReadContents (serve_faulty (tl faults) (k out) w)
  end.

Definition reply (o : served) : Reply.t := fst (fst o).
Definition world (o : served) : World.t := snd (fst o).
Definition accesses (o : served) : list access := snd o.

(** ** grant-user-role (admin to target) *)

Module GrantReq.

Record t : Type := mk {
  adminPrincipal : option string;
  targetPrincipal : option string;
  newRole : option string;
  permissions : option (list string);
  expiresAt : option string
}.

End GrantReq.

(** The property names every object inherits from [Object.prototype];
    all but [__proto__] are methods. *)
Definition object_prototype_methods : list string :=
  ["constructor"; "hasOwnProperty"; "isPrototypeOf"; "propertyIsEnumerable";
   "toLocaleString"; "toString"; "valueOf";
   "__defineGetter__"; "__defineSetter__"; "__lookupGetter__"; "__lookupSetter__"].

(** [defaultPermissions[newRole]]; [None] is [undefined]. *)
Definition defaultPermissions (newRole : string) : option role_permissions :=
  if String.eqb newRole "admin" then
    Some (Permissions ["read:all"; "write:all"; "delete:all"; "manage:users"; "manage:roles"])
  else if String.eqb newRole "moderator" then
    Some (Permissions ["read:all"; "write:all"; "delete:own"; "moderate:content"])
  else if String.eqb newRole "user" then
    Some (Permissions ["read:own"; "write:own"; "delete:own"])
  else if String.eqb newRole "__proto__" then Some InheritedPrototype
  else if JS.includes object_prototype_methods newRole then Some (InheritedMethod newRole)
  else None.

(** [permissions || defaultPermissions[newRole] || ['read:own']]: an array,
    even an empty one, is truthy, and so is every inherited member. *)
Definition resolve_permissions (permissions : option (list string)) (newRole : string)
  : role_permissions :=
  match permissions with
  | Some l => Permissions l
  | None =>
      match defaultPermissions newRole with
      | Some p => p
      | None => Permissions ["read:own"]
      end
  end.

(** [JSON.stringify(rolePermissions)]; a function serializes to [undefined]. *)
Definition stringify_permissions (p : role_permissions) : option permissions_json :=
  match p with
  | Permissions l => Some (JArray l)
  | InheritedMethod _ => None
  | InheritedPrototype => Some JEmptyObject
  end.

Definition grantUserRoleByAdmin (payload : GrantReq.t) (now : Z) : wprog :=
  let adminPrincipal := GrantReq.adminPrincipal payload in
  let targetPrincipal := GrantReq.targetPrincipal payload in
  let newRole := GrantReq.newRole payload in
  let permissions := GrantReq.permissions payload in
  let expiresAt := GrantReq.expiresAt payload in
  let catch err := Answer (Reply.failure (Message err) "GRANT_ROLE_ERROR" 500) in
  if negb (JS.truthy adminPrincipal) || negb (JS.truthy targetPrincipal)
     || negb (JS.truthy newRole)
  then
    Answer (Reply.failure
              (Text "Missing required fields: adminPrincipal, targetPrincipal, and newRole")
              "MISSING_FIELDS" 400)
  else
    wawait (FindUsers By_metanetPrincipal adminPrincipal) catch (fun adminUsers =>
    match adminUsers with
    | [] => Answer (Reply.failure (Text "Admin user not found") "ADMIN_NOT_FOUND" 404)
    | admin :: _ =>
    if JS.strict_neq (Doc.role admin) (Some "admin") then
      Answer (Reply.failure (Text "Insufficient permissions. Admin role required.")
                            "INSUFFICIENT_PERMISSIONS" 403)
    else
    wawait (FindUsers By_metanetPrincipal targetPrincipal) catch (fun targetUsers =>
    match targetUsers with
    | [] => Answer (Reply.failure (Text "Target user not found") "TARGET_NOT_FOUND" 404)
    | targetUser :: _ =>
    wawait (SetUserRole (Doc.id targetUser) newRole) catch (fun _ =>
    wawait (FindAssignments targetPrincipal newRole) catch (fun existingRoles =>
    let rolePermissions :=
      resolve_permissions permissions (match newRole with Some r => r | None => "" end) in
    let done_ := Answer (Reply.ok (Granted targetUser newRole rolePermissions)) in
    match existingRoles with
    | existing :: _ =>
        wawait (UpdateAssignment (Assignment.id existing)
                  (Assignment.mkPatch (stringify_permissions rolePermissions)
                     adminPrincipal now (JS.or_else expiresAt None)))
               catch (fun _ => done_)
    | [] =>
        wawait (CreateAssignment
                  (Assignment.mk 0 targetPrincipal newRole
                     (stringify_permissions rolePermissions)
                     adminPrincipal now (JS.or_else expiresAt None)))
               catch (fun _ => done_)
    end))
    end)
    end).

(** ** The content function (generate-bunny-upload-url) *)

Module ContentReq.

Record t : Type := mk {
  action : option string;
  appPublicKey : option string;
  timestamp : option Z;
  signature : option string;
  fileName : option string;
  fileType : option string;
  contentType : option string;
  contentId : option string;
  fileSize : option Z;
  namespace : option string
}.

End ContentReq.

(** [process.env] of the content function. *)
Record BunnyEnv : Type := mkBunnyEnv {
  BUNNY_STORAGE_ZONE : option string;
  BUNNY_STORAGE_PASSWORD : option string;
  BUNNY_STREAM_LIBRARY_ID : option string;
  BUNNY_STREAM_API_KEY : option string;
  BUNNY_HOSTNAME : option string
}.

(** A value interpolated into a template literal. *)
Definition interpolate (v : option string) : string :=
  match v with
  | Some s => s
  | None => "undefined"
  end.

(** The characters the class [[a-zA-Z0-9.-]] accepts. *)
Definition safe_char (c : Ascii.ascii) : bool :=
  let n := Ascii.nat_of_ascii c in
  ((97 <=? n) && (n <=? 122) || (65 <=? n) && (n <=? 90) || (48 <=? n) && (n <=? 57)
   || (n =? 46) || (n =? 45))%nat.

(** [fileName.replace(/[^a-zA-Z0-9.-]/g, '_')], a string being its
    sequence of code units. *)
Fixpoint sanitize (fileName : string) : string :=
  match fileName with
  | EmptyString => EmptyString
  | String c rest => String (if safe_char c then c else "_"%char) (sanitize rest)
  end.

(** [cdnUrl]: [`https://${process.env.BUNNY_HOSTNAME}/${contentId}`] *)
Definition cdnUrl_of (env : BunnyEnv) (contentId : option string) : string :=
  "https://" ++ interpolate (BUNNY_HOSTNAME env) ++ "/" ++ interpolate contentId.

(** [fileSize || 0] *)
Definition size_or_zero (v : option Z) : Z :=
  match v with
  | Some n => n
  | None => 0
  end.

Definition handleSaveContent (env : BunnyEnv) (payload : ContentReq.t) (now : Z) : wprog :=
  let appPublicKey := ContentReq.appPublicKey payload in
  let contentId := ContentReq.contentId payload in
  let fileName := ContentReq.fileName payload in
  let fileType := ContentReq.fileType payload in
  let contentType := ContentReq.contentType payload in
  let fileSize := ContentReq.fileSize payload in
  let namespace := ContentReq.namespace payload in
  let catch saveError := Answer (Reply.failure (Message saveError) "SAVE_ERROR" 500) in
  if negb (JS.truthy contentId) then
    Answer (Reply.failure (Text "Missing required field: contentId") "MISSING_FIELDS" 400)
  else
    let contentNamespace := JS.or_else namespace (Some "uploads") in
    wawait (FindUsers By_appPublicKey appPublicKey) catch (fun documents =>
    match documents with
    | [] => Answer (Reply.failure (Text "User not found") "USER_NOT_FOUND" 404)
    | user :: _ =>
        let userId := Doc.id user in
        let metadata :=
          mkMeta (JS.or_else fileName (Some "unnamed"))
                 (JS.or_else fileType (Some "file"))
                 (JS.or_else contentType (Some "application/octet-stream"))
                 (size_or_zero fileSize)
                 now in
        wawait (CreateContent
                  (Content.mk 0 userId contentId contentNamespace (Some "active")
                              (Some metadata)))
               catch (fun content =>
        Answer (Reply.ok (Saved content (cdnUrl_of env contentId) metadata)))
    end).

(** One element of [contentResponse.documents.map(...)]. *)
Definition item_of (env : BunnyEnv) (doc : Content.t) : content_item :=
  mkItem (Content.id doc) (Content.contentId doc) (Content.namespace doc)
         (cdnUrl_of env (Content.contentId doc)) (Content.status doc)
         (Content.metadata doc).

Definition handleListContent (env : BunnyEnv) (payload : ContentReq.t) : wprog :=
  let appPublicKey := ContentReq.appPublicKey payload in
  let namespace := ContentReq.namespace payload in
  let catch listError := Answer (Reply.failure (Message listError) "LIST_ERROR" 500) in
  let contentNamespace := JS.or_else namespace (Some "uploads") in
  wawait (FindUsers By_appPublicKey appPublicKey) catch (fun documents =>
  match documents with
  | [] => Answer (Reply.failure (Text "User not found") "USER_NOT_FOUND" 404)
  | user :: _ =>
      let userId := Doc.id user in
      wawait (FindContents userId contentNamespace) catch (fun documents =>
      let contents := map (item_of env) documents in
      Answer (Reply.ok (Listing contentNamespace contents (List.length contents))))
  end).

(** The default export.  [id_text] renders a document [$id],
    [randomString] is [crypto.randomBytes(8).toString('hex')], and [now]
    is the server clock, read once for the whole request. *)
Definition contentFunction (env : BunnyEnv) (id_text : nat -> string)
  (randomString : string) (payload : ContentReq.t) (now : Z) : wprog :=
  let action := ContentReq.action payload in
  let appPublicKey := ContentReq.appPublicKey payload in
  let timestamp := ContentReq.timestamp payload in
  let signature := ContentReq.signature payload in
  if negb (JS.truthy appPublicKey) || negb (JS.truthy signature)
     || negb (JS.truthy_num timestamp)
  then
    Answer (Reply.failure (Text "Missing required fields: appPublicKey, signature, timestamp")
                          "MISSING_FIELDS" 400)
  else
    let timeDiff := JS.Math_abs (JS.minus now timestamp) in
    if JS.gt timeDiff 300000 then
      Answer (Reply.failure (Text "Request expired") "EXPIRED_REQUEST" 400)
    else
      let actionType := JS.or_else action (Some "generate-upload-url") in
      if same_value actionType (Some "save-content") then handleSaveContent env payload now
      else if same_value actionType (Some "list-content") then handleListContent env payload
      else
        let fileName := ContentReq.fileName payload in
        let fileType := ContentReq.fileType payload in
        let contentType := ContentReq.contentType payload in
        if negb (JS.truthy fileName) || negb (JS.truthy fileType) then
          Answer (Reply.failure (Text "Missing required fields: fileName, fileType")
                                "MISSING_FIELDS" 400)
        else
          FindUsers By_appPublicKey appPublicKey (fun r =>
          match r with
          | Threw _ =>
              Answer (Reply.failure (Text "Database error while verifying user")
                                    "DATABASE_ERROR" 500)
          | Ok [] =>
              Answer (Reply.failure (Text "User not registered. Please register first.")
                                    "USER_NOT_FOUND" 404)
          | Ok (user :: _) =>
              if JS.strict_neq (Doc.status user) (Some "active") then
                Answer (Reply.failure (Text "User account is not active") "USER_INACTIVE" 403)
              else
                let userId := Doc.id user in
                if negb (JS.truthy (BUNNY_STORAGE_ZONE env))
                   || negb (JS.truthy (BUNNY_STORAGE_PASSWORD env))
                then
                  Answer (Reply.failure (Text "Bunny CDN not configured")
                                        "BUNNY_NOT_CONFIGURED" 503)
                else
                  let timestamp_str := NilZero.string_of_int (Z.to_int now) in
                  let sanitizedFileName := sanitize (interpolate fileName) in
                  let contentId :=
                    id_text userId ++ "/" ++ interpolate fileType ++ "s/" ++ timestamp_str
                    ++ "_" ++ randomString ++ "_" ++ sanitizedFileName in
                  let storageZone := BUNNY_STORAGE_ZONE env in
                  let uploadUrl :=
                    "https://storage.bunnycdn.com/" ++ interpolate storageZone ++ "/"
                    ++ contentId in
                  let streamingInfo :=
                    if same_value fileType (Some "video")
                       && JS.truthy (BUNNY_STREAM_LIBRARY_ID env)
                       && JS.truthy (BUNNY_STREAM_API_KEY env)
                    then BUNNY_STREAM_LIBRARY_ID env else None in
                  Answer (Reply.ok
                            (Upload uploadUrl (BUNNY_STORAGE_PASSWORD env)
                                    (JS.or_else contentType (Some "application/octet-stream"))
                                    contentId userId streamingInfo))
          end).

(** ** Every handler over one directory *)

(** A handler of the users directory run against the wider directory:
    it sees the users, and the role assignments it creates are appended to
    the roles collection. *)
Definition lift (p : prog) (w : World.t) : Res.t * World.t :=
  let o := run p (mkStore (World.users w) [] (World.next_id w)) in
  (response o,
   World.mk (users (final o))
            (World.roles w ++ map Assignment.of_role_doc (roleAssignments (final o)))%list
            (World.contents w)
            (next_id (final o))).

Inductive request : Type :=
| CallRegister (env : Env) (payload : Req.t) (now : Z)
| CallAuthenticate (payload : Req.t) (now : Z)
| CallGrantUserRole (payload : Req.t) (now : Z)
| CallAuthOrRegister (payload : Req.t) (now : Z)
| CallGrantByAdmin (payload : GrantReq.t) (now : Z)
| CallContent (env : BunnyEnv) (id_text : nat -> string) (randomString : string)
              (payload : ContentReq.t) (now : Z).

(** The HTTP status a request is answered with, and the directory after it. *)
Definition handle (q : request) (w : World.t) : Z * World.t :=
  match q with
  | CallRegister env payload now =>
      let '(r, w') := lift (register env payload now) w in (Res.statusCode r, w')
  | CallAuthenticate payload now =>
      let '(r, w') := lift (authenticate payload now) w in (Res.statusCode r, w')
  | CallGrantUserRole payload now =>
      let '(r, w') := lift (grantUserRole payload now) w in (Res.statusCode r, w')
  | CallAuthOrRegister payload now =>
      let '(r, w') := lift (authOrRegister payload now) w in (Res.statusCode r, w')
  | CallGrantByAdmin payload now =>
      let o := serve (grantUserRoleByAdmin payload now) w in
      (Reply.statusCode (reply o), world o)
  | CallContent env id_text randomString payload now =>
      let o := serve (contentFunction env id_text randomString payload now) w in
      (Reply.statusCode (reply o), world o)
  end.

(** Requests handled one after the other: each with its status, and the
    directory at the end. *)
Fixpoint handle_all (qs : list request) (w : World.t) : list (request * Z) * World.t :=
  match qs with
  | [] => ([], w)
  | q :: rest =>
      let '(c, w1) := handle q w in
      let '(log, w2) := handle_all rest w1 in
      ((q, c) :: log, w2)
  end.

(** ** Vocabulary of the further properties *)

(** The [role] attribute of the record is ['admin']. *)
Definition is_role_admin (d : Doc.t) : bool := same_value (Doc.role d) (Some "admin").

(** No record of the directory has ['admin'] as its [role] attribute. *)
Definition no_role_admin (l : list Doc.t) : bool := forallb (fun d => negb (is_role_admin d)) l.

(** A register request whose configured default role is ['admin']. *)
Definition registers_admins (q : request) : bool :=
  match q with
  | CallRegister env _ _ =>
      same_value (JS.or_else (VITE_DEFAULT_ROLE env) (Some "user")) (Some "admin")
  | _ => false
  end.

(** The handler's presence and freshness tests of the content function pass. *)
Definition content_request_passes (payload : ContentReq.t) (now : Z) : bool :=
  JS.truthy (ContentReq.appPublicKey payload)
  && JS.truthy (ContentReq.signature payload)
  && JS.truthy_num (ContentReq.timestamp payload)
  && negb (JS.gt (JS.Math_abs (JS.minus now (ContentReq.timestamp payload))) 300000).

(** The action the content function routes on. *)
Definition action_is (a : string) (payload : ContentReq.t) : bool :=
  same_value (JS.or_else (ContentReq.action payload) (Some "generate-upload-url")) (Some a).

(** The characters of a string. *)
Fixpoint chars (s : string) : list Ascii.ascii :=
  match s with
  | EmptyString => []
  | String c rest => c :: chars rest
  end.

(** A directory call that writes. *)
Definition is_write (a : access) : bool :=
  match a with
  | WriteUsers | WriteRoles | WriteContents => true
  | _ => false
  end.

(** Every document the program may hand to [createDocument], whatever the
    directory answers along the way, satisfies [Q]. *)
Fixpoint creates_only (Q : Doc.t -> Prop) (p : prog) : Prop :=
  match p with
  | Return _ => True
  | ListUsers _ k => forall r, creates_only Q (k r)
  | CreateUser data k => Q data /\ forall r, creates_only Q (k r)
  | UpdateUser _ _ k => forall r, creates_only Q (k r)
  | CreateRole _ k => forall r, creates_only Q (k r)
  end.

(** The record without its [lastLogin]. *)
Definition forget_lastLogin (d : Doc.t) : Doc.t :=
  Doc.mk (Doc.id d) (Doc.bsvAddress d) (Doc.appPublicKey d) (Doc.metanetPrincipal d)
         (Doc.bsvPublicKey d) (Doc.username d) (Doc.displayName d) (Doc.avatar d)
         (Doc.bio d) (Doc.role d) (Doc.isActive d) None (Doc.metadata d)
         (Doc.roles d) (Doc.status d).

(** The write of a concurrent request that stores the record [rival]. *)
Definition lands (rival : Doc.t) (s : store) : store :=
  mkStore (users s ++ [rival])%list (roleAssignments s) (S (next_id s)).

(** ** Further sample data *)

Definition carol_admin : Doc.t :=
  Doc.mk 7 (Some "1CarolAddr") (Some "02c3") (Some "carol-principal") (Some "")
         (Some "carol") (Some "") (Some "") (Some "") (Some "admin") (Some true) None
         None None None.

Definition dave_user : Doc.t :=
  Doc.mk 8 (Some "1DaveAddr") (Some "02d4") (Some "dave-principal") (Some "")
         (Some "dave") (Some "") (Some "") (Some "") (Some "user") (Some true) None
         None None (Some "active").

Definition staffed : World.t := World.mk [carol_admin; dave_user] [] [] 9.

Definition dave_grants : GrantReq.t :=
  GrantReq.mk (Some "dave-principal") (Some "carol-principal") (Some "user") None None.

Definition promote_dave : GrantReq.t :=
  GrantReq.mk (Some "carol-principal") (Some "dave-principal") (Some "moderator") None None.

Definition bunny : BunnyEnv :=
  mkBunnyEnv (Some "zone1") (Some "secret") None None (Some "cdn.example").

Definition decimal_id (n : nat) : string := NilZero.string_of_uint (Nat.to_uint n).

(** The [n]-th member of a larger directory. *)
Definition member (n : nat) : Req.t :=
  Req.mk (Some ("1Member" ++ decimal_id n)) (Some ("02m" ++ decimal_id n)) None
         None None None (Some "admin") (Some sample_now) (Some "3044cc").

(** The store after members [0 .. n-1] registered through auth-or-register,
    one after another. *)
Definition enrolled (n : nat) : store :=
  fold_left (fun s i => final (run (authOrRegister (member i) sample_now) s))
            (seq 0 n) empty_store.

(** The record auth-or-register stores for the [n]-th member, with [roles]
    as its roles attribute. *)
Definition member_record (n : nat) (roles : option (list string)) : Doc.t :=
  Doc.mk n None (Some ("02m" ++ decimal_id n)) None None None None None
         None None None None (Some MetaEmpty) roles (Some "active").

(** Twenty-six members, one more than a page; the last to register took the
    admin role while nobody held it. *)
Definition crowd : store :=
  final (run (grantUserRole (member 25) sample_now) (enrolled 26)).

Definition dave_saves : ContentReq.t :=
  ContentReq.mk (Some "save-content") (Some "02d4") (Some sample_now) (Some "3044dd")
                (Some "cat.png") (Some "image") (Some "image/png")
                (Some "8/images/1_ab_cat.png") (Some 100) None.

Definition dave_lists : ContentReq.t :=
  ContentReq.mk (Some "list-content") (Some "02d4") (Some sample_now) (Some "3044dd")
                None None None None None None.

Definition dave_uploads : ContentReq.t :=
  ContentReq.mk None (Some "02d4") (Some sample_now) (Some "3044dd")
                (Some "my cat/1.png") (Some "image") (Some "image/png") None None None.

(** Explores every path of a run over the wider directory. *)
Ltac wexplore :=
  repeat (cbn [serve wawait logged reply world accesses fst snd];
          match goal with
          | |- context [match ?x with _ => _ end] => destruct x eqn:?
          | |- context [if ?b then _ else _] => destruct b eqn:?
          end).

(** * Properties *)

(** Explores every path of a handler run: one case per branch of the source. *)
Ltac explore :=
  repeat (cbn [run_interleaved await record response final trace fst snd];
          match goal with
          | |- context [match ?x with _ => _ end] => destruct x eqn:?
          | |- context [if ?b then _ else _] => destruct b eqn:?
          end).


(** ** Rejections decided before any directory call *)

Lemma returned_untouched others r s c http :
  Res.statusCode r = http -> Res.code r = Some c -> Res.success r = false ->
  rejected_untouched c http s (run_interleaved others (Return r) s).
Proof.
  intros Hs Hc Hf. unfold rejected_untouched. cbn. auto.
Qed.

Section RequiredFields.

Variable env : Env.
Variable payload : Req.t.
Variable now : Z.

Lemma register_falsy_field :
  JS.truthy (Req.bsvAddress payload) && JS.truthy (Req.appPublicKey payload)
    && JS.truthy (Req.signature payload) && JS.truthy_num (Req.timestamp payload) = false ->
  exists r, register env payload now = Return r /\
            Res.statusCode r = 400 /\ Res.code r = Some "MISSING_FIELDS" /\
            Res.success r = false.
Proof.
  intros H. unfold register.
  destruct (JS.truthy (Req.bsvAddress payload)), (JS.truthy (Req.appPublicKey payload)),
    (JS.truthy (Req.signature payload)), (JS.truthy_num (Req.timestamp payload));
    try discriminate H; cbn; eexists; repeat split.
Qed.

Lemma authenticate_falsy_field :
  JS.truthy (Req.bsvAddress payload) && JS.truthy (Req.appPublicKey payload)
    && JS.truthy_num (Req.timestamp payload) && JS.truthy (Req.signature payload) = false ->
  exists r, authenticate payload now = Return r /\
            Res.statusCode r = 400 /\ Res.code r = Some "MISSING_FIELDS" /\
            Res.success r = false.
Proof.
  intros H. unfold authenticate.
  destruct (JS.truthy (Req.bsvAddress payload)), (JS.truthy (Req.appPublicKey payload)),
    (JS.truthy_num (Req.timestamp payload)), (JS.truthy (Req.signature payload));
    try discriminate H; cbn; eexists; repeat split.
Qed.

Lemma grantUserRole_falsy_field :
  JS.truthy (Req.appPublicKey payload) && JS.truthy (Req.role payload)
    && JS.truthy_num (Req.timestamp payload) && JS.truthy (Req.signature payload) = false ->
  exists r, grantUserRole payload now = Return r /\
            Res.statusCode r = 400 /\ Res.code r = Some "MISSING_FIELDS" /\
            Res.success r = false.
Proof.
  intros H. unfold grantUserRole.
  destruct (JS.truthy (Req.appPublicKey payload)), (JS.truthy (Req.role payload)),
    (JS.truthy_num (Req.timestamp payload)), (JS.truthy (Req.signature payload));
    try discriminate H; cbn; eexists; repeat split.
Qed.

Lemma authOrRegister_falsy_field :
  JS.truthy (Req.appPublicKey payload) && JS.truthy_num (Req.timestamp payload)
    && JS.truthy (Req.signature payload) = false ->
  exists r, authOrRegister payload now = Return r /\
            Res.statusCode r = 400 /\ Res.code r = Some "MISSING_FIELDS" /\
            Res.success r = false.
Proof.
  intros H. unfold authOrRegister.
  destruct (JS.truthy (Req.appPublicKey payload)), (JS.truthy_num (Req.timestamp payload)),
    (JS.truthy (Req.signature payload));
    try discriminate H; cbn; eexists; repeat split.
Qed.

End RequiredFields.

Lemma falsy_required_rejected env payload now others s :
  falsy_required payload = true ->
  rejected_untouched "MISSING_FIELDS" 400 s (run_interleaved others (register env payload now) s) /\
  rejected_untouched "MISSING_FIELDS" 400 s (run_interleaved others (authenticate payload now) s) /\
  rejected_untouched "MISSING_FIELDS" 400 s (run_interleaved others (grantUserRole payload now) s) /\
  rejected_untouched "MISSING_FIELDS" 400 s (run_interleaved others (authOrRegister payload now) s).
Proof.
  unfold falsy_required. intros H.
  assert (Hcases : JS.truthy (Req.appPublicKey payload) = false
                   \/ JS.truthy (Req.signature payload) = false
                   \/ JS.truthy_num (Req.timestamp payload) = false).
  { destruct (JS.truthy (Req.appPublicKey payload)), (JS.truthy (Req.signature payload)),
      (JS.truthy_num (Req.timestamp payload)); cbn in H; auto; discriminate. }
  split; [| split; [| split]].
  - destruct (register_falsy_field env payload now) as (r & -> & ? & ? & ?).
    + destruct Hcases as [-> | [-> | ->]]; rewrite ?andb_false_r; reflexivity.
    + now apply returned_untouched.
  - destruct (authenticate_falsy_field payload now) as (r & -> & ? & ? & ?).
    + destruct Hcases as [-> | [-> | ->]]; rewrite ?andb_false_r; reflexivity.
    + now apply returned_untouched.
  - destruct (grantUserRole_falsy_field payload now) as (r & -> & ? & ? & ?).
    + destruct Hcases as [-> | [-> | ->]]; rewrite ?andb_false_r; reflexivity.
    + now apply returned_untouched.
  - destruct (authOrRegister_falsy_field payload now) as (r & -> & ? & ? & ?).
    + destruct Hcases as [-> | [-> | ->]]; rewrite ?andb_false_r; reflexivity.
    + now apply returned_untouched.
Qed.

(** ** The freshness window *)

Lemma gt_abs_minus now t :
  JS.gt (JS.Math_abs (JS.minus now (Some t))) 300000 = true <-> Z.abs (now - t) > 300000.
Proof.
  cbn. unfold Z.gtb. destruct (Z.abs (now - t) ?= 300000) eqn:E.
  - split; [discriminate | intros H; red in H; congruence].
  - split; [discriminate | intros H; red in H; congruence].
  - split; [intros _; exact E | reflexivity].
Qed.

Lemma register_expired_iff env payload now t others s :
  Req.timestamp payload = Some t ->
  falsy_required payload = false ->
  JS.truthy (Req.bsvAddress payload) = true ->
  expired (run_interleaved others (register env payload now) s) <-> Z.abs (now - t) > 300000.
Proof.
  unfold falsy_required. intros Ht Hreq Hbsv.
  apply orb_false_elim in Hreq as [Hreq Hts]. apply orb_false_elim in Hreq as [Hkey Hsig].
  apply negb_false_iff in Hts, Hkey, Hsig.
  rewrite <- gt_abs_minus. unfold register, expired.
  rewrite Hbsv, Hkey, Hsig, Hts, Ht. cbn [negb orb].
  destruct (JS.gt (JS.Math_abs (JS.minus now (Some t))) 300000) eqn:E.
  - cbn. intuition.
  - split; [| discriminate]. explore; cbn; intros [? ?]; discriminate.
Qed.

Lemma authenticate_expired_iff payload now t others s :
  Req.timestamp payload = Some t ->
  falsy_required payload = false ->
  JS.truthy (Req.bsvAddress payload) = true ->
  expired (run_interleaved others (authenticate payload now) s) <-> Z.abs (now - t) > 300000.
Proof.
  unfold falsy_required. intros Ht Hreq Hbsv.
  apply orb_false_elim in Hreq as [Hreq Hts]. apply orb_false_elim in Hreq as [Hkey Hsig].
  apply negb_false_iff in Hts, Hkey, Hsig.
  rewrite <- gt_abs_minus. unfold authenticate, expired.
  rewrite Hbsv, Hkey, Hsig, Hts, Ht. cbn [negb orb].
  destruct (JS.gt (JS.Math_abs (JS.minus now (Some t))) 300000) eqn:E.
  - cbn. intuition.
  - split; [| discriminate]. explore; cbn; intros [? ?]; discriminate.
Qed.

Lemma authOrRegister_expired_iff payload now t others s :
  Req.timestamp payload = Some t ->
  falsy_required payload = false ->
  expired (run_interleaved others (authOrRegister payload now) s) <-> Z.abs (now - t) > 300000.
Proof.
  unfold falsy_required. intros Ht Hreq.
  apply orb_false_elim in Hreq as [Hreq Hts]. apply orb_false_elim in Hreq as [Hkey Hsig].
  apply negb_false_iff in Hts, Hkey, Hsig.
  rewrite <- gt_abs_minus. unfold authOrRegister, expired.
  rewrite Hkey, Hsig, Hts, Ht. cbn [negb orb].
  destruct (JS.gt (JS.Math_abs (JS.minus now (Some t))) 300000) eqn:E.
  - cbn. intuition.
  - split; [| discriminate]. explore; cbn; intros [? ?]; discriminate.
Qed.

(** C2.  A request whose required fields pass the handler's presence test
    is answered [EXPIRED_REQUEST] with HTTP 400 exactly when the distance
    between the server clock and its timestamp is more than 300000 ms, in
    either direction; this holds for register, authenticate and
    auth-or-register, whatever the directory holds. *)
Theorem freshness_window env payload now t others s :
  Req.timestamp payload = Some t ->
  falsy_required payload = false ->
  (expired (run_interleaved others (authOrRegister payload now) s)
     <-> Z.abs (now - t) > 300000) /\
  (JS.truthy (Req.bsvAddress payload) = true ->
   (expired (run_interleaved others (register env payload now) s)
      <-> Z.abs (now - t) > 300000) /\
   (expired (run_interleaved others (authenticate payload now) s)
      <-> Z.abs (now - t) > 300000)).
Proof.
  intros Ht Hreq. split; [| intros Hbsv; split].
  - now apply authOrRegister_expired_iff.
  - now apply register_expired_iff.
  - now apply authenticate_expired_iff.
Qed.

Lemma freshness_window_witness :
  Req.timestamp (Req.with_timestamp (Some (sample_now - 300001)) alice)
    = Some (sample_now - 300001) /\
  falsy_required (Req.with_timestamp (Some (sample_now - 300001)) alice) = false /\
  expired (run (authOrRegister (Req.with_timestamp (Some (sample_now - 300001)) alice)
                               sample_now) empty_store).
Proof.
  split; [reflexivity | split; [reflexivity |]].
  apply (proj1 (freshness_window sample_env
                  (Req.with_timestamp (Some (sample_now - 300001)) alice)
                  sample_now (sample_now - 300001) [] empty_store
                  eq_refl eq_refl)).
  vm_compute. reflexivity.
Defined.

(** The boundary of the window, on both sides of the server clock. *)
Example freshness_boundary :
  let at_ t := run (authOrRegister (Req.with_timestamp (Some t) alice) sample_now) empty_store in
  expired (at_ (sample_now - 300001)) /\
  expired (at_ (sample_now + 300001)) /\
  Res.statusCode (response (at_ (sample_now - 299999))) = 200 /\
  Res.statusCode (response (at_ (sample_now + 299999))) = 200 /\
  Res.statusCode (response (at_ (sample_now - 300000))) = 200.
Proof.
  vm_compute. repeat split.
Qed.

(** ** Missing and falsy required fields *)

(** C7.  A payload from which the public key, the signature or the
    timestamp is missing is answered [MISSING_FIELDS] with HTTP 400 by every
    handler, without a single directory call and with the store untouched. *)
Theorem missing_field_rejected env payload now others s :
  Req.appPublicKey payload = None \/ Req.signature payload = None
    \/ Req.timestamp payload = None ->
  rejected_untouched "MISSING_FIELDS" 400 s (run_interleaved others (register env payload now) s) /\
  rejected_untouched "MISSING_FIELDS" 400 s (run_interleaved others (authenticate payload now) s) /\
  rejected_untouched "MISSING_FIELDS" 400 s (run_interleaved others (grantUserRole payload now) s) /\
  rejected_untouched "MISSING_FIELDS" 400 s (run_interleaved others (authOrRegister payload now) s).
Proof.
  intros H. apply falsy_required_rejected. unfold falsy_required.
  destruct H as [-> | [-> | ->]]; cbn; rewrite ?orb_true_r; reflexivity.
Qed.

Lemma missing_field_rejected_witness :
  (Req.appPublicKey (Req.with_signature None alice) = None
   \/ Req.signature (Req.with_signature None alice) = None
   \/ Req.timestamp (Req.with_signature None alice) = None) /\
  rejected_untouched "MISSING_FIELDS" 400 empty_store
    (run (authOrRegister (Req.with_signature None alice) sample_now) empty_store).
Proof.
  split.
  - right; left; reflexivity.
  - apply (missing_field_rejected sample_env (Req.with_signature None alice) sample_now
             [] empty_store).
    right; left; reflexivity.
Defined.

(** C10.  Presence is decided by truthiness: a timestamp of [0], or an
    empty public key or signature, is answered [MISSING_FIELDS] like an
    absent field, so the freshness test is never reached for it. *)
Theorem zero_or_empty_field_rejected env payload now others s :
  Req.timestamp payload = Some 0 \/ Req.appPublicKey payload = Some ""
    \/ Req.signature payload = Some "" ->
  rejected_untouched "MISSING_FIELDS" 400 s (run_interleaved others (register env payload now) s) /\
  rejected_untouched "MISSING_FIELDS" 400 s (run_interleaved others (authenticate payload now) s) /\
  rejected_untouched "MISSING_FIELDS" 400 s (run_interleaved others (grantUserRole payload now) s) /\
  rejected_untouched "MISSING_FIELDS" 400 s (run_interleaved others (authOrRegister payload now) s).
Proof.
  intros H. apply falsy_required_rejected. unfold falsy_required.
  destruct H as [-> | [-> | ->]]; cbn; rewrite ?orb_true_r; reflexivity.
Qed.

Lemma zero_or_empty_field_rejected_witness :
  (Req.timestamp (Req.with_timestamp (Some 0) alice) = Some 0
   \/ Req.appPublicKey (Req.with_timestamp (Some 0) alice) = Some ""
   \/ Req.signature (Req.with_timestamp (Some 0) alice) = Some "") /\
  rejected_untouched "MISSING_FIELDS" 400 empty_store
    (run (register sample_env (Req.with_timestamp (Some 0) alice) sample_now) empty_store) /\
  ~ expired (run (register sample_env (Req.with_timestamp (Some 0) alice) sample_now)
                 empty_store).
Proof.
  split; [left; reflexivity |].
  pose proof (zero_or_empty_field_rejected sample_env (Req.with_timestamp (Some 0) alice)
                sample_now [] empty_store (or_introl eq_refl)) as (Hreg & _).
  split; [exact Hreg |].
  destruct Hreg as (_ & Hcode & _). intros [_ Hexp].
  unfold run in Hexp. rewrite Hcode in Hexp. discriminate Hexp.
Defined.

(** ** The signature is never looked at *)

Lemma signature_irrelevant env payload now sig1 sig2 :
  JS.truthy sig1 = true -> JS.truthy sig2 = true ->
  register env (Req.with_signature sig1 payload) now
    = register env (Req.with_signature sig2 payload) now /\
  authenticate (Req.with_signature sig1 payload) now
    = authenticate (Req.with_signature sig2 payload) now /\
  grantUserRole (Req.with_signature sig1 payload) now
    = grantUserRole (Req.with_signature sig2 payload) now /\
  authOrRegister (Req.with_signature sig1 payload) now
    = authOrRegister (Req.with_signature sig2 payload) now.
Proof.
  intros H1 H2.
  unfold register, authenticate, grantUserRole, authOrRegister, Req.with_signature.
  cbn [Req.bsvAddress Req.appPublicKey Req.rootPrincipal Req.username Req.displayName
       Req.avatar Req.role Req.timestamp Req.signature].
  rewrite H1, H2. repeat split.
Qed.

Lemma never_invalid_signature env payload now others s :
  Res.code (response (run_interleaved others (register env payload now) s))
    <> Some "INVALID_SIGNATURE" /\
  Res.code (response (run_interleaved others (authenticate payload now) s))
    <> Some "INVALID_SIGNATURE" /\
  Res.code (response (run_interleaved others (grantUserRole payload now) s))
    <> Some "INVALID_SIGNATURE" /\
  Res.code (response (run_interleaved others (authOrRegister payload now) s))
    <> Some "INVALID_SIGNATURE".
Proof.
  split; [| split; [| split]].
  - unfold register. explore; cbn; discriminate.
  - unfold authenticate. explore; cbn; discriminate.
  - unfold grantUserRole. explore; cbn; discriminate.
  - unfold authOrRegister. explore; cbn; discriminate.
Qed.

(** C1.  The code at a forged signature.  register answers 201 after two
    directory reads and two writes, and the forged request's record is in
    the store; the self-service grant answers 200 and makes the holder of
    the key an administrator.  Neither answers an invalid-signature error. *)
Theorem forged_signature_reaches_directory :
  let o := run (register sample_env forged sample_now) empty_store in
  let g := run (grantUserRole forged sample_now) alice_registered in
  Res.statusCode (response o) = 201 /\
  Res.success (response o) = true /\
  Res.code (response o) = None /\
  List.length (trace o) = 4%nat /\
  map Doc.appPublicKey (users (final o)) = [Some "02a1"] /\
  Res.statusCode (response g) = 200 /\
  Res.code (response g) = None /\
  map Doc.roles (users (final g)) = [Some ["admin"]].
Proof.
  vm_compute. repeat split.
Qed.

(** ** The registration race *)

Lemma race_lost_to_concurrent_create :
  let o := run_interleaved [(fun s => s); (fun s => s); concurrent_winner]
             (authOrRegister alice sample_now) empty_store in
  (exists data, trace o =
     [EvListUsers [Query_equal A_appPublicKey (Some "02a1")] (Ok []);
      EvListUsers [Query_equal A_username (Some "alice")] (Ok []);
      EvCreateUser data (Threw DuplicateKey)]) /\
  Res.statusCode (response o) = 500 /\
  Res.code (response o) = Some "AUTH_ERROR" /\
  List.length (users (final o)) = 1%nat.
Proof.
  vm_compute. split; [eexists; reflexivity | repeat split].
Qed.

(** C3, as stated, fails: the request that loses the race is answered
    HTTP 500, not as an authenticated user. *)
Lemma duplicate_key_not_recovered :
  ~ duplicate_key_recovered [(fun s => s); (fun s => s); concurrent_winner]
      alice sample_now empty_store.
Proof.
  unfold duplicate_key_recovered. intros H.
  destruct race_lost_to_concurrent_create as ((data & Htr) & H500 & _).
  cbv zeta in H. destruct H as (_ & _ & Hne).
  - exists data. rewrite Htr. right; right; left; reflexivity.
  - apply Hne. exact H500.
Qed.

(** C3, amended.  When the create of auth-or-register throws [DuplicateKey],
    the handler's catch block answers HTTP 500 with code [AUTH_ERROR] and
    the exception's message, without an [isNewUser] flag; the failed create
    is the request's last directory call, so nothing is retried. *)
Theorem duplicate_key_surfaces_as_500 others payload now s data :
  let o := run_interleaved others (authOrRegister payload now) s in
  In (EvCreateUser data (Threw DuplicateKey)) (trace o) ->
  Res.statusCode (response o) = 500 /\
  Res.success (response o) = false /\
  Res.code (response o) = Some "AUTH_ERROR" /\
  Res.error (response o) = Some (Message DuplicateKey) /\
  Res.isNewUser (response o) = None /\
  exists before, trace o = (before ++ [EvCreateUser data (Threw DuplicateKey)])%list.
Proof.
  unfold authOrRegister. explore; cbn; intros H;
    repeat (destruct H as [H | H]; [try discriminate H |]); try contradiction;
    injection H as <- <-; repeat split.
  - eexists [_; _]. reflexivity.
  - eexists [_]. reflexivity.
Qed.

Lemma duplicate_key_surfaces_as_500_witness :
  let o := run_interleaved [(fun s => s); (fun s => s); concurrent_winner]
             (authOrRegister alice sample_now) empty_store in
  let data := Doc.mk 0 None (Some "02a1") None None (Some "alice") (Some "Alice") None
                None None None None (Some MetaEmpty) None None in
  In (EvCreateUser data (Threw DuplicateKey)) (trace o) /\
  Res.statusCode (response o) = 500 /\
  Res.code (response o) = Some "AUTH_ERROR".
Proof.
  cbv zeta.
  assert (Hin : In (EvCreateUser
                      (Doc.mk 0 None (Some "02a1") None None (Some "alice") (Some "Alice")
                         None None None None None (Some MetaEmpty) None None)
                      (Threw DuplicateKey))
                   (trace (run_interleaved [(fun s => s); (fun s => s); concurrent_winner]
                             (authOrRegister alice sample_now) empty_store))).
  { vm_compute. right; right; left; reflexivity. }
  split; [exact Hin |].
  destruct (duplicate_key_surfaces_as_500 _ _ _ _ _ Hin) as (H500 & _ & Hcode & _).
  split; assumption.
Defined.

(** ** The store operations *)

Lemma page_In {A : Type} (l : list A) x : In x (page l) -> In x l.
Proof.
  unfold page. generalize page_size. intros n. revert l.
  induction n as [| n IH]; intros [| a l]; cbn; try contradiction.
  intros [-> | H]; auto.
Qed.

Lemma page_nil {A : Type} (l : list A) : page l = [] -> l = [].
Proof.
  destruct l; [reflexivity | discriminate].
Qed.

Lemma page_cons {A : Type} (x : A) (l : list A) :
  page (x :: l) = x :: firstn (pred page_size) l.
Proof.
  reflexivity.
Qed.

Lemma page_short {A : Type} (l : list A) :
  (List.length l <= page_size)%nat -> page l = l.
Proof.
  unfold page. apply firstn_all2.
Qed.

Lemma page_filter_head {A : Type} (f : A -> bool) l x rest :
  page (filter f l) = x :: rest -> In x l /\ f x = true.
Proof.
  intros H. apply filter_In, page_In. rewrite H. now left.
Qed.

Lemma page_length {A : Type} (l : list A) :
  List.length (page l) = Nat.min page_size (List.length l).
Proof.
  unfold page. apply length_firstn.
Qed.

Lemma listDocuments_all s :
  listDocuments [] s = page (users s).
Proof.
  unfold listDocuments. f_equal. induction (users s) as [| d l IH]; [reflexivity |].
  cbn [filter forallb]. now f_equal.
Qed.

Lemma listDocuments_In qs s d :
  In d (listDocuments qs s) -> In d (users s).
Proof.
  unfold listDocuments. intros H. apply page_In in H. now apply filter_In in H.
Qed.

Lemma listDocuments_head qs s d rest :
  listDocuments qs s = d :: rest -> In d (users s).
Proof.
  intros H. apply (listDocuments_In qs). rewrite H. now left.
Qed.

Lemma update_first_some i p l d :
  In d l -> Doc.id d = i -> update_first i p l <> None.
Proof.
  induction l as [| x l IH]; cbn; [contradiction |].
  intros [-> | Hin] Hid.
  - rewrite Hid, Nat.eqb_refl. discriminate.
  - destruct (Nat.eqb (Doc.id x) i); [discriminate |].
    specialize (IH Hin Hid). destruct (update_first i p l) as [[d' l'] |]; congruence.
Qed.

Lemma update_first_spec i p l d' l' :
  update_first i p l = Some (d', l') ->
  In d' l' /\
  (exists d, In d l /\ Doc.id d = i /\ d' = Patch.apply p d) /\
  map Doc.appPublicKey l' = map Doc.appPublicKey l /\
  (Patch.lastLogin p = None -> map Doc.lastLogin l' = map Doc.lastLogin l).
Proof.
  revert d' l'. induction l as [| x l IH]; cbn; [discriminate |].
  intros d' l'. destruct (Nat.eqb (Doc.id x) i) eqn:E.
  - intros [= <- <-]. apply Nat.eqb_eq in E. repeat split.
    + now left.
    + exists x. auto.
    + intros Hp. cbn. now rewrite Hp.
  - destruct (update_first i p l) as [[d0 l0] |]; [| discriminate].
    intros [= <- <-]. destruct (IH d0 l0 eq_refl) as (Hin & (d & Hd & Hid & Heq) & Hkey & Hlast).
    repeat split.
    + now right.
    + exists d. auto.
    + cbn. now rewrite Hkey.
    + intros Hp. cbn. now rewrite (Hlast Hp).
Qed.

Lemma update_first_split i p l d' l' :
  update_first i p l = Some (d', l') ->
  exists pre d post,
    l = (pre ++ d :: post)%list /\
    l' = (pre ++ Patch.apply p d :: post)%list /\
    Doc.id d = i /\
    d' = Patch.apply p d /\
    Forall (fun x => Doc.id x <> i) pre.
Proof.
  revert d' l'. induction l as [| x l IH]; cbn; [discriminate |].
  intros d' l'. destruct (Nat.eqb (Doc.id x) i) eqn:E.
  - intros [= <- <-]. apply Nat.eqb_eq in E. exists [], x, l. auto.
  - destruct (update_first i p l) as [[d0 l0] |]; [| discriminate].
    intros [= <- <-].
    destruct (IH d0 l0 eq_refl) as (pre & d & post & -> & -> & Hid & Hd & Hpre).
    exists (x :: pre), d, post. repeat split; auto.
    constructor; [now apply Nat.eqb_neq | exact Hpre].
Qed.

Lemma filter_length_map {A B : Type} (f : A -> B) (g : B -> bool) (l1 l2 : list A) :
  map f l1 = map f l2 ->
  List.length (filter (fun a => g (f a)) l1) = List.length (filter (fun a => g (f a)) l2).
Proof.
  revert l2. induction l1 as [| a l1 IH]; intros [| b l2]; cbn; try discriminate;
    [reflexivity |].
  intros [= Hab Hrest]. rewrite Hab. specialize (IH l2 Hrest).
  destruct (g (f b)); cbn; now rewrite IH.
Qed.

Lemma count_by_key k l1 l2 :
  map Doc.appPublicKey l1 = map Doc.appPublicKey l2 ->
  List.length (filter (fun d => forallb (satisfies d) [Query_equal A_appPublicKey k]) l1)
  = List.length (filter (fun d => forallb (satisfies d) [Query_equal A_appPublicKey k]) l2).
Proof.
  intros H.
  exact (filter_length_map Doc.appPublicKey (fun v => same_value k v && true) l1 l2 H).
Qed.

Lemma truthy_some v : JS.truthy v = true -> exists x, v = Some x /\ x <> "".
Proof.
  destruct v as [x |]; cbn; [| discriminate].
  intros H. exists x. split; [reflexivity |].
  intros ->. discriminate H.
Qed.

Lemma strict_neq_same v : JS.truthy v = true -> JS.strict_neq v v = false.
Proof.
  intros H. destruct (truthy_some v H) as (x & -> & _). cbn. now rewrite String.eqb_refl.
Qed.

Lemma same_value_refl v : JS.truthy v = true -> same_value v v = true.
Proof.
  intros H. destruct (truthy_some v H) as (x & -> & _). cbn. apply String.eqb_refl.
Qed.

Lemma required_truthy payload :
  falsy_required payload = false ->
  JS.truthy (Req.appPublicKey payload) = true /\
  JS.truthy (Req.signature payload) = true /\
  JS.truthy_num (Req.timestamp payload) = true.
Proof.
  unfold falsy_required. intros H.
  apply orb_false_elim in H as [H Hts]. apply orb_false_elim in H as [Hkey Hsig].
  apply negb_false_iff in Hts, Hkey, Hsig. auto.
Qed.

(** ** auth-or-register, path by path *)

Lemma authOrRegister_found payload now s user rest :
  falsy_required payload = false ->
  fresh payload now = true ->
  listDocuments (by_key payload) s = user :: rest ->
  let o := run (authOrRegister payload now) s in
  authenticated o /\
  map Doc.appPublicKey (users (final o)) = map Doc.appPublicKey (users s) /\
  map Doc.lastLogin (users (final o)) = map Doc.lastLogin (users s) /\
  (forall data out, ~ In (EvCreateUser data out) (trace o)) /\
  (forall i p out, In (EvUpdateUser i p out) (trace o) -> Patch.lastLogin p = None).
Proof.
  intros Hreq Hfresh Hlook. destruct (required_truthy _ Hreq) as (Hkey & Hsig & Hts).
  unfold fresh in Hfresh. apply negb_true_iff in Hfresh.
  unfold by_key in Hlook.
  unfold run, authOrRegister. rewrite Hkey, Hsig, Hts, Hfresh. cbn [negb orb].
  cbn [run_interleaved await interfere tl]. rewrite Hlook.
  destruct (Patch.nonempty _) eqn:Hup.
  - cbn [run_interleaved await interfere tl]. unfold updateDocument.
    destruct (update_first _ _ _) as [[d' l'] |] eqn:U.
    + destruct (update_first_spec _ _ _ _ _ U) as (_ & _ & Hk & Hl).
      cbn. unfold authenticated. cbn. repeat split; auto.
      * intros data out [H | [H | []]]; discriminate H.
      * intros i p out [H | [H | []]]; [discriminate H |]. now injection H as <- <- <-.
    + exfalso. apply (update_first_some _ _ _ user) in U; auto.
      now apply listDocuments_head in Hlook.
  - cbn. unfold authenticated. cbn. repeat split; auto.
    + intros data out [H | []]; discriminate H.
    + intros i p out [H | []]; discriminate H.
Qed.

Lemma authOrRegister_registered payload now s :
  falsy_required payload = false ->
  fresh payload now = true ->
  listDocuments (by_key payload) s = [] ->
  let o := run (authOrRegister payload now) s in
  Res.success (response o) = true ->
  Res.statusCode (response o) = 200 /\
  Res.isNewUser (response o) = Some true /\
  exists doc,
    users (final o) = (users s ++ [doc])%list /\
    Res.user (response o) = Some doc /\
    Doc.appPublicKey doc = Req.appPublicKey payload /\
    Doc.username doc = JS.or_else (Req.username payload) None /\
    Doc.displayName doc = JS.or_else (Req.displayName payload) None /\
    Doc.avatar doc = JS.or_else (Req.avatar payload) None /\
    Doc.roles doc = None /\
    Doc.role doc = None /\
    Doc.lastLogin doc = None /\
    Doc.status doc = Some "active".
Proof.
  intros Hreq Hfresh Hlook. destruct (required_truthy _ Hreq) as (Hkey & Hsig & Hts).
  unfold fresh in Hfresh. apply negb_true_iff in Hfresh.
  unfold by_key in Hlook.
  unfold run, authOrRegister. rewrite Hkey, Hsig, Hts, Hfresh. cbn [negb orb].
  cbn [run_interleaved await interfere tl]. rewrite Hlook.
  explore; cbn; intros Hs; try discriminate Hs;
    match goal with
    | H : createDocument _ _ = _ |- _ =>
        unfold createDocument in H; destruct (violates_unique _ _); [discriminate H |];
        injection H as <- <-
    end;
    (split; [reflexivity |]); (split; [reflexivity |]);
    eexists; repeat split.
Qed.

Lemma lookup_after_create payload s s' doc :
  JS.truthy (Req.appPublicKey payload) = true ->
  listDocuments (by_key payload) s = [] ->
  users s' = (users s ++ [doc])%list ->
  Doc.appPublicKey doc = Req.appPublicKey payload ->
  listDocuments (by_key payload) s' = [doc].
Proof.
  unfold listDocuments, by_key. intros Hkey Hnone -> Hdoc.
  apply page_nil in Hnone.
  rewrite filter_app, Hnone. cbn. rewrite Hdoc, (same_value_refl _ Hkey). reflexivity.
Qed.

Lemma lookup_survives payload s s' :
  map Doc.appPublicKey (users s') = map Doc.appPublicKey (users s) ->
  listDocuments (by_key payload) s <> [] ->
  exists user rest, listDocuments (by_key payload) s' = user :: rest.
Proof.
  unfold listDocuments, by_key. intros Hmap Hne.
  pose proof (count_by_key (Req.appPublicKey payload) _ _ Hmap) as Hlen.
  destruct (filter _ (users s')) as [| user rest]; [| rewrite page_cons; eauto].
  destruct (filter _ (users s)); [now elim Hne | discriminate Hlen].
Qed.

(** ** Replay of an accepted request *)

(** C4.  An envelope that auth-or-register accepts, submitted a second time
    inside its freshness window, is answered as an authenticated existing
    user ([isNewUser = false]) and the second submission creates nothing;
    when the key was unknown before, the two submissions together leave
    exactly one record for it (the one the first call created). *)
Theorem replay_registers_once payload now1 now2 s :
  falsy_required payload = false ->
  fresh payload now1 = true ->
  fresh payload now2 = true ->
  let o1 := run (authOrRegister payload now1) s in
  let o2 := run (authOrRegister payload now2) (final o1) in
  Res.success (response o1) = true ->
  authenticated o2 /\
  (forall data out, ~ In (EvCreateUser data out) (trace o2)) /\
  List.length (users (final o2)) = List.length (users (final o1)) /\
  (listDocuments (by_key payload) s = [] ->
   Res.isNewUser (response o1) = Some true /\
   List.length (users (final o2)) = S (List.length (users s)) /\
   List.length (listDocuments (by_key payload) (final o2)) = 1%nat).
Proof.
  intros Hreq Hf1 Hf2 o1 o2 Hok.
  destruct (required_truthy _ Hreq) as (Hkey & _ & _).
  assert (Hsecond : forall user rest,
             listDocuments (by_key payload) (final o1) = user :: rest ->
             authenticated o2 /\
             (forall data out, ~ In (EvCreateUser data out) (trace o2)) /\
             map Doc.appPublicKey (users (final o2)) = map Doc.appPublicKey (users (final o1))).
  { intros user rest Hlook.
    destruct (authOrRegister_found payload now2 (final o1) user rest Hreq Hf2 Hlook)
      as (Ha & Hk & _ & Hc & _). auto. }
  destruct (listDocuments (by_key payload) s) as [| user rest] eqn:Hlook.
  - destruct (authOrRegister_registered payload now1 s Hreq Hf1 Hlook Hok)
      as (_ & Hnew & doc & Husers & _ & Hdoc & _).
    pose proof (lookup_after_create payload s (final o1) doc Hkey Hlook Husers Hdoc) as Hl1.
    destruct (Hsecond doc [] Hl1) as (Ha & Hc & Hk).
    assert (Hlen : List.length (users (final o2)) = List.length (users (final o1))).
    { rewrite <- (length_map Doc.appPublicKey (users (final o2))), Hk. apply length_map. }
    repeat split; try apply Ha; auto.
    + rewrite Hlen. fold o1 in Husers. rewrite Husers, length_app. cbn. lia.
    + unfold listDocuments, by_key in Hl1 |- *.
      rewrite page_length, (count_by_key _ _ _ Hk), <- page_length, Hl1.
      reflexivity.
  - destruct (authOrRegister_found payload now1 s user rest Hreq Hf1 Hlook)
      as (_ & Hk1 & _).
    destruct (lookup_survives payload s (final o1) Hk1) as (u & r & Hl1);
      [rewrite Hlook; discriminate |].
    destruct (Hsecond u r Hl1) as (Ha & Hc & Hk).
    repeat split; try apply Ha; auto; try discriminate.
    rewrite <- (length_map Doc.appPublicKey (users (final o2))), Hk. apply length_map.
Qed.

Lemma replay_registers_once_witness :
  let o1 := run (authOrRegister alice sample_now) empty_store in
  let o2 := run (authOrRegister alice (sample_now + 1000)) (final o1) in
  authenticated o2 /\ List.length (users (final o2)) = 1%nat.
Proof.
  destruct (replay_registers_once alice sample_now (sample_now + 1000) empty_store
              eq_refl eq_refl eq_refl eq_refl) as (Ha & _ & _ & Hfirst).
  destruct (Hfirst eq_refl) as (_ & Hlen & _).
  split; assumption.
Defined.

(** ** The self-service grant *)

Lemma valid_role_truthy role :
  JS.includes validRoles role = true -> JS.truthy (Some role) = true.
Proof.
  destruct (String.eqb_spec role "") as [-> | Hne]; [discriminate |].
  intros _. cbn. now apply negb_true_iff, String.eqb_neq.
Qed.

Lemma includes_push l x : JS.includes (l ++ [x])%list x = true.
Proof.
  unfold JS.includes. rewrite existsb_app. cbn. now rewrite String.eqb_refl, orb_true_r.
Qed.

Lemma includes_after_push l x :
  JS.includes (if negb (JS.includes l x) then (l ++ [x])%list else l) x = true.
Proof.
  destruct (JS.includes l x) eqn:E; cbn; [exact E | apply includes_push].
Qed.

(** The bootstrap rule, for a directory that fits the page the admin scan
    reads.  A registered caller asks for a valid role inside the freshness
    window.  With no administrator in the directory the grant goes through;
    with an administrator present and a caller who is not one the answer is
    [UNAUTHORIZED] with HTTP 403 and the store is unchanged; a caller who is
    an administrator is granted the role. *)
Lemma grant_bootstrap_rule_within_page payload now s role user rest :
  (List.length (users s) <= page_size)%nat ->
  falsy_required payload = false ->
  Req.role payload = Some role ->
  JS.includes validRoles role = true ->
  fresh payload now = true ->
  listDocuments (by_key payload) s = user :: rest ->
  let o := run (grantUserRole payload now) s in
  (has_admin s = false -> granted role user o) /\
  (has_admin s = true -> JS.includes (parse_roles user) "admin" = false ->
   Res.statusCode (response o) = 403 /\
   Res.code (response o) = Some "UNAUTHORIZED" /\
   Res.success (response o) = false /\
   final o = s) /\
  (JS.includes (parse_roles user) "admin" = true -> granted role user o).
Proof.
  intros Hpage Hreq Hrole Hvalid Hfresh Hlook.
  destruct (required_truthy _ Hreq) as (Hkey & Hsig & Hts).
  pose proof (valid_role_truthy role Hvalid) as Htr.
  unfold fresh in Hfresh. apply negb_true_iff in Hfresh. unfold by_key in Hlook.
  assert (Hgo : forall l,
             granted role user
               (run_interleaved []
                  (await (UpdateUser (Doc.id user)
                            (Patch.mk None None None None
                               (Some (if negb (JS.includes l role)
                                      then (l ++ [role])%list else l))
                               (Some "active")))
                         (fun err => Return (Res.failure (Message err) "GRANT_ERROR" 500))
                         (fun updatedUser =>
                            Return (Res.mk 200 true None None None (Some updatedUser) false)))
                  s)).
  { intros l. cbn [run_interleaved await interfere tl]. unfold updateDocument.
    destruct (update_first _ _ _) as [[d' l'] |] eqn:U.
    - destruct (update_first_spec _ _ _ _ _ U) as (Hin & (d & _ & Hid & ->) & _).
      cbn. unfold granted. cbn. repeat split. exists (Patch.apply
        (Patch.mk None None None None
           (Some (if negb (JS.includes l role) then (l ++ [role])%list else l))
           (Some "active")) d).
      repeat split; auto. unfold parse_roles. cbn. apply includes_after_push.
    - exfalso. apply (update_first_some _ _ _ user) in U; auto.
      now apply listDocuments_head in Hlook. }
  unfold run, grantUserRole. rewrite Hkey, Hsig, Hts, Hrole, Htr. cbn [negb orb].
  rewrite Hvalid. cbn [negb]. rewrite Hfresh.
  cbn [run_interleaved await interfere tl]. rewrite Hlook.
  cbn [run_interleaved await interfere tl].
  rewrite listDocuments_all, (page_short _ Hpage).
  fold (has_admin s).
  split; [| split].
  - intros ->. cbn [andb].
    destruct (Hgo (parse_roles user)) as (H1 & H2 & u & H3 & H4 & H5 & H6 & H7).
    unfold granted. unfold response, final, record in *.
    destruct (run_interleaved [] _ s) as [[r s'] tr] eqn:E. cbn in *.
    repeat split; auto. exists u. auto.
  - intros -> ->. cbn. auto.
  - intros ->. rewrite andb_false_r.
    destruct (Hgo (parse_roles user)) as (H1 & H2 & u & H3 & H4 & H5 & H6 & H7).
    unfold granted. unfold response, final, record in *.
    destruct (run_interleaved [] _ s) as [[r s'] tr] eqn:E. cbn in *.
    repeat split; auto. exists u. auto.
Qed.

Lemma grant_bootstrap_rule_within_page_witness :
  has_admin both_registered = false /\
  granted "admin"
    (Doc.mk 0 None (Some "02a1") None None (Some "alice") (Some "Alice") None
       None None None None (Some MetaEmpty) None (Some "active"))
    (run (grantUserRole alice sample_now) both_registered).
Proof.
  split; [reflexivity |].
  apply (proj1 (grant_bootstrap_rule_within_page alice sample_now both_registered "admin"
                  (Doc.mk 0 None (Some "02a1") None None (Some "alice") (Some "Alice") None
                     None None None None (Some MetaEmpty) None (Some "active"))
                  [] ltac:(vm_compute; lia) eq_refl eq_refl eq_refl eq_refl eq_refl)).
  reflexivity.
Defined.

(** The bootstrap window closes with the first administrator: [bob] is
    turned away once [alice] holds the role, and [alice] can still grant. *)
Example bootstrap_scenario :
  let first := run (grantUserRole alice sample_now) both_registered in
  let second := run (grantUserRole bob sample_now) (final first) in
  let again := run (grantUserRole alice sample_now) (final first) in
  Res.statusCode (response first) = 200 /\
  map Doc.roles (users (final first)) = [Some ["admin"]; None] /\
  Res.statusCode (response second) = 403 /\
  Res.code (response second) = Some "UNAUTHORIZED" /\
  final second = final first /\
  Res.statusCode (response again) = 200.
Proof.
  vm_compute. repeat split.
Qed.

(** C5.  The admin scan of the self-service grant reads one page of the
    directory.  In [crowd], reached through the handlers alone, twenty-six
    members are registered and the last of them holds the [admin] role; the
    first member, who holds no role, asks for [admin] and is answered 200
    and made an administrator, where the bootstrap rule answers
    [UNAUTHORIZED]: an administrator past the first page is not seen. *)
Theorem grant_overlooks_admin_past_first_page :
  let o := run (grantUserRole (member 0) sample_now) crowd in
  has_admin crowd = true /\
  nth_error (users crowd) 25 = Some (member_record 25 (Some ["admin"])) /\
  listDocuments (by_key (member 0)) crowd = [member_record 0 None] /\
  JS.includes (parse_roles (member_record 0 None)) "admin" = false /\
  Res.statusCode (response o) = 200 /\
  Res.code (response o) = None /\
  granted "admin" (member_record 0 None) o /\
  filter (fun u => JS.includes (parse_roles u) "admin") (users (final o))
  = [member_record 0 (Some ["admin"]); member_record 25 (Some ["admin"])].
Proof.
  cbv zeta.
  split; [vm_compute; reflexivity |]. split; [vm_compute; reflexivity |].
  split; [vm_compute; reflexivity |]. split; [vm_compute; reflexivity |].
  split; [vm_compute; reflexivity |]. split; [vm_compute; reflexivity |].
  split; [| vm_compute; reflexivity].
  unfold granted.
  split; [vm_compute; reflexivity |]. split; [vm_compute; reflexivity |].
  exists (member_record 0 (Some ["admin"])).
  split; [vm_compute; reflexivity |].
  split; [vm_compute; left; reflexivity |].
  split; [vm_compute; reflexivity |]. split; vm_compute; reflexivity.
Qed.

(** ** Usernames *)

Lemma username_lookup_hits v s holder :
  JS.truthy v = true ->
  In holder (users s) ->
  Doc.username holder = v ->
  (0 <? List.length (listDocuments [Query_equal A_username v] s))%nat = true.
Proof.
  intros Hv Hin Hname. apply Nat.ltb_lt. unfold listDocuments.
  assert (H : In holder (filter (fun d => forallb (satisfies d) [Query_equal A_username v])
                                (users s))).
  { apply filter_In. split; [exact Hin |].
    cbn. rewrite Hname, (same_value_refl _ Hv). reflexivity. }
  destruct (filter _ (users s)); [contradiction | rewrite page_cons; cbn; lia].
Qed.

(** C6.  On the not-found path of auth-or-register, a supplied username
    that some record of the directory already holds is answered
    [USERNAME_TAKEN] with HTTP 409 and nothing is created; a registered user
    who sends their own stored username is authenticated, and the username
    is not written again. *)
Theorem username_conflicts payload now s :
  falsy_required payload = false ->
  fresh payload now = true ->
  let o := run (authOrRegister payload now) s in
  (forall holder,
     listDocuments (by_key payload) s = [] ->
     JS.truthy (Req.username payload) = true ->
     In holder (users s) ->
     Doc.username holder = Req.username payload ->
     Res.statusCode (response o) = 409 /\
     Res.code (response o) = Some "USERNAME_TAKEN" /\
     Res.success (response o) = false /\
     final o = s) /\
  (forall user rest,
     listDocuments (by_key payload) s = user :: rest ->
     Doc.username user = Req.username payload ->
     authenticated o /\
     (forall data out, ~ In (EvCreateUser data out) (trace o)) /\
     (forall i p out, In (EvUpdateUser i p out) (trace o) -> Patch.username p = None)).
Proof.
  intros Hreq Hfresh o. split.
  - intros holder Hlook Hname Hin Hheld.
    destruct (required_truthy _ Hreq) as (Hkey & Hsig & Hts).
    unfold fresh in Hfresh. apply negb_true_iff in Hfresh. unfold by_key in Hlook.
    subst o. unfold run, authOrRegister. rewrite Hkey, Hsig, Hts, Hfresh. cbn [negb orb].
    cbn [run_interleaved await interfere tl]. rewrite Hlook, Hname.
    cbn [run_interleaved await interfere tl].
    rewrite (username_lookup_hits _ s holder Hname Hin Hheld). cbn. auto.
  - intros user rest Hlook Hown.
    destruct (authOrRegister_found payload now s user rest Hreq Hfresh Hlook)
      as (Ha & _ & _ & Hc & _).
    split; [exact Ha |]. split; [exact Hc |].
    destruct (required_truthy _ Hreq) as (Hkey & Hsig & Hts).
    unfold fresh in Hfresh. apply negb_true_iff in Hfresh. unfold by_key in Hlook.
    subst o. unfold run, authOrRegister. rewrite Hkey, Hsig, Hts, Hfresh. cbn [negb orb].
    cbn [run_interleaved await interfere tl]. rewrite Hlook, Hown.
    assert (Hsame : JS.truthy (Req.username payload)
                    && JS.strict_neq (Req.username payload) (Req.username payload) = false).
    { destruct (JS.truthy (Req.username payload)) eqn:E; [| reflexivity].
      now rewrite (strict_neq_same _ E). }
    rewrite Hsame. explore; cbn; intros i p out H;
      repeat (destruct H as [H | H]; [try discriminate H |]); try contradiction;
      now injection H as <- <- <-.
Qed.

Lemma username_conflicts_witness :
  let taken := Req.mk None (Some "02c3") None (Some "alice") None None None
                 (Some sample_now) (Some "3044cc") in
  let o := run (authOrRegister taken sample_now) alice_registered in
  Res.statusCode (response o) = 409 /\
  Res.code (response o) = Some "USERNAME_TAKEN" /\
  final o = alice_registered /\
  authenticated (run (authOrRegister alice sample_now) alice_registered).
Proof.
  cbv zeta.
  pose proof (username_conflicts
                (Req.mk None (Some "02c3") None (Some "alice") None None None
                   (Some sample_now) (Some "3044cc"))
                sample_now alice_registered eq_refl eq_refl) as (Htaken & _).
  pose proof (username_conflicts alice sample_now alice_registered eq_refl eq_refl)
    as (_ & Hown).
  destruct (Htaken
              (Doc.mk 0 None (Some "02a1") None None (Some "alice") (Some "Alice") None
                 None None None None (Some MetaEmpty) None (Some "active"))
              eq_refl eq_refl (or_introl eq_refl) eq_refl) as (H1 & H2 & _ & H3).
  destruct (Hown
              (Doc.mk 0 None (Some "02a1") None None (Some "alice") (Some "Alice") None
                 None None None None (Some MetaEmpty) None (Some "active"))
              [] eq_refl eq_refl) as (Ha & _).
  repeat split; try assumption; apply Ha.
Defined.

(** ** The last-login stamp *)








(** ** Records at creation *)

Lemma default_role_truthy env :
  JS.truthy (JS.or_else (VITE_DEFAULT_ROLE env) (Some "user")) = true.
Proof.
  unfold JS.or_else. destruct (JS.truthy (VITE_DEFAULT_ROLE env)) eqn:E; [exact E | reflexivity].
Qed.

(** C9, as stated, fails: the record auth-or-register creates for [alice]
    has no role of either kind. *)
Lemma authOrRegister_creates_without_role :
  ~ created_with_baseline (run (authOrRegister alice sample_now) empty_store).
Proof.
  intros H.
  destruct (H (Doc.mk 0 None (Some "02a1") None None (Some "alice") (Some "Alice") None
                 None None None None (Some MetaEmpty) None None)
              (Doc.mk 0 None (Some "02a1") None None (Some "alice") (Some "Alice") None
                 None None None None (Some MetaEmpty) None (Some "active")))
    as (Hrole & _).
  - vm_compute. right; right; left; reflexivity.
  - discriminate Hrole.
Qed.

(** C9, amended.  A record created by register carries the non-empty
    default role ([VITE_DEFAULT_ROLE], or ['user'] when that is unset or
    empty) and [isActive = true].  A record created by auth-or-register is
    sent without role and without status: it holds no role until one is
    granted, and its status ['active'] is the default the collection gives
    the attribute. *)
Theorem created_record_shape env payload now others s data doc :
  (In (EvCreateUser data (Ok doc))
      (trace (run_interleaved others (register env payload now) s)) ->
   Doc.role doc = JS.or_else (VITE_DEFAULT_ROLE env) (Some "user") /\
   has_role doc = true /\
   Doc.isActive doc = Some true /\
   is_active doc = true) /\
  (In (EvCreateUser data (Ok doc))
      (trace (run_interleaved others (authOrRegister payload now) s)) ->
   Doc.role data = None /\ Doc.roles data = None /\ Doc.status data = None /\
   has_role doc = false /\
   Doc.status doc = Some "active" /\
   is_active doc = true).
Proof.
  split.
  - unfold register.
    explore; cbn; intros H;
      repeat (destruct H as [H | H]; [try discriminate H |]); try contradiction;
      injection H as <- <-;
      match goal with
      | H : createDocument _ _ = _ |- _ =>
          unfold createDocument in H; destruct (violates_unique _ _); [discriminate H |];
          injection H as <- <-
      end;
      unfold has_role; cbn; rewrite (default_role_truthy env); repeat split.
  - unfold authOrRegister.
    explore; cbn; intros H;
      repeat (destruct H as [H | H]; [try discriminate H |]); try contradiction;
      injection H as <- <-;
      match goal with
      | H : createDocument _ _ = _ |- _ =>
          unfold createDocument in H; destruct (violates_unique _ _); [discriminate H |];
          injection H as <- <-
      end;
      repeat split.
Qed.

Lemma created_record_shape_witness :
  let data :=
    Doc.mk 0 (Some "1AliceAddr") (Some "02a1") (Some "") (Some "") (Some "alice")
      (Some "Alice") (Some "") (Some "") (Some "user") (Some true) (Some sample_now)
      (Some (MetaRegistered sample_now "metanet-scaffold" "02a1")) None None in
  In (EvCreateUser data (Ok (with_defaults data)))
     (trace (run (register sample_env alice sample_now) empty_store)) /\
  has_role (with_defaults data) = true /\
  is_active (with_defaults data) = true.
Proof.
  cbv zeta.
  assert (Hin : In (EvCreateUser
                      (Doc.mk 0 (Some "1AliceAddr") (Some "02a1") (Some "") (Some "")
                         (Some "alice") (Some "Alice") (Some "") (Some "") (Some "user")
                         (Some true) (Some sample_now)
                         (Some (MetaRegistered sample_now "metanet-scaffold" "02a1"))
                         None None)
                      (Ok (with_defaults
                             (Doc.mk 0 (Some "1AliceAddr") (Some "02a1") (Some "") (Some "")
                                (Some "alice") (Some "Alice") (Some "") (Some "") (Some "user")
                                (Some true) (Some sample_now)
                                (Some (MetaRegistered sample_now "metanet-scaffold" "02a1"))
                                None None))))
                   (trace (run (register sample_env alice sample_now) empty_store))).
  { vm_compute. right; right; left; reflexivity. }
  split; [exact Hin |].
  destruct (proj1 (created_record_shape sample_env alice sample_now [] empty_store _ _) Hin)
    as (_ & Hrole & _ & Hactive).
  split; assumption.
Defined.

(** * Further properties *)

(** ** Replacing a document by id *)

Lemma replace_first_split {A : Type} (id_of : A -> nat) (f : A -> A) i l d' l' :
  replace_first id_of f i l = Some (d', l') ->
  exists pre d post,
    l = (pre ++ d :: post)%list /\ l' = (pre ++ f d :: post)%list /\
    id_of d = i /\ d' = f d.
Proof.
  revert d' l'. induction l as [| x l IH]; cbn; [discriminate |].
  intros d' l'. destruct (Nat.eqb (id_of x) i) eqn:E.
  - intros [= <- <-]. apply Nat.eqb_eq in E. exists [], x, l. auto.
  - destruct (replace_first id_of f i l) as [[d0 l0] |]; [| discriminate].
    intros [= <- <-]. destruct (IH d0 l0 eq_refl) as (pre & d & post & -> & -> & Hid & Hd).
    exists (x :: pre), d, post. auto.
Qed.

Lemma replace_first_some {A : Type} (id_of : A -> nat) (f : A -> A) i l d :
  In d l -> id_of d = i -> replace_first id_of f i l <> None.
Proof.
  induction l as [| x l IH]; cbn; [contradiction |].
  intros [-> | Hin] Hid.
  - rewrite Hid, Nat.eqb_refl. discriminate.
  - destruct (Nat.eqb (id_of x) i); [discriminate |].
    specialize (IH Hin Hid). destruct (replace_first id_of f i l) as [[d' l'] |]; congruence.
Qed.

Lemma replace_first_map {A B : Type} (id_of : A -> nat) (f : A -> A) (g : A -> B) i l d' l' :
  (forall x, g (f x) = g x) ->
  replace_first id_of f i l = Some (d', l') ->
  map g l' = map g l.
Proof.
  intros Hg H. destruct (replace_first_split _ _ _ _ _ _ H) as (pre & d & post & -> & -> & _).
  rewrite !map_app. cbn. now rewrite Hg.
Qed.

Lemma replace_first_In {A : Type} (id_of : A -> nat) (f : A -> A) i l d' l' :
  replace_first id_of f i l = Some (d', l') -> In d' l'.
Proof.
  intros H. destruct (replace_first_split _ _ _ _ _ _ H) as (pre & d & post & _ & -> & _ & ->).
  apply in_or_app. right. now left.
Qed.

(** ** The admin-to-target grant, path by path *)

Lemma strict_neq_false a x : JS.strict_neq a (Some x) = false -> a = Some x.
Proof.
  destruct a as [y |]; cbn; [| discriminate].
  intros H. apply negb_false_iff, String.eqb_eq in H. now subst.
Qed.

Lemma setUserRole_found i r w d :
  In d (World.users w) -> Doc.id d = i ->
  exists d' w', setUserRole i r w = (Ok d', w').
Proof.
  intros Hin Hid. unfold setUserRole.
  destruct (replace_first Doc.id (with_role r) i (World.users w)) as [[d' us] |] eqn:U.
  - eauto.
  - exfalso. now apply (replace_first_some Doc.id (with_role r) i _ d Hin Hid).
Qed.

Lemma updateAssignment_found i p w a :
  In a (World.roles w) -> Assignment.id a = i ->
  exists a' w', updateAssignment i p w = (Ok a', w').
Proof.
  intros Hin Hid. unfold updateAssignment.
  destruct (replace_first Assignment.id (Assignment.apply p) i (World.roles w))
    as [[a' rs] |] eqn:U.
  - eauto.
  - exfalso. now apply (replace_first_some Assignment.id (Assignment.apply p) i _ a Hin Hid).
Qed.

(** Closes the paths on which a directory call would have thrown although
    the document it addresses was just read. *)
Ltac impossible_throw :=
  exfalso;
  match goal with
  | H : setUserRole (Doc.id ?t) ?r ?w = (Threw _, _),
    L : findUsers _ _ ?w = ?t :: _ |- _ =>
      apply page_filter_head in L; destruct L as [L _];
      destruct (setUserRole_found (Doc.id t) r w t L eq_refl) as (? & ? & E);
      rewrite E in H; discriminate H
  | H : updateAssignment (Assignment.id ?a) ?p ?w = (Threw _, _),
    L : findAssignments _ _ ?w = ?a :: _ |- _ =>
      apply page_filter_head in L; destruct L as [L _];
      destruct (updateAssignment_found (Assignment.id a) p w a L eq_refl) as (? & ? & E);
      rewrite E in H; discriminate H
  | H : createAssignment _ _ = (Threw _, _) |- _ =>
      unfold createAssignment in H; discriminate H
  | H : createContent _ _ = (Threw _, _) |- _ =>
      unfold createContent in H; discriminate H
  end.

Lemma grantUserRoleByAdmin_cases payload now w :
  let o := serve (grantUserRoleByAdmin payload now) w in
  (Reply.statusCode (reply o) <> 200 /\ world o = w /\
   forallb (fun a => negb (is_write a)) (accesses o) = true)
  \/
  (Reply.statusCode (reply o) = 200 /\
   exists admin rest target rest',
     findUsers By_metanetPrincipal (GrantReq.adminPrincipal payload) w = admin :: rest /\
     Doc.role admin = Some "admin" /\
     findUsers By_metanetPrincipal (GrantReq.targetPrincipal payload) w = target :: rest').
Proof.
  unfold grantUserRoleByAdmin. wexplore; cbn.
  all: try (left; repeat split; discriminate).
  all: try impossible_throw.
  all: right; split; [reflexivity |];
    match goal with
    | H : JS.strict_neq (Doc.role ?t) _ = false |- _ =>
        apply strict_neq_false in H; eauto 10
    end.
Qed.

Lemma filter_replace_length {A : Type} (g : A -> bool) (f : A -> A) (pre post : list A) d :
  g (f d) = g d ->
  List.length (filter g (pre ++ f d :: post)) = List.length (filter g (pre ++ d :: post)).
Proof.
  intros Hg. rewrite !filter_app, !length_app. cbn. rewrite Hg.
  destruct (g d); reflexivity.
Qed.

Lemma findAssignments_same_roles p r w1 w :
  World.roles w1 = World.roles w -> findAssignments p r w1 = findAssignments p r w.
Proof.
  unfold findAssignments. now intros ->.
Qed.

Lemma grantUserRoleByAdmin_granted payload now w admin rest target rest' :
  JS.truthy (GrantReq.adminPrincipal payload) = true ->
  JS.truthy (GrantReq.targetPrincipal payload) = true ->
  JS.truthy (GrantReq.newRole payload) = true ->
  findUsers By_metanetPrincipal (GrantReq.adminPrincipal payload) w = admin :: rest ->
  Doc.role admin = Some "admin" ->
  findUsers By_metanetPrincipal (GrantReq.targetPrincipal payload) w = target :: rest' ->
  let o := serve (grantUserRoleByAdmin payload now) w in
  Reply.statusCode (reply o) = 200 /\
  Reply.body (reply o)
    = Granted target (GrantReq.newRole payload)
        (resolve_permissions (GrantReq.permissions payload)
           (match GrantReq.newRole payload with Some r => r | None => "" end)) /\
  (exists pre d post,
     World.users w = (pre ++ d :: post)%list /\
     World.users (world o)
       = (pre ++ with_role (GrantReq.newRole payload) d :: post)%list /\
     Doc.id d = Doc.id target) /\
  World.contents (world o) = World.contents w /\
  List.length (findAssignments (GrantReq.targetPrincipal payload) (GrantReq.newRole payload)
                 (world o))
  = Nat.max 1 (List.length (findAssignments (GrantReq.targetPrincipal payload)
                              (GrantReq.newRole payload) w)).
Proof.
  intros Ha Ht Hr Hadmin Hrole Htarget.
  unfold grantUserRoleByAdmin. rewrite Ha, Ht, Hr. cbn [negb orb].
  cbn [serve wawait logged]. rewrite Hadmin, Hrole.
  change (JS.strict_neq (Some "admin") (Some "admin")) with false. cbv iota.
  cbn [serve wawait logged]. rewrite Htarget. cbn [serve wawait logged].
  unfold setUserRole.
  destruct (replace_first Doc.id (with_role (GrantReq.newRole payload)) (Doc.id target)
              (World.users w)) as [[d' us] |] eqn:U.
  2:{ exfalso. apply page_filter_head in Htarget. destruct Htarget as [Hin _].
      now apply (replace_first_some Doc.id (with_role (GrantReq.newRole payload))
                   (Doc.id target) _ target Hin eq_refl). }
  destruct (replace_first_split _ _ _ _ _ _ U) as (pre & d & post & Hw & -> & Hid & ->).
  cbn [serve wawait logged].
  rewrite (findAssignments_same_roles _ _ _ w) by reflexivity.
  destruct (findAssignments (GrantReq.targetPrincipal payload) (GrantReq.newRole payload) w)
    as [| existing others] eqn:Hfind.
  - cbn [serve wawait logged]. unfold createAssignment.
    cbn [serve wawait logged reply world accesses fst snd Reply.statusCode Reply.body
         Reply.ok World.users World.contents World.roles].
    split; [reflexivity |]. split; [reflexivity |].
    split; [exists pre, d, post; auto |]. split; [reflexivity |].
    unfold findAssignments in *. cbn [World.roles]. apply page_nil in Hfind.
    rewrite filter_app, Hfind. cbn.
    destruct (truthy_some _ Ht) as (tp & Etp & _). destruct (truthy_some _ Hr) as (nr & Enr & _).
    rewrite Etp, Enr. cbn. now rewrite !String.eqb_refl.
  - cbn [serve wawait logged]. unfold updateAssignment. cbn [World.roles].
    match goal with
    | |- context [replace_first Assignment.id ?f ?i (World.roles w)] =>
        destruct (replace_first Assignment.id f i (World.roles w)) as [[a' rs] |] eqn:R
    end.
    2:{ exfalso. apply page_filter_head in Hfind. destruct Hfind as [Hin _].
        eapply replace_first_some in R; eauto. }
    cbn [serve wawait logged reply world accesses fst snd Reply.statusCode Reply.body
         Reply.ok World.users World.contents World.roles].
    split; [reflexivity |]. split; [reflexivity |].
    split; [exists pre, d, post; auto |]. split; [reflexivity |].
    destruct (replace_first_split _ _ _ _ _ _ R) as (pre' & a & post' & Hroles & -> & _ & _).
    unfold findAssignments in *. cbn [World.roles]. rewrite Hroles in *.
    rewrite page_length, filter_replace_length by reflexivity.
    rewrite <- page_length, Hfind. reflexivity.
Qed.

(** ** The admin-to-target grant *)

(** X1.  The admin-to-target grant answers 200 only when the first record
    registered under [adminPrincipal] has ['admin'] as its [role] attribute
    and a record is registered under [targetPrincipal]. *)
Theorem admin_grant_needs_admin_grantor payload now w :
  Reply.statusCode (reply (serve (grantUserRoleByAdmin payload now) w)) = 200 ->
  exists admin rest target rest',
    findUsers By_metanetPrincipal (GrantReq.adminPrincipal payload) w = admin :: rest /\
    Doc.role admin = Some "admin" /\
    findUsers By_metanetPrincipal (GrantReq.targetPrincipal payload) w = target :: rest'.
Proof.
  intros H200.
  destruct (grantUserRoleByAdmin_cases payload now w) as [(Hne & _) | (_ & H)];
    [contradiction | exact H].
Qed.

Lemma admin_grant_needs_admin_grantor_witness :
  Reply.statusCode (reply (serve (grantUserRoleByAdmin promote_dave sample_now) staffed)) = 200 /\
  exists admin rest target rest',
    findUsers By_metanetPrincipal (GrantReq.adminPrincipal promote_dave) staffed
      = admin :: rest /\
    Doc.role admin = Some "admin" /\
    findUsers By_metanetPrincipal (GrantReq.targetPrincipal promote_dave) staffed
      = target :: rest'.
Proof.
  split; [reflexivity |].
  apply (admin_grant_needs_admin_grantor promote_dave sample_now staffed). reflexivity.
Defined.

(** Explores every path of a run in which directory calls can fail. *)
Ltac fexplore :=
  repeat (cbn [serve_faulty wawait logged reply world accesses fst snd];
          match goal with
          | |- context [match ?x with _ => _ end] => destruct x eqn:?
          | |- context [if ?b then _ else _] => destruct b eqn:?
          end).

Lemma setUserRole_effect i r w out w1 :
  setUserRole i r w = (out, w1) ->
  World.roles w1 = World.roles w /\
  World.contents w1 = World.contents w /\
  ((exists e, out = Threw e /\ w1 = w) \/
   (exists d' pre d post,
      out = Ok d' /\
      World.users w = (pre ++ d :: post)%list /\
      World.users w1 = (pre ++ with_role r d :: post)%list /\
      Doc.id d = i)).
Proof.
  unfold setUserRole.
  destruct (replace_first Doc.id (with_role r) i (World.users w)) as [[d' us] |] eqn:U.
  - intros [= <- <-]. cbn. split; [reflexivity |]. split; [reflexivity |]. right.
    destruct (replace_first_split _ _ _ _ _ _ U) as (pre & d & post & Hw & -> & Hid & ->).
    exists (with_role r d), pre, d, post. auto.
  - intros [= <- <-]. split; [reflexivity |]. split; [reflexivity |]. left. eauto.
Qed.

Lemma updateAssignment_threw i p w e w1 :
  updateAssignment i p w = (Threw e, w1) -> w1 = w.
Proof.
  unfold updateAssignment.
  destruct (replace_first _ _ _ _) as [[d' rs] |]; [discriminate | now intros [= _ <-]].
Qed.

Lemma setUserRole_threw i r w e w1 :
  setUserRole i r w = (Threw e, w1) -> w1 = w.
Proof.
  unfold setUserRole.
  destruct (replace_first _ _ _ _) as [[d' us] |]; [discriminate | now intros [= _ <-]].
Qed.

(** ** Directory calls that fail *)

Lemma run_faulty_no_fault p s : run_faulty [] p s = run p s.
Proof.
  unfold run. revert s.
  induction p as [r | qs k IH | data k IH | i p k IH | data k IH]; intros s;
    cbn [run_faulty run_interleaved fails tl interfere].
  - reflexivity.
  - now rewrite IH.
  - destruct (createDocument data s) as [out s1]. now rewrite IH.
  - destruct (updateDocument i p s) as [out s1]. now rewrite IH.
  - destruct (createRoleDocument data s) as [out s1]. now rewrite IH.
Qed.

Lemma serve_faulty_no_fault p w : serve_faulty [] p w = serve p w.
Proof.
  revert w.
  induction p as [r | by_ v k IH | i r k IH | p r k IH | i p k IH | data k IH | data k IH
                 | u n k IH]; intros w;
    cbn [serve_faulty serve fails tl].
  - reflexivity.
  - now rewrite IH.
  - destruct (setUserRole i r w) as [out w1]. now rewrite IH.
  - now rewrite IH.
  - destruct (updateAssignment i p w) as [out w1]. now rewrite IH.
  - destruct (createAssignment data w) as [out w1]. now rewrite IH.
  - destruct (createContent data w) as [out w1]. now rewrite IH.
  - now rewrite IH.
Qed.

(** Explores every path of a handler run in which directory calls can fail. *)
Ltac rexplore :=
  repeat (cbn [run_faulty await record response final trace fst snd];
          match goal with
          | |- context [match ?x with _ => _ end] => destruct x eqn:?
          | |- context [if ?b then _ else _] => destruct b eqn:?
          end).

Lemma createDocument_ok data s doc s1 :
  createDocument data s = (Ok doc, s1) ->
  doc = with_defaults (Doc.set_id (next_id s) data) /\
  s1 = mkStore (users s ++ [doc])%list (roleAssignments s) (S (next_id s)).
Proof.
  unfold createDocument. destruct (violates_unique data s); [discriminate |].
  intros [= <- <-]. auto.
Qed.

Lemma createDocument_threw data s e s1 :
  createDocument data s = (Threw e, s1) -> s1 = s.
Proof.
  unfold createDocument. destruct (violates_unique data s); [| discriminate].
  now intros [= _ <-].
Qed.

Lemma failed_call {A W : Type} (b : bool) (w : W) (step : result A * W) e w1 :
  (step = (Threw e, w1) -> w1 = w) ->
  (if b then (Threw ServiceFailure, w) else step) = (Threw e, w1) -> w1 = w.
Proof.
  intros Hstep. destruct b; [now intros [= _ <-] | exact Hstep].
Qed.

Lemma call_carried_out {A W : Type} (b : bool) (w : W) (step : result A * W) a w1 :
  (if b then (Threw ServiceFailure, w) else step) = (Ok a, w1) -> step = (Ok a, w1).
Proof.
  destruct b; [discriminate | auto].
Qed.

Theorem admin_grant_refused_or_failed payload now faults w :
  let o := serve_faulty faults (grantUserRoleByAdmin payload now) w in
  In (Reply.statusCode (reply o)) [200; 400; 403; 404; 500] /\
  (In (Reply.statusCode (reply o)) [400; 403; 404] ->
   world o = w /\ forallb (fun a => negb (is_write a)) (accesses o) = true) /\
  (Reply.statusCode (reply o) = 500 ->
   Reply.code (reply o) = Some "GRANT_ROLE_ERROR" /\
   World.roles (world o) = World.roles w /\
   World.contents (world o) = World.contents w /\
   (World.users (world o) = World.users w \/
    exists pre d post,
      World.users w = (pre ++ d :: post)%list /\
      World.users (world o)
      = (pre ++ with_role (GrantReq.newRole payload) d :: post)%list)).
Proof.
  cbv zeta. unfold grantUserRoleByAdmin. fexplore.
  all: cbn [serve_faulty logged reply world accesses fst snd
            Reply.statusCode Reply.code Reply.failure Reply.ok].
  all: (split; [repeat (first [left; reflexivity | right]) |]).
  all: (split; [intros [H | [H | [H | []]]]; try discriminate H; split; reflexivity |]).
  all: intros H; try discriminate H.
  all: (split; [reflexivity |]).
  all: try (repeat split; left; reflexivity).
  all: try match goal with
       | H : (if _ then _ else _) = (Threw _, _) |- _ =>
           apply failed_call in H;
           [subst
           | first [apply updateAssignment_threw | apply setUserRole_threw | discriminate]]
       end.
  all: try (repeat split; left; reflexivity).
  all: match goal with
       | H : (if ?b then _ else setUserRole _ _ _) = (Ok _, _) |- _ =>
           apply call_carried_out in H;
           destruct (setUserRole_effect _ _ _ _ _ H)
             as (Hr & Hc & [(e' & He & _) | (d' & pre & d & post & _ & Hw & Hw1 & _)]);
           [discriminate He |];
           split; [exact Hr |]; split; [exact Hc |]; right; exists pre, d, post; auto
       end.
Qed.

Lemma admin_grant_refused_or_failed_witness :
  let o := serve_faulty [false; false; false; true]
             (grantUserRoleByAdmin promote_dave sample_now) staffed in
  Reply.statusCode (reply o) = 500 /\
  Reply.code (reply o) = Some "GRANT_ROLE_ERROR" /\
  World.roles (world o) = World.roles staffed /\
  map Doc.role (World.users (world o)) <> map Doc.role (World.users staffed).
Proof.
  cbv zeta. split; [reflexivity |].
  destruct (proj2 (proj2 (admin_grant_refused_or_failed promote_dave sample_now
                            [false; false; false; true] staffed)) eq_refl)
    as (Hcode & Hroles & _).
  split; [exact Hcode |]. split; [exact Hroles |]. vm_compute. discriminate.
Defined.

(** X3.  With an admin grantor and a registered target, the grant answers
    200 for any non-empty role name (no list of valid roles is consulted)
    and rewrites exactly one user record, the first with the target's id,
    whose [role] attribute becomes the new role; content records are not
    touched. *)
Theorem admin_grant_sets_role payload now w admin rest target rest' :
  JS.truthy (GrantReq.adminPrincipal payload) = true ->
  JS.truthy (GrantReq.targetPrincipal payload) = true ->
  JS.truthy (GrantReq.newRole payload) = true ->
  findUsers By_metanetPrincipal (GrantReq.adminPrincipal payload) w = admin :: rest ->
  Doc.role admin = Some "admin" ->
  findUsers By_metanetPrincipal (GrantReq.targetPrincipal payload) w = target :: rest' ->
  let o := serve (grantUserRoleByAdmin payload now) w in
  Reply.statusCode (reply o) = 200 /\
  (exists pre d post,
     World.users w = (pre ++ d :: post)%list /\
     World.users (world o)
       = (pre ++ with_role (GrantReq.newRole payload) d :: post)%list /\
     Doc.id d = Doc.id target) /\
  World.contents (world o) = World.contents w.
Proof.
  intros Ha Ht Hr Hadmin Hrole Htarget.
  destruct (grantUserRoleByAdmin_granted payload now w admin rest target rest'
              Ha Ht Hr Hadmin Hrole Htarget) as (H200 & _ & Husers & Hcontents & _).
  auto.
Qed.

Lemma admin_grant_sets_role_witness :
  let o := serve (grantUserRoleByAdmin
                    (GrantReq.mk (Some "carol-principal") (Some "dave-principal")
                                 (Some "superuser") None None)
                    sample_now) staffed in
  Reply.statusCode (reply o) = 200 /\
  map Doc.role (World.users (world o)) = [Some "admin"; Some "superuser"].
Proof.
  cbv zeta.
  destruct (admin_grant_sets_role
              (GrantReq.mk (Some "carol-principal") (Some "dave-principal")
                           (Some "superuser") None None)
              sample_now staffed carol_admin [] dave_user []
              eq_refl eq_refl eq_refl eq_refl eq_refl eq_refl) as (H200 & _).
  split; [exact H200 | reflexivity].
Defined.



(** ** Invariants of the users directory *)

Lemma final_record ev o : final (record ev o) = final o.
Proof.
  destruct o as [[r s] tr]. reflexivity.
Qed.

Lemma update_first_replace i p l :
  update_first i p l = replace_first Doc.id (Patch.apply p) i l.
Proof.
  induction l as [| d l IH]; cbn; [reflexivity |]. now rewrite IH.
Qed.

(** A property of the user records that every create of a [Q]-document and
    every update keeps is kept by a whole run, whatever the interleaving
    with other requests that keep it. *)
Lemma run_preserves (I : list Doc.t -> Prop) (Q : Doc.t -> Prop) :
  (forall data s out s',
     I (users s) -> Q data -> createDocument data s = (out, s') -> I (users s')) ->
  (forall i p s out s',
     I (users s) -> updateDocument i p s = (out, s') -> I (users s')) ->
  forall p others s,
    creates_only Q p ->
    Forall (fun f : store -> store => forall s0, I (users s0) -> I (users (f s0))) others ->
    I (users s) ->
    I (users (final (run_interleaved others p s))).
Proof.
  intros Hcreate Hupdate.
  assert (Hint : forall others s,
             Forall (fun f : store -> store => forall s0, I (users s0) -> I (users (f s0)))
                    others ->
             I (users s) -> I (users (interfere others s))).
  { intros [| f others] s Hall Hs; cbn; [exact Hs |]. inversion Hall; subst. auto. }
  assert (Htl : forall others,
             Forall (fun f : store -> store => forall s0, I (users s0) -> I (users (f s0)))
                    others ->
             Forall (fun f : store -> store => forall s0, I (users s0) -> I (users (f s0)))
                    (tl others)).
  { intros [| f others] Hall; cbn; [constructor |]. now inversion Hall. }
  induction p as [r | qs k IH | data k IH | i p k IH | data k IH];
    intros others s Hp Hall Hs; cbn [run_interleaved].
  - exact Hs.
  - rewrite final_record. apply IH; auto.
  - destruct (createDocument data (interfere others s)) as [out s1] eqn:E.
    rewrite final_record. destruct Hp as [Hq Hk]. apply IH; auto.
    eapply Hcreate; [apply Hint; eassumption | exact Hq | exact E].
  - destruct (updateDocument i p (interfere others s)) as [out s1] eqn:E.
    rewrite final_record. apply IH; auto.
    eapply Hupdate; [apply Hint; eassumption | exact E].
  - cbn. rewrite final_record. apply IH; [apply Hp | auto | cbn; apply Hint; assumption].
Qed.

(** Walks a handler program down to the documents it creates. *)
Ltac walk :=
  repeat (cbn [creates_only await];
          match goal with
          | |- True => exact I
          | |- forall _, _ => intro
          | |- _ /\ _ => split
          | |- creates_only _ (if ?b then _ else _) => destruct b eqn:?
          | |- creates_only _ (match ?x with _ => _ end) => destruct x eqn:?
          end).

Lemma no_role_admin_by_roles l l' :
  map Doc.role l' = map Doc.role l -> no_role_admin l' = no_role_admin l.
Proof.
  revert l'. induction l as [| d l IH]; intros [| d' l'] H; try discriminate H;
    [reflexivity |].
  injection H as Hd Hl. unfold no_role_admin in *. cbn [forallb].
  rewrite (IH l' Hl). unfold is_role_admin. now rewrite Hd.
Qed.

Lemma no_role_admin_create data s out s' :
  no_role_admin (users s) = true -> is_role_admin data = false ->
  createDocument data s = (out, s') -> no_role_admin (users s') = true.
Proof.
  intros Hs Hd. unfold createDocument. destruct (violates_unique data s).
  - now intros [= _ <-].
  - intros [= _ <-]. cbn. unfold no_role_admin in *. rewrite forallb_app, Hs. cbn.
    replace (is_role_admin (with_defaults (Doc.set_id (next_id s) data)))
      with (is_role_admin data); [now rewrite Hd |].
    unfold with_defaults, is_role_admin. now destruct (Doc.status _).
Qed.

Lemma no_role_admin_update i p s out s' :
  no_role_admin (users s) = true ->
  updateDocument i p s = (out, s') -> no_role_admin (users s') = true.
Proof.
  intros Hs. unfold updateDocument. rewrite update_first_replace.
  destruct (replace_first Doc.id (Patch.apply p) i (users s)) as [[d' us] |] eqn:U.
  - intros [= _ <-]. cbn. rewrite <- Hs. apply no_role_admin_by_roles.
    now apply (replace_first_map Doc.id (Patch.apply p) Doc.role i _ d').
  - now intros [= _ <-].
Qed.

Lemma register_creates_default_role env payload now :
  creates_only (fun d => Doc.role d = JS.or_else (VITE_DEFAULT_ROLE env) (Some "user"))
               (register env payload now).
Proof.
  unfold register. walk. reflexivity.
Qed.

Lemma others_create_no_role payload now :
  creates_only (fun d => Doc.role d = None) (authenticate payload now) /\
  creates_only (fun d => Doc.role d = None) (grantUserRole payload now) /\
  creates_only (fun d => Doc.role d = None) (authOrRegister payload now).
Proof.
  split; [| split].
  - unfold authenticate. walk.
  - unfold grantUserRole. walk.
  - unfold authOrRegister. walk; reflexivity.
Qed.

Lemma creates_only_weaken (Q Q' : Doc.t -> Prop) p :
  (forall d, Q d -> Q' d) -> creates_only Q p -> creates_only Q' p.
Proof.
  intros HQ. induction p as [r | qs k IH | data k IH | i p k IH | data k IH]; cbn; auto.
  intros [Hd Hk]. split; auto.
Qed.

(** ** The content function, path by path *)

Lemma contentFunction_footprint env id_text randomString payload now w :
  let o := serve (contentFunction env id_text randomString payload now) w in
  World.users (world o) = World.users w /\
  World.roles (world o) = World.roles w /\
  (world o = w \/
   exists c,
     World.contents (world o) = (World.contents w ++ [c])%list /\
     action_is "save-content" payload = true /\
     Reply.statusCode (reply o) = 200).
Proof.
  unfold contentFunction, handleSaveContent, handleListContent, action_is.
  wexplore; cbn; try (repeat split; left; reflexivity); try impossible_throw.
  all: match goal with
       | H : createContent _ _ = (Ok _, _) |- _ =>
           unfold createContent in H; injection H as <- <-
       end.
  all: cbn; repeat split; right; eexists; repeat split.
Qed.

(** ** No administrator out of nothing *)

Lemma lift_keeps_no_role_admin p w :
  creates_only (fun d => is_role_admin d = false) p ->
  no_role_admin (World.users w) = true ->
  no_role_admin (World.users (snd (lift p w))) = true.
Proof.
  intros Hp Hw. unfold lift, run. cbn [snd World.users].
  apply (run_preserves (fun l => no_role_admin l = true) (fun d => is_role_admin d = false)
           no_role_admin_create no_role_admin_update p [] _ Hp); [constructor | exact Hw].
Qed.

Lemma handle_keeps_no_role_admin q w :
  registers_admins q = false ->
  no_role_admin (World.users w) = true ->
  no_role_admin (World.users (snd (handle q w))) = true /\
  (forall payload now, q = CallGrantByAdmin payload now -> fst (handle q w) <> 200).
Proof.
  intros Hq Hw.
  assert (Hnone : forall d : Doc.t, Doc.role d = None -> is_role_admin d = false).
  { intros d Hd. unfold is_role_admin. now rewrite Hd. }
  destruct q as [env payload now | payload now | payload now | payload now | payload now
                | env id_text randomString payload now]; cbn [handle].
  - split; [| discriminate].
    pose proof (lift_keeps_no_role_admin (register env payload now) w) as H.
    destruct (lift (register env payload now) w) as [r w']. apply H; [| exact Hw].
    eapply creates_only_weaken; [| apply register_creates_default_role].
    intros d Hd. cbn beta in Hd. cbn [registers_admins] in Hq.
    unfold is_role_admin. rewrite Hd. exact Hq.
  - split; [| discriminate].
    pose proof (lift_keeps_no_role_admin (authenticate payload now) w) as H.
    destruct (lift (authenticate payload now) w) as [r w']. apply H; [| exact Hw].
    apply (creates_only_weaken _ _ _ Hnone), others_create_no_role.
  - split; [| discriminate].
    pose proof (lift_keeps_no_role_admin (grantUserRole payload now) w) as H.
    destruct (lift (grantUserRole payload now) w) as [r w']. apply H; [| exact Hw].
    apply (creates_only_weaken _ _ _ Hnone), others_create_no_role.
  - split; [| discriminate].
    pose proof (lift_keeps_no_role_admin (authOrRegister payload now) w) as H.
    destruct (lift (authOrRegister payload now) w) as [r w']. apply H; [| exact Hw].
    apply (creates_only_weaken _ _ _ Hnone), others_create_no_role.
  - cbn [fst snd].
    destruct (grantUserRoleByAdmin_cases payload now w)
      as [(Hne & Hsame & _) | (_ & admin & rest & _ & _ & Hfind & Hrole & _)].
    + rewrite Hsame. split; [exact Hw |]. intros _ _ _. exact Hne.
    + exfalso. apply page_filter_head in Hfind. destruct Hfind as [Hin _].
      unfold no_role_admin in Hw. rewrite forallb_forall in Hw. specialize (Hw admin Hin).
      unfold is_role_admin in Hw. rewrite Hrole in Hw. discriminate Hw.
  - cbn [fst snd]. split; [| discriminate].
    destruct (contentFunction_footprint env id_text randomString payload now w) as (Hu & _).
    cbv zeta in Hu. now rewrite Hu.
Qed.

(** X5.  Starting from a directory in which no record has ['admin'] as its
    [role] attribute, no sequence of requests to the six handlers produces
    one, unless register is configured with ['admin'] as default role; so
    every admin-to-target grant in such a sequence is refused.  In
    particular the role a user takes through the self-service grant (the
    [roles] array) never makes them an administrator for this handler. *)
Theorem admin_grant_unreachable qs w :
  no_role_admin (World.users w) = true ->
  existsb registers_admins qs = false ->
  no_role_admin (World.users (snd (handle_all qs w))) = true /\
  forall payload now c,
    In (CallGrantByAdmin payload now, c) (fst (handle_all qs w)) -> c <> 200.
Proof.
  revert w. induction qs as [| q qs IH]; intros w Hw Hqs; cbn [handle_all].
  - split; [exact Hw | intros ? ? ? []].
  - cbn [existsb] in Hqs. apply orb_false_elim in Hqs as [Hq Hrest].
    destruct (handle_keeps_no_role_admin q w Hq Hw) as (Hw1 & Hgrant).
    destruct (handle q w) as [c w1]. cbn [fst snd] in *.
    destruct (IH w1 Hw1 Hrest) as (Hw2 & Hlog).
    destruct (handle_all qs w1) as [log w2]. cbn [fst snd] in *.
    split; [exact Hw2 |].
    intros payload now c' [Heq | Hin].
    + injection Heq as -> <-. now apply (Hgrant payload now).
    + now apply (Hlog payload now).
Qed.

Lemma admin_grant_unreachable_witness :
  let erin := Req.mk (Some "1ErinAddr") (Some "02e5") (Some "erin-principal") (Some "erin")
                None None (Some "admin") (Some sample_now) (Some "3044ee") in
  let qs := [CallRegister sample_env erin sample_now;
             CallGrantUserRole erin sample_now;
             CallGrantByAdmin
               (GrantReq.mk (Some "erin-principal") (Some "erin-principal") (Some "admin")
                            None None)
               sample_now] in
  map snd (fst (handle_all qs World.empty)) = [201; 200; 403] /\
  map Doc.roles (World.users (snd (handle_all qs World.empty))) = [Some ["admin"]] /\
  no_role_admin (World.users (snd (handle_all qs World.empty))) = true.
Proof.
  cbv zeta. split; [reflexivity |]. split; [reflexivity |].
  apply (admin_grant_unreachable
           [CallRegister sample_env
              (Req.mk (Some "1ErinAddr") (Some "02e5") (Some "erin-principal") (Some "erin")
                 None None (Some "admin") (Some sample_now) (Some "3044ee"))
              sample_now;
            CallGrantUserRole
              (Req.mk (Some "1ErinAddr") (Some "02e5") (Some "erin-principal") (Some "erin")
                 None None (Some "admin") (Some sample_now) (Some "3044ee"))
              sample_now;
            CallGrantByAdmin
              (GrantReq.mk (Some "erin-principal") (Some "erin-principal") (Some "admin")
                           None None)
              sample_now]
           World.empty eq_refl eq_refl).
Defined.

(** ** The content function *)

Lemma content_passes_split payload now :
  content_request_passes payload now = true ->
  JS.truthy (ContentReq.appPublicKey payload) = true /\
  JS.truthy (ContentReq.signature payload) = true /\
  JS.truthy_num (ContentReq.timestamp payload) = true /\
  JS.gt (JS.Math_abs (JS.minus now (ContentReq.timestamp payload))) 300000 = false.
Proof.
  unfold content_request_passes. intros H.
  apply andb_prop in H as [H Hf]. apply andb_prop in H as [H Hts].
  apply andb_prop in H as [Hk Hs]. apply negb_true_iff in Hf. auto.
Qed.

Lemma same_value_eq v x : same_value v (Some x) = true -> v = Some x.
Proof.
  destruct v as [y |]; cbn; [| discriminate].
  intros H. apply String.eqb_eq in H. now subst.
Qed.

Lemma contentFunction_save env id_text randomString payload now :
  content_request_passes payload now = true ->
  action_is "save-content" payload = true ->
  contentFunction env id_text randomString payload now = handleSaveContent env payload now.
Proof.
  intros Hp Ha. destruct (content_passes_split _ _ Hp) as (Hk & Hs & Hts & Hf).
  unfold action_is in Ha. unfold contentFunction.
  rewrite Hk, Hs, Hts, Hf, Ha. reflexivity.
Qed.

Lemma contentFunction_list env id_text randomString payload now :
  content_request_passes payload now = true ->
  action_is "list-content" payload = true ->
  contentFunction env id_text randomString payload now = handleListContent env payload.
Proof.
  intros Hp Ha. destruct (content_passes_split _ _ Hp) as (Hk & Hs & Hts & Hf).
  unfold action_is in Ha. apply same_value_eq in Ha. unfold contentFunction.
  rewrite Hk, Hs, Hts, Hf, Ha. reflexivity.
Qed.

(** X6.  The content function checks the envelope before it looks at the
    action: with a falsy public key, signature or timestamp every action is
    answered [MISSING_FIELDS] (400) without a directory call, and with the
    three present it is answered [EXPIRED_REQUEST] (400) exactly when the
    timestamp is more than 300000 ms from the server clock. *)
Theorem content_function_validates_first env id_text randomString payload now w :
  let o := serve (contentFunction env id_text randomString payload now) w in
  (JS.truthy (ContentReq.appPublicKey payload) && JS.truthy (ContentReq.signature payload)
     && JS.truthy_num (ContentReq.timestamp payload) = false ->
   Reply.statusCode (reply o) = 400 /\ Reply.code (reply o) = Some "MISSING_FIELDS" /\
   accesses o = [] /\ world o = w) /\
  (forall t,
     JS.truthy (ContentReq.appPublicKey payload) && JS.truthy (ContentReq.signature payload)
       && JS.truthy_num (ContentReq.timestamp payload) = true ->
     ContentReq.timestamp payload = Some t ->
     (Reply.statusCode (reply o) = 400 /\ Reply.code (reply o) = Some "EXPIRED_REQUEST"
      <-> Z.abs (now - t) > 300000)).
Proof.
  cbv zeta. split.
  - intros H. unfold contentFunction.
    destruct (JS.truthy (ContentReq.appPublicKey payload)),
      (JS.truthy (ContentReq.signature payload)),
      (JS.truthy_num (ContentReq.timestamp payload));
      try discriminate H; cbn; auto.
  - intros t H Ht.
    apply andb_prop in H as [H Hts]. apply andb_prop in H as [Hk Hs].
    rewrite <- gt_abs_minus.
    unfold contentFunction, handleSaveContent, handleListContent.
    rewrite Hk, Hs, Hts, Ht. cbn [negb orb].
    destruct (JS.gt (JS.Math_abs (JS.minus now (Some t))) 300000) eqn:E.
    + cbn. intuition.
    + split; [| discriminate]. wexplore; cbn; intros [? ?]; discriminate.
Qed.

Lemma content_function_validates_first_witness :
  let late := ContentReq.mk (Some "delete-content") (Some "02d4")
                (Some (sample_now - 300001)) (Some "3044dd")
                None None None None None None in
  let o := serve (contentFunction bunny decimal_id "00" late sample_now) staffed in
  Reply.statusCode (reply o) = 400 /\ Reply.code (reply o) = Some "EXPIRED_REQUEST".
Proof.
  cbv zeta.
  apply (proj2 (content_function_validates_first bunny decimal_id "00"
                  (ContentReq.mk (Some "delete-content") (Some "02d4")
                     (Some (sample_now - 300001)) (Some "3044dd")
                     None None None None None None)
                  sample_now staffed)
           (sample_now - 300001) eq_refl eq_refl).
  vm_compute. reflexivity.
Defined.

(** X7.  No request to the content function changes a user record or a
    role assignment, and none removes or rewrites a content record: the
    content collection is either as before or longer by one record at its
    end, and the latter only for a save-content request answered 200.  The
    delete-content action its header lists deletes nothing. *)
Theorem content_function_only_appends env id_text randomString payload now w :
  let o := serve (contentFunction env id_text randomString payload now) w in
  World.users (world o) = World.users w /\
  World.roles (world o) = World.roles w /\
  (world o = w \/
   exists c,
     World.contents (world o) = (World.contents w ++ [c])%list /\
     action_is "save-content" payload = true /\
     Reply.statusCode (reply o) = 200).
Proof.
  exact (contentFunction_footprint env id_text randomString payload now w).
Qed.

(** X8.  An upload URL is only handed out to a registered user whose
    status is exactly ['active'] and only when the storage zone and its
    password are configured: a reply carrying one names that user's id, the
    configured password as access key and a URL under the configured zone,
    and leaves the directory as it was. *)
Theorem upload_url_only_for_active_user env id_text randomString payload now w
        url key ct cid uid streaming :
  let o := serve (contentFunction env id_text randomString payload now) w in
  Reply.body (reply o) = Upload url key ct cid uid streaming ->
  (exists user rest,
     findUsers By_appPublicKey (ContentReq.appPublicKey payload) w = user :: rest /\
     Doc.status user = Some "active" /\
     uid = Doc.id user) /\
  JS.truthy (BUNNY_STORAGE_ZONE env) = true /\
  JS.truthy (BUNNY_STORAGE_PASSWORD env) = true /\
  key = BUNNY_STORAGE_PASSWORD env /\
  url = "https://storage.bunnycdn.com/" ++ interpolate (BUNNY_STORAGE_ZONE env) ++ "/" ++ cid /\
  content_request_passes payload now = true /\
  world o = w.
Proof.
  cbv zeta. unfold contentFunction, handleSaveContent, handleListContent, content_request_passes.
  wexplore; cbn [reply world fst snd Reply.body Reply.failure Reply.ok];
    intros H; try discriminate H.
  all: injection H as <- <- <- <- <- <-.
  all: repeat match goal with
         | H : _ || _ = false |- _ => apply orb_false_elim in H; destruct H
         | H : negb _ = false |- _ => apply negb_false_iff in H
         end.
  all: match goal with
       | H : JS.strict_neq (Doc.status _) (Some "active") = false |- _ =>
           apply strict_neq_false in H
       end.
  all: repeat split; eauto.
  all: repeat match goal with
         | H : JS.truthy _ = true |- _ => rewrite H
         | H : JS.truthy_num _ = true |- _ => rewrite H
         end; reflexivity.
Qed.

Lemma upload_url_only_for_active_user_witness :
  exists url cid,
    Reply.body (reply (serve (contentFunction bunny decimal_id "00ff" dave_uploads sample_now)
                         staffed))
    = Upload url (Some "secret") (Some "image/png") cid 8 None /\
    cid = "8/images/1700000000000_00ff_my_cat_1.png" /\
    url = "https://storage.bunnycdn.com/zone1/" ++ cid.
Proof.
  eexists. eexists. split; [reflexivity |]. split; [reflexivity |].
  now destruct (upload_url_only_for_active_user bunny decimal_id "00ff" dave_uploads sample_now
                  staffed _ _ _ _ _ _ eq_refl) as (_ & _ & _ & _ & Hurl & _).
Defined.

(** ** File names *)

Lemma safe_char_not_slash c : safe_char c = true -> c <> "/"%char.
Proof.
  intros H ->. discriminate H.
Qed.

(** X9.  The sanitized file name has the length of the original and
    consists only of characters of the accepted class and underscores; in
    particular it contains no path separator, so the name a caller sends
    cannot add a directory level to the content id. *)
Theorem sanitized_name_is_safe fileName :
  String.length (sanitize fileName) = String.length fileName /\
  Forall (fun c => safe_char c = true \/ c = "_"%char) (chars (sanitize fileName)) /\
  ~ In "/"%char (chars (sanitize fileName)).
Proof.
  induction fileName as [| c rest (Hlen & Hall & Hslash)]; cbn.
  - repeat split; [constructor | intros []].
  - split; [now rewrite Hlen |].
    destruct (safe_char c) eqn:E.
    + split; [constructor; auto |].
      intros [Hc | Hin]; [now apply (safe_char_not_slash c E) | contradiction].
    + split; [constructor; auto |].
      intros [Hc | Hin]; [discriminate Hc | contradiction].
Qed.

(** X10.  Sanitizing is idempotent, and a name made of accepted characters
    only, such as [photo-1.png], is kept as it is. *)
Theorem sanitize_idempotent fileName :
  sanitize (sanitize fileName) = sanitize fileName /\
  (forallb safe_char (chars fileName) = true -> sanitize fileName = fileName).
Proof.
  induction fileName as [| c rest (Hidem & Hfix)]; cbn.
  - split; reflexivity.
  - split.
    + destruct (safe_char c) eqn:E.
      * now rewrite E, Hidem.
      * change (safe_char "_"%char) with false. now rewrite Hidem.
    + intros H. apply andb_prop in H as [Hc Hrest]. now rewrite Hc, (Hfix Hrest).
Qed.

Lemma sanitize_idempotent_witness :
  forallb safe_char (chars "photo-1.png") = true /\ sanitize "photo-1.png" = "photo-1.png".
Proof.
  split; [reflexivity |].
  apply (proj2 (sanitize_idempotent "photo-1.png")). reflexivity.
Defined.

(** ** Saving and listing content *)

Lemma or_else_some v d : exists x, JS.or_else v (Some d) = Some x.
Proof.
  unfold JS.or_else. destruct (JS.truthy v) eqn:E; [| eauto].
  destruct (truthy_some v E) as (x & -> & _). eauto.
Qed.

Lemma handleSaveContent_saved env payload now w user rest :
  JS.truthy (ContentReq.contentId payload) = true ->
  findUsers By_appPublicKey (ContentReq.appPublicKey payload) w = user :: rest ->
  let o := serve (handleSaveContent env payload now) w in
  let c := Content.mk (World.next_id w) (Doc.id user) (ContentReq.contentId payload)
             (JS.or_else (ContentReq.namespace payload) (Some "uploads")) (Some "active")
             (Some (mkMeta (JS.or_else (ContentReq.fileName payload) (Some "unnamed"))
                      (JS.or_else (ContentReq.fileType payload) (Some "file"))
                      (JS.or_else (ContentReq.contentType payload)
                         (Some "application/octet-stream"))
                      (size_or_zero (ContentReq.fileSize payload)) now)) in
  Reply.statusCode (reply o) = 200 /\
  (exists meta, Reply.body (reply o)
                = Saved c (cdnUrl_of env (ContentReq.contentId payload)) meta) /\
  world o = World.mk (World.users w) (World.roles w) (World.contents w ++ [c])%list
                     (S (World.next_id w)).
Proof.
  intros Hc Hfind. unfold handleSaveContent. rewrite Hc. cbn [negb].
  cbn [serve wawait logged]. rewrite Hfind. cbn [serve wawait logged].
  unfold createContent. cbn [serve wawait logged reply world fst snd].
  repeat split. eexists. reflexivity.
Qed.

(** X11.  A save-content request that passes the envelope checks, carries
    a content id and comes from a registered key is answered 200 and adds
    one content record at the end of the collection: owned by the first
    record of that key, with the content id as sent, the requested
    namespace (or ['uploads']) and status ['active'].  The user's status is
    not consulted. *)
Theorem save_content_adds_record env id_text randomString payload now w user rest :
  content_request_passes payload now = true ->
  action_is "save-content" payload = true ->
  JS.truthy (ContentReq.contentId payload) = true ->
  findUsers By_appPublicKey (ContentReq.appPublicKey payload) w = user :: rest ->
  let o := serve (contentFunction env id_text randomString payload now) w in
  Reply.statusCode (reply o) = 200 /\
  exists c,
    World.contents (world o) = (World.contents w ++ [c])%list /\
    Content.userId c = Doc.id user /\
    Content.contentId c = ContentReq.contentId payload /\
    Content.namespace c = JS.or_else (ContentReq.namespace payload) (Some "uploads") /\
    Content.status c = Some "active".
Proof.
  intros Hp Ha Hc Hfind. rewrite (contentFunction_save _ _ _ _ _ Hp Ha).
  destruct (handleSaveContent_saved env payload now w user rest Hc Hfind) as (H200 & _ & Hw).
  cbv zeta in *. split; [exact H200 |]. rewrite Hw. eexists. repeat split.
Qed.

Lemma save_content_adds_record_witness :
  let inactive := World.mk [Doc.set_status (Some "inactive") dave_user] [] [] 9 in
  let o := serve (contentFunction bunny decimal_id "00" dave_saves sample_now) inactive in
  Reply.statusCode (reply o) = 200 /\
  map Content.contentId (World.contents (world o)) = [Some "8/images/1_ab_cat.png"].
Proof.
  cbv zeta.
  destruct (save_content_adds_record bunny decimal_id "00" dave_saves sample_now
              (World.mk [Doc.set_status (Some "inactive") dave_user] [] [] 9)
              (Doc.set_status (Some "inactive") dave_user) []
              eq_refl eq_refl eq_refl eq_refl) as (H200 & _).
  split; [exact H200 | reflexivity].
Defined.

Lemma findContents_In u n w c :
  In c (findContents u n w) ->
  In c (World.contents w) /\ Content.userId c = u /\ same_value n (Content.namespace c) = true.
Proof.
  unfold findContents. intros H. apply page_In in H.
  rewrite <- in_rev, filter_In in H. destruct H as (Hin & H).
  apply andb_prop in H as [Hu Hn]. apply Nat.eqb_eq in Hu. auto.
Qed.

Lemma handleListContent_listed env payload w user rest :
  findUsers By_appPublicKey (ContentReq.appPublicKey payload) w = user :: rest ->
  serve (handleListContent env payload) w
  = (Reply.ok (Listing (JS.or_else (ContentReq.namespace payload) (Some "uploads"))
                 (map (item_of env)
                    (findContents (Doc.id user)
                       (JS.or_else (ContentReq.namespace payload) (Some "uploads")) w))
                 (List.length
                    (map (item_of env)
                       (findContents (Doc.id user)
                          (JS.or_else (ContentReq.namespace payload) (Some "uploads")) w)))),
     w, [ReadUsers; ReadContents]).
Proof.
  intros Hfind. unfold handleListContent. cbn [serve wawait logged]. rewrite Hfind.
  reflexivity.
Qed.

(** X12.  A list-content request that passes the envelope checks and comes
    from a registered key is answered 200 with [total] equal to the number
    of items, changes nothing, and every item it returns is a content
    record owned by the first record of that key in the requested namespace
    (or ['uploads']): nobody else's content is listed. *)
Theorem list_content_is_own_content env id_text randomString payload now w user rest :
  content_request_passes payload now = true ->
  action_is "list-content" payload = true ->
  findUsers By_appPublicKey (ContentReq.appPublicKey payload) w = user :: rest ->
  let o := serve (contentFunction env id_text randomString payload now) w in
  world o = w /\
  exists ns items,
    Reply.body (reply o) = Listing ns items (List.length items) /\
    Reply.statusCode (reply o) = 200 /\
    ns = JS.or_else (ContentReq.namespace payload) (Some "uploads") /\
    forall item, In item items ->
      exists c, In c (World.contents w) /\
                i_id item = Content.id c /\
                i_contentId item = Content.contentId c /\
                Content.userId c = Doc.id user /\
                same_value ns (Content.namespace c) = true.
Proof.
  intros Hp Ha Hfind. rewrite (contentFunction_list _ _ _ _ _ Hp Ha).
  rewrite (handleListContent_listed env payload w user rest Hfind). cbv zeta.
  split; [reflexivity |]. eexists. eexists. repeat split.
  intros item Hin. apply in_map_iff in Hin as (c & <- & Hc).
  apply findContents_In in Hc as (Hin & Hu & Hn). exists c. auto.
Qed.

Lemma list_content_is_own_content_witness :
  let stocked :=
    World.mk [carol_admin; dave_user] []
             [Content.mk 9 7 (Some "7/files/a") (Some "uploads") (Some "active") None;
              Content.mk 10 8 (Some "8/files/b") (Some "uploads") (Some "active") None;
              Content.mk 11 8 (Some "8/files/c") (Some "blog") (Some "active") None]
             12 in
  let o := serve (contentFunction bunny decimal_id "00" dave_lists sample_now) stocked in
  world o = stocked /\
  exists items,
    Reply.body (reply o) = Listing (Some "uploads") items 1 /\
    map i_contentId items = [Some "8/files/b"].
Proof.
  cbv zeta.
  destruct (list_content_is_own_content bunny decimal_id "00" dave_lists sample_now
              (World.mk [carol_admin; dave_user] []
                 [Content.mk 9 7 (Some "7/files/a") (Some "uploads") (Some "active") None;
                  Content.mk 10 8 (Some "8/files/b") (Some "uploads") (Some "active") None;
                  Content.mk 11 8 (Some "8/files/c") (Some "blog") (Some "active") None]
                 12)
              dave_user [] eq_refl eq_refl eq_refl) as (Hw & _).
  split; [exact Hw |]. eexists. split; reflexivity.
Defined.

Lemma findContents_after_save u n w c next :
  Content.userId c = u ->
  same_value n (Content.namespace c) = true ->
  findContents u n (World.mk (World.users w) (World.roles w) (World.contents w ++ [c])%list next)
  = c :: firstn (pred page_size) (findContents u n w).
Proof.
  intros Hu Hn. unfold findContents. cbn [World.contents].
  rewrite filter_app, rev_app_distr. cbn [filter].
  rewrite Hu, Nat.eqb_refl, Hn. cbn [andb rev app]. rewrite page_cons. f_equal.
  unfold page. rewrite firstn_firstn. reflexivity.
Qed.

(** X13.  Save, then list: after a save-content request is accepted, a
    list-content request of the same key for the same namespace returns the
    saved record first, under the content id and CDN URL of the save.  The
    listing is one page: behind the saved record come the items listed
    before, all of them when they were fewer than a page, and all but the
    oldest of them when they filled it. *)
Theorem saved_content_is_listed_first env id_text randomString saving listing now1 now2
        w user rest :
  content_request_passes saving now1 = true ->
  action_is "save-content" saving = true ->
  JS.truthy (ContentReq.contentId saving) = true ->
  content_request_passes listing now2 = true ->
  action_is "list-content" listing = true ->
  ContentReq.appPublicKey listing = ContentReq.appPublicKey saving ->
  JS.or_else (ContentReq.namespace listing) (Some "uploads")
    = JS.or_else (ContentReq.namespace saving) (Some "uploads") ->
  findUsers By_appPublicKey (ContentReq.appPublicKey saving) w = user :: rest ->
  let before := serve (contentFunction env id_text randomString listing now2) w in
  let w1 := world (serve (contentFunction env id_text randomString saving now1) w) in
  let after := serve (contentFunction env id_text randomString listing now2) w1 in
  exists ns item items,
    Reply.body (reply before) = Listing ns items (List.length items) /\
    (List.length items <= page_size)%nat /\
    Reply.body (reply after)
    = Listing ns (item :: firstn (pred page_size) items)
              (Nat.min page_size (S (List.length items))) /\
    ((List.length items < page_size)%nat ->
     Reply.body (reply after) = Listing ns (item :: items) (S (List.length items))) /\
    ((List.length items = page_size)%nat ->
     Reply.body (reply after) = Listing ns (item :: removelast items) page_size) /\
    i_contentId item = ContentReq.contentId saving /\
    i_cdnUrl item = cdnUrl_of env (ContentReq.contentId saving).
Proof.
  intros Hps Has Hc Hpl Hal Hkey Hns Hfind. cbv zeta.
  rewrite (contentFunction_save _ _ _ _ _ Hps Has).
  rewrite !(contentFunction_list _ _ _ _ _ Hpl Hal).
  destruct (handleSaveContent_saved env saving now1 w user rest Hc Hfind) as (_ & _ & Hw).
  cbv zeta in Hw. rewrite Hw.
  rewrite (handleListContent_listed env listing w user rest) by now rewrite Hkey.
  rewrite (handleListContent_listed env listing _ user rest) by now rewrite Hkey.
  rewrite Hns.
  destruct (or_else_some (ContentReq.namespace saving) "uploads") as (ns & Ens).
  rewrite findContents_after_save; [| reflexivity |].
  2:{ cbn [Content.namespace]. rewrite Ens. cbn. apply String.eqb_refl. }
  cbn [reply fst Reply.body Reply.ok].
  set (found := findContents (Doc.id user)
                  (JS.or_else (ContentReq.namespace saving) (Some "uploads")) w).
  assert (Hlen : (List.length (map (item_of env) found) <= page_size)%nat).
  { rewrite length_map. unfold found, findContents. rewrite page_length. apply Nat.le_min_l. }
  match goal with
  | |- context [map (item_of env) (?c :: firstn _ found)] => set (saved := c)
  end.
  assert (Hafter :
            Listing (JS.or_else (ContentReq.namespace saving) (Some "uploads"))
              (map (item_of env) (saved :: firstn (pred page_size) found))
              (List.length (map (item_of env) (saved :: firstn (pred page_size) found)))
            = Listing (JS.or_else (ContentReq.namespace saving) (Some "uploads"))
                (item_of env saved :: firstn (pred page_size) (map (item_of env) found))
                (Nat.min page_size (S (List.length (map (item_of env) found))))).
  { cbn [map List.length]. rewrite firstn_map, !length_map, length_firstn.
    reflexivity. }
  eexists. eexists. exists (map (item_of env) found).
  split; [reflexivity |]. split; [exact Hlen |].
  split; [exact Hafter |].
  split; [| split; [| split; reflexivity]].
  - intros Hlt. rewrite Hafter. f_equal.
    + f_equal. apply firstn_all2. unfold page_size in *. cbn [pred]. lia.
    + lia.
  - intros Hfull. rewrite Hafter. f_equal.
    + f_equal. rewrite removelast_firstn_len. f_equal. rewrite Hfull. reflexivity.
    + lia.
Qed.

Lemma saved_content_is_listed_first_witness :
  let w1 := world (serve (contentFunction bunny decimal_id "00" dave_saves sample_now) staffed) in
  let after := serve (contentFunction bunny decimal_id "00" dave_lists (sample_now + 9)) w1 in
  exists item,
    Reply.body (reply after) = Listing (Some "uploads") [item] 1 /\
    i_contentId item = Some "8/images/1_ab_cat.png" /\
    i_cdnUrl item = "https://cdn.example/8/images/1_ab_cat.png".
Proof.
  cbv zeta.
  destruct (saved_content_is_listed_first bunny decimal_id "00" dave_saves dave_lists
              sample_now (sample_now + 9) staffed dave_user []
              eq_refl eq_refl eq_refl eq_refl eq_refl eq_refl eq_refl eq_refl)
    as (ns & item & items & Hbefore & _ & Hafter & _ & _ & Hid & Hurl).
  vm_compute in Hbefore. injection Hbefore as <- <-.
  exists item. split; [exact Hafter |]. split; [exact Hid | exact Hurl].
Defined.

(** ** Uniqueness of signing keys and addresses *)

Lemma NoDup_snoc {A : Type} (l : list A) (x : A) :
  NoDup l -> ~ In x l -> NoDup (l ++ [x])%list.
Proof.
  induction l as [| a l IH]; cbn; intros Hl Hx.
  - constructor; [intros [] | constructor].
  - inversion Hl as [| ? ? Ha Hl']; subst. constructor.
    + rewrite in_app_iff. intros [H | [H | []]]; [contradiction | subst; auto].
    + apply IH; auto.
Qed.

Lemma same_value_absent k (proj : Doc.t -> option string) l :
  existsb (fun u => same_value (Some k) (proj u)) l = false ->
  ~ In (Some k) (map proj l).
Proof.
  induction l as [| d l IH]; cbn; [auto |].
  intros H. apply orb_false_elim in H as [Hd Hl]. intros [Heq | Hin].
  - rewrite Heq in Hd. cbn in Hd. now rewrite String.eqb_refl in Hd.
  - now apply IH.
Qed.

Lemma lookup_empty_absent a k s :
  (0 <? List.length (listDocuments [Query_equal a (Some k)] s))%nat = false ->
  ~ In (Some k) (map (attr a) (users s)).
Proof.
  intros H. apply same_value_absent. unfold listDocuments in H.
  assert (E : filter (fun d => forallb (satisfies d) [Query_equal a (Some k)]) (users s) = []).
  { apply page_nil. destruct (page _); [reflexivity | discriminate H]. }
  clear H. induction (users s) as [| d l IH]; [reflexivity |].
  cbn [filter forallb satisfies existsb] in E |- *.
  destruct (same_value (Some k) (attr a d)); cbn [andb orb] in E |- *.
  - discriminate E.
  - now apply IH.
Qed.

Lemma lookup_came_back_empty (b : bool) qs s :
  (if b then Threw ServiceFailure else Ok (listDocuments qs s)) = Ok [] ->
  listDocuments qs s = [].
Proof.
  destruct b; [discriminate | now intros [= ->]].
Qed.

Lemma trace_record ev o : trace (record ev o) = ev :: trace o.
Proof.
  now destruct o as [[r s] tr].
Qed.

(** X14.  Handled one at a time, auth-or-register gives no signing key a
    second record, and this rests on the handler's own lookup, not on an
    index of the store.  Whatever directory calls fail, every create it
    issues comes after its lookup of the key came back empty and carries the
    payload's key, which no stored record holds; so the create is never
    answered [DuplicateKey] (that takes a concurrent request), and signing
    keys that were pairwise distinct stay so. *)
Theorem authOrRegister_creates_unused_key payload now faults s :
  let o := run_faulty faults (authOrRegister payload now) s in
  (forall data out,
     In (EvCreateUser data out) (trace o) ->
     listDocuments (by_key payload) s = [] /\
     Doc.appPublicKey data = Req.appPublicKey payload /\
     ~ In (Doc.appPublicKey data) (map Doc.appPublicKey (users s)) /\
     out <> Threw DuplicateKey) /\
  (NoDup (map Doc.appPublicKey (users s)) ->
   NoDup (map Doc.appPublicKey (users (final o)))).
Proof.
  cbv zeta. unfold authOrRegister, by_key.
  destruct (Req.appPublicKey payload) as [k |] eqn:Ek;
    [| cbn; split; [intros data out [] | auto]].
  destruct (negb (JS.truthy (Some k)) || _ || _); [cbn; split; [intros data out [] | auto] |].
  destruct (JS.gt _ 300000); [cbn; split; [intros data out [] | auto] |].
  cbn [run_faulty await].
  destruct (if fails faults then _ else _) as [[| user rest] | e] eqn:Hlook.
  3:{ cbn. split; [intros data out [H | []]; discriminate H | auto]. }
  - apply lookup_came_back_empty in Hlook.
    assert (Habsent : ~ In (Some k) (map Doc.appPublicKey (users s))).
    { apply (lookup_empty_absent A_appPublicKey). now rewrite Hlook. }
    assert (Hcreate : forall faults' data,
               Doc.appPublicKey data = Some k ->
               let o := run_faulty faults'
                          (await (CreateUser data)
                             (fun err => Return (Res.failure (Message err) "AUTH_ERROR" 500))
                             (fun user =>
                                Return (Res.mk 200 true None None (Some true) (Some user) false)))
                          s in
               (forall data' out,
                  In (EvCreateUser data' out) (trace o) ->
                  Doc.appPublicKey data' = Some k /\ out <> Threw DuplicateKey) /\
               (NoDup (map Doc.appPublicKey (users s)) ->
                NoDup (map Doc.appPublicKey (users (final o))))).
    { intros faults' data Hdata. cbn [run_faulty await].
      destruct (fails faults').
      - cbn. split; [| auto].
        intros data' out [H | []]. injection H as <- <-. split; [exact Hdata | discriminate].
      - unfold createDocument, violates_unique. rewrite Hdata.
        assert (E : existsb (fun u => same_value (Some k) (Doc.appPublicKey u)) (users s) = false).
        { apply not_true_is_false. intros Hex. apply existsb_exists in Hex as (u & Hu & Hsame).
          apply Habsent. apply in_map_iff. exists u. split; [| exact Hu].
          destruct (Doc.appPublicKey u) as [y |]; cbn in Hsame; [| discriminate Hsame].
          apply String.eqb_eq in Hsame. now subst. }
        rewrite E. cbn. split.
        + intros data' out [H | []]. injection H as <- <-. split; [exact Hdata | discriminate].
        + intros Hnd. rewrite map_app. cbn [map]. apply NoDup_snoc; [exact Hnd |].
          unfold with_defaults. destruct (Doc.status _); cbn; now rewrite Hdata. }
    assert (Hlift : forall ev o,
               (forall data out, ev <> EvCreateUser data out) ->
               (forall data' out,
                  In (EvCreateUser data' out) (trace o) ->
                  Doc.appPublicKey data' = Some k /\ out <> Threw DuplicateKey) /\
               (NoDup (map Doc.appPublicKey (users s)) ->
                NoDup (map Doc.appPublicKey (users (final o)))) ->
               (forall data' out,
                  In (EvCreateUser data' out) (trace (record ev o)) ->
                  listDocuments [Query_equal A_appPublicKey (Some k)] s = [] /\
                  Doc.appPublicKey data' = Some k /\
                  ~ In (Doc.appPublicKey data') (map Doc.appPublicKey (users s)) /\
                  out <> Threw DuplicateKey) /\
               (NoDup (map Doc.appPublicKey (users s)) ->
                NoDup (map Doc.appPublicKey (users (final (record ev o)))))).
    { intros ev o Hev (Hc & Hn). rewrite trace_record, final_record. split; [| exact Hn].
      intros data' out [H | H]; [now elim (Hev data' out) |].
      destruct (Hc data' out H) as (Hk & Hout).
      split; [exact Hlook |]. split; [exact Hk |]. split; [now rewrite Hk | exact Hout]. }
    match goal with
    | |- context [CreateUser ?d] => set (data := d) in *
    end.
    apply Hlift; [discriminate |].
    destruct (JS.truthy (Req.username payload)).
    + cbn [run_faulty await].
      destruct (if fails (tl faults) then _ else _) as [existing | e].
      * destruct (0 <? List.length existing)%nat.
        -- cbn. split; [intros data' out [H | []]; discriminate H | auto].
        -- destruct (Hlift (EvListUsers [Query_equal A_username (Req.username payload)]
                              (Ok existing))
                       (run_faulty (tl (tl faults))
                          (await (CreateUser data)
                             (fun err => Return (Res.failure (Message err) "AUTH_ERROR" 500))
                             (fun user =>
                                Return (Res.mk 200 true None None (Some true) (Some user)
                                          false)))
                          s))
             as (Hc & Hn); [discriminate | apply Hcreate; reflexivity |].
           split; [| exact Hn].
           intros data' out Hin. destruct (Hc data' out Hin) as (_ & Hk & _ & Hout). auto.
      * cbn. split; [intros data' out [H | []]; discriminate H | auto].
    + apply Hcreate. reflexivity.
  - destruct (Patch.nonempty _).
    + cbn [run_faulty await].
      destruct (fails (tl faults)).
      * cbn. split; [intros data out [H | [H | []]]; discriminate H | auto].
      * unfold updateDocument. destruct (update_first _ _ _) as [[d' l'] |] eqn:U.
        -- destruct (update_first_spec _ _ _ _ _ U) as (_ & _ & Hk & _). cbn.
           split; [intros data out [H | [H | []]]; discriminate H |].
           intros Hnd. now rewrite Hk.
        -- cbn. split; [intros data out [H | [H | []]]; discriminate H | auto].
    + cbn. split; [intros data out [H | []]; discriminate H | auto].
Qed.

Lemma authOrRegister_creates_unused_key_witness :
  let o := run_faulty [] (authOrRegister bob sample_now) alice_registered in
  NoDup (map Doc.appPublicKey (users alice_registered)) /\
  NoDup (map Doc.appPublicKey (users (final o))).
Proof.
  cbv zeta.
  assert (H : NoDup (map Doc.appPublicKey (users alice_registered))).
  { vm_compute. repeat constructor. intros []. }
  split; [exact H |].
  exact (proj2 (authOrRegister_creates_unused_key bob sample_now []
                  alice_registered) H).
Defined.

(** X15.  Handled one at a time, register never gives a second record to
    an address or to a signing key: if the stored addresses are pairwise
    distinct and so are the stored keys, both still are after the request. *)
Theorem register_keeps_addresses_unique env payload now s :
  NoDup (map Doc.bsvAddress (users s)) ->
  NoDup (map Doc.appPublicKey (users s)) ->
  NoDup (map Doc.bsvAddress (users (final (run (register env payload now) s)))) /\
  NoDup (map Doc.appPublicKey (users (final (run (register env payload now) s)))).
Proof.
  intros Hb Hk. unfold run, register.
  destruct (Req.bsvAddress payload) as [b |] eqn:Eb; [| cbn; auto].
  destruct (Req.appPublicKey payload) as [k |] eqn:Ek;
    [| cbn [JS.truthy negb orb]; rewrite ?orb_true_r; cbn; auto].
  destruct (negb (JS.truthy (Some b)) || _ || _ || _); [cbn; auto |].
  destruct (JS.gt _ 300000); [cbn; auto |].
  cbn [run_interleaved await interfere tl]. rewrite !final_record.
  destruct (0 <? List.length (listDocuments [Query_equal A_bsvAddress (Some b)] s))%nat
    eqn:Haddr; [cbn; auto |].
  cbn [run_interleaved await interfere tl]. rewrite !final_record.
  destruct (0 <? List.length (listDocuments [Query_equal A_appPublicKey (Some k)] s))%nat
    eqn:Hkey; [cbn; auto |].
  cbn [run_interleaved await interfere tl].
  unfold createDocument. destruct (violates_unique _ s); cbn; [auto |].
  rewrite !map_app. cbn [map]. unfold with_defaults. cbn.
  split; apply NoDup_snoc; auto.
  - now apply (lookup_empty_absent A_bsvAddress).
  - now apply (lookup_empty_absent A_appPublicKey).
Qed.

Lemma register_keeps_addresses_unique_witness :
  let s1 := final (run (register sample_env alice sample_now) empty_store) in
  let again := run (register sample_env
                      (Req.mk (Some "1AliceAddr") (Some "02ff") None None None None None
                              (Some sample_now) (Some "3044"))
                      sample_now) s1 in
  Res.code (response again) = Some "ADDRESS_EXISTS" /\
  NoDup (map Doc.bsvAddress (users (final again))).
Proof.
  cbv zeta. split; [reflexivity |].
  apply (register_keeps_addresses_unique sample_env
           (Req.mk (Some "1AliceAddr") (Some "02ff") None None None None None
                   (Some sample_now) (Some "3044"))
           sample_now (final (run (register sample_env alice sample_now) empty_store))).
  - vm_compute. repeat constructor. intros [].
  - vm_compute. repeat constructor. intros [].
Defined.

(** ** authenticate *)

Lemma strict_neq_eq a b : JS.strict_neq a b = false -> a = b.
Proof.
  destruct a as [x |], b as [y |]; cbn; try discriminate; [| reflexivity].
  intros H. apply negb_false_iff, String.eqb_eq in H. now subst.
Qed.

(** X16.  authenticate answers 200 only when the first record stored for
    the presented address carries exactly the presented signing key; when
    that record carries another key the answer is [INVALID_KEY] (401) and
    the directory is not written. *)
Theorem authenticate_checks_stored_key payload now s :
  let o := run (authenticate payload now) s in
  (Res.statusCode (response o) = 200 ->
   exists user rest,
     listDocuments [Query_equal A_bsvAddress (Req.bsvAddress payload)] s = user :: rest /\
     Doc.appPublicKey user = Req.appPublicKey payload) /\
  (forall user rest,
     falsy_required payload = false ->
     JS.truthy (Req.bsvAddress payload) = true ->
     fresh payload now = true ->
     listDocuments [Query_equal A_bsvAddress (Req.bsvAddress payload)] s = user :: rest ->
     Doc.appPublicKey user <> Req.appPublicKey payload ->
     Res.statusCode (response o) = 401 /\ Res.code (response o) = Some "INVALID_KEY" /\
     final o = s).
Proof.
  cbv zeta. split.
  - unfold run, authenticate.
    explore; cbn [interfere tl] in *; cbn; intros H; try discriminate H.
    match goal with
    | L : listDocuments _ _ = ?u :: ?r, N : JS.strict_neq _ _ = false |- _ =>
        exists u, r; split; [exact L | exact (strict_neq_eq _ _ N)]
    end.
  - intros user rest Hreq Hbsv Hfresh Hlook Hne.
    destruct (required_truthy _ Hreq) as (Hkey & Hsig & Hts).
    unfold fresh in Hfresh. apply negb_true_iff in Hfresh.
    unfold run, authenticate. rewrite Hbsv, Hkey, Hsig, Hts, Hfresh. cbn [negb orb].
    cbn [run_interleaved await interfere tl]. rewrite Hlook.
    destruct (JS.strict_neq (Doc.appPublicKey user) (Req.appPublicKey payload)) eqn:E.
    + cbn. auto.
    + exfalso. apply Hne. now apply strict_neq_eq.
Qed.

Lemma authenticate_checks_stored_key_witness :
  let stolen := Req.mk (Some "1AliceAddr") (Some "02ff") None None None None None
                  (Some sample_now) (Some "3044") in
  let o := run (authenticate stolen sample_now) alice_registered_by_address in
  Res.statusCode (response o) = 401 /\ Res.code (response o) = Some "INVALID_KEY" /\
  final o = alice_registered_by_address.
Proof.
  cbv zeta.
  apply (proj2 (authenticate_checks_stored_key
                  (Req.mk (Some "1AliceAddr") (Some "02ff") None None None None None
                     (Some sample_now) (Some "3044"))
                  sample_now alice_registered_by_address)
           (Doc.mk 0 (Some "1AliceAddr") (Some "02a1") (Some "") (Some "") (Some "alice")
              (Some "Alice") (Some "") (Some "") (Some "user") (Some true) (Some sample_now)
              (Some (MetaRegistered sample_now "metanet-scaffold" "02a1")) None
              (Some "active"))
           [] eq_refl eq_refl eq_refl eq_refl).
  discriminate.
Defined.

(** X17.  authenticate never creates a record and never changes anything
    but a last-login stamp: with [lastLogin] put aside, the records of the
    directory are the same, in the same order, after every request. *)
Theorem authenticate_touches_only_lastLogin payload now s :
  map forget_lastLogin (users (final (run (authenticate payload now) s)))
  = map forget_lastLogin (users s).
Proof.
  unfold run, authenticate.
  explore; cbn [interfere tl] in *; cbn [final fst snd record]; try reflexivity.
  all: match goal with
       | H : updateDocument _ _ _ = _ |- _ =>
           unfold updateDocument in H; rewrite update_first_replace in H;
           destruct (replace_first _ _ _ _) as [[d' us] |] eqn:U;
           injection H as <- <-; [| reflexivity]
       end.
  all: cbn [users];
    eapply (replace_first_map Doc.id _ forget_lastLogin); cycle 1;
    [exact U | intros x; reflexivity].
Qed.

(** ** The self-service grant *)

Lemma grantUserRole_footprint payload now s :
  let o := run (grantUserRole payload now) s in
  final o = s \/
  exists role user rest pre d post,
    Req.role payload = Some role /\
    JS.includes validRoles role = true /\
    listDocuments (by_key payload) s = user :: rest /\
    users s = (pre ++ d :: post)%list /\
    Forall (fun x => Doc.id x <> Doc.id user) pre /\
    Doc.id d = Doc.id user /\
    final o
    = mkStore
        (pre ++ Patch.apply
                  (Patch.mk None None None None
                     (Some (if negb (JS.includes (parse_roles user) role)
                            then (parse_roles user ++ [role])%list
                            else parse_roles user))
                     (Some "active")) d :: post)%list
        (roleAssignments s) (next_id s).
Proof.
  unfold run, grantUserRole, by_key.
  explore; cbn [interfere tl] in *; cbn [final fst snd record]; auto.
  all: match goal with
       | H : updateDocument _ _ _ = _ |- _ =>
           unfold updateDocument in H;
           destruct (update_first _ _ _) as [[d' us] |] eqn:U;
           injection H as <- <-; [| now left]
       end.
  all: right;
    destruct (update_first_split _ _ _ _ _ U) as (pre & d & post & Hs & -> & Hid & _ & Hpre);
    match goal with
    | N : negb (JS.includes validRoles _) = false |- _ => apply negb_false_iff in N
    end.
  all: match goal with
       | R : Req.role _ = Some ?role, L : listDocuments _ _ = ?u :: ?r |- _ =>
           exists role, u, r, pre, d, post
       end.
  all: repeat split; auto.
  all: match goal with
       | N : negb (JS.includes (parse_roles _) _) = _ |- _ => rewrite N
       end; reflexivity.
Qed.

Lemma includes_In l x : JS.includes l x = true <-> In x l.
Proof.
  unfold JS.includes. rewrite existsb_exists. split.
  - intros (y & Hin & Heq). apply String.eqb_eq in Heq. now subst.
  - intros Hin. exists x. split; [exact Hin | apply String.eqb_refl].
Qed.

(** X18.  The self-service grant never touches the role assignments, and it
    rewrites at most one user record: either the user records are exactly
    as before, or they are as before except for one record, the first with
    the caller's id, which stays in its place and differs from its old
    self in [roles] and [status] only.  It is then active and holds the
    roles the caller's record held plus the requested one, which is one of
    [admin], [moderator], [user]; a role already held is not added twice. *)
Theorem self_grant_writes_one_record payload now s :
  let o := run (grantUserRole payload now) s in
  roleAssignments (final o) = roleAssignments s /\
  next_id (final o) = next_id s /\
  (users (final o) = users s \/
   exists role user rest pre d post u,
     Req.role payload = Some role /\
     In role validRoles /\
     listDocuments (by_key payload) s = user :: rest /\
     users s = (pre ++ d :: post)%list /\
     Forall (fun x => Doc.id x <> Doc.id user) pre /\
     Doc.id d = Doc.id user /\
     users (final o) = (pre ++ u :: post)%list /\
     u = Patch.apply (Patch.mk None None None None (Some (parse_roles u)) (Some "active")) d /\
     (forall r, In r (parse_roles u) <-> r = role \/ In r (parse_roles user)) /\
     (NoDup (parse_roles user) -> NoDup (parse_roles u))).
Proof.
  cbv zeta.
  destruct (grantUserRole_footprint payload now s)
    as [Hsame | (role & user & rest & pre & d & post
                 & Hrole & Hvalid & Hlook & Hs & Hpre & Hid & Hfinal)];
    cbv zeta in *.
  - rewrite Hsame. auto.
  - rewrite Hfinal. cbn [roleAssignments next_id users].
    split; [reflexivity |]. split; [reflexivity |]. right.
    exists role, user, rest, pre, d, post. eexists.
    split; [exact Hrole |]. split; [now apply includes_In |]. split; [exact Hlook |].
    split; [exact Hs |]. split; [exact Hpre |]. split; [exact Hid |].
    split; [reflexivity |]. split; [reflexivity |].
    unfold parse_roles at 1 3. cbn [Patch.apply Doc.roles Patch.roles Patch.over].
    destruct (JS.includes (parse_roles user) role) eqn:E; cbn [negb].
    + apply includes_In in E. split; [| auto].
      intros r. split; [auto | intros [-> | H]; auto].
    + split.
      * intros r. rewrite in_app_iff. cbn. intuition.
      * intros Hnd. apply NoDup_snoc; [exact Hnd |].
        intros Hr. apply includes_In in Hr. congruence.
Qed.

Lemma self_grant_writes_one_record_witness :
  let o := run (grantUserRole alice sample_now) both_registered in
  NoDup (parse_roles (Doc.mk 0 None (Some "02a1") None None (Some "alice") (Some "Alice") None
                        None None None None (Some MetaEmpty) None (Some "active"))) /\
  exists pre u post,
    users (final o) = (pre ++ u :: post)%list /\
    List.length (pre ++ u :: post) = List.length (users both_registered) /\
    In "admin" (parse_roles u) /\
    NoDup (parse_roles u).
Proof.
  cbv zeta. split; [constructor |].
  destruct (self_grant_writes_one_record alice sample_now both_registered)
    as (_ & _ & [Hsame | (role & user & rest & pre & d & post & u & Hrole & _ & Hlook & Hs
                          & _ & _ & Hfinal & _ & Hroles & Hnodup)]).
  - vm_compute in Hsame. discriminate Hsame.
  - exists pre, u, post. split; [exact Hfinal |].
    split; [rewrite Hs, !length_app; reflexivity |].
    injection Hrole as <-. split; [apply Hroles; now left |].
    apply Hnodup. vm_compute in Hlook. injection Hlook as <- _. constructor.
Defined.

(** X19.  The self-service grant decides on the role name before it looks
    at the clock or the directory: a non-empty role outside [admin],
    [moderator], [user] is answered [INVALID_ROLE] (400) without a directory
    call, whatever the timestamp. *)
Theorem invalid_role_rejected_first payload now others s role :
  falsy_required payload = false ->
  Req.role payload = Some role ->
  role <> "" ->
  JS.includes validRoles role = false ->
  rejected_untouched "INVALID_ROLE" 400 s
    (run_interleaved others (grantUserRole payload now) s).
Proof.
  intros Hreq Hrole Hne Hinvalid. destruct (required_truthy _ Hreq) as (Hkey & Hsig & Hts).
  unfold grantUserRole. rewrite Hkey, Hsig, Hts, Hrole.
  assert (Htr : JS.truthy (Some role) = true).
  { cbn. now apply negb_true_iff, String.eqb_neq. }
  rewrite Htr. cbn [negb orb]. rewrite Hinvalid. cbn [negb].
  now apply returned_untouched.
Qed.

Lemma invalid_role_rejected_first_witness :
  let stale := Req.mk None (Some "02a1") None None None None (Some "owner")
                 (Some 1) (Some "3044") in
  rejected_untouched "INVALID_ROLE" 400 alice_registered
    (run (grantUserRole stale sample_now) alice_registered).
Proof.
  cbv zeta.
  apply (invalid_role_rejected_first
           (Req.mk None (Some "02a1") None None None None (Some "owner") (Some 1) (Some "3044"))
           sample_now [] alice_registered "owner" eq_refl eq_refl).
  - discriminate.
  - reflexivity.
Defined.

(** ** The username check is not atomic *)

Lemma lookup_empty_no_violation payload data s :
  Doc.appPublicKey data = Req.appPublicKey payload ->
  listDocuments (by_key payload) s = [] ->
  violates_unique data s = false.
Proof.
  unfold listDocuments, by_key, violates_unique. intros ->.
  induction (users s) as [| d l IH]; [reflexivity |].
  cbn [filter forallb satisfies attr existsb].
  destruct (same_value (Req.appPublicKey payload) (Doc.appPublicKey d)); cbn [andb orb].
  - discriminate.
  - exact IH.
Qed.

(** X20.  A username can end up on two records.  When another request
    stores a record with the same username after auth-or-register has
    checked the name and before it creates its own record, the create
    still succeeds (the username index is not unique): the request is
    answered 200 as a new user and both records carry the username. *)
Theorem username_check_is_not_atomic payload now s rival :
  falsy_required payload = false ->
  fresh payload now = true ->
  JS.truthy (Req.username payload) = true ->
  listDocuments (by_key payload) s = [] ->
  listDocuments [Query_equal A_username (Req.username payload)] s = [] ->
  Doc.username rival = Req.username payload ->
  same_value (Req.appPublicKey payload) (Doc.appPublicKey rival) = false ->
  let o := run_interleaved [(fun s => s); (fun s => s); lands rival]
             (authOrRegister payload now) s in
  Res.statusCode (response o) = 200 /\
  Res.isNewUser (response o) = Some true /\
  exists doc,
    users (final o) = (users s ++ [rival; doc])%list /\
    Doc.username doc = Req.username payload /\
    Doc.username rival = Doc.username doc.
Proof.
  intros Hreq Hfresh Hname Hlook Hfree Hrival Hother.
  destruct (required_truthy _ Hreq) as (Hkey & Hsig & Hts).
  unfold fresh in Hfresh. apply negb_true_iff in Hfresh. unfold by_key in Hlook.
  unfold authOrRegister. rewrite Hkey, Hsig, Hts, Hfresh. cbn [negb orb].
  cbn [run_interleaved await interfere tl]. rewrite Hlook, Hname.
  cbn [run_interleaved await interfere tl]. rewrite Hfree.
  cbn [List.length Nat.ltb Nat.leb run_interleaved await interfere tl].
  unfold createDocument.
  assert (Hno : violates_unique
                  (Doc.mk 0 None (Req.appPublicKey payload) None None
                     (JS.or_else (Req.username payload) None)
                     (JS.or_else (Req.displayName payload) None)
                     (JS.or_else (Req.avatar payload) None)
                     None None None None (Some MetaEmpty) None None)
                  (lands rival s) = false).
  { unfold violates_unique, lands. cbn [users Doc.appPublicKey].
    rewrite existsb_app. cbn [existsb]. rewrite Hother, orb_false_r.
    apply (lookup_empty_no_violation payload
             (Doc.mk 0 None (Req.appPublicKey payload) None None None None None None None
                None None None None None) s eq_refl Hlook). }
  rewrite Hno. cbn [record response final fst snd Res.statusCode Res.isNewUser].
  split; [reflexivity |]. split; [reflexivity |].
  eexists. split.
  - cbn [users lands]. rewrite <- app_assoc. reflexivity.
  - unfold with_defaults. cbn. unfold JS.or_else. rewrite Hname. auto.
Qed.

Lemma username_check_is_not_atomic_witness :
  let rival := Doc.mk 0 None (Some "02b2") None None (Some "alice") None None None None
                 None None (Some MetaEmpty) None (Some "active") in
  let o := run_interleaved [(fun s => s); (fun s => s); lands rival]
             (authOrRegister alice sample_now) empty_store in
  Res.statusCode (response o) = 200 /\
  map Doc.username (users (final o)) = [Some "alice"; Some "alice"].
Proof.
  cbv zeta.
  destruct (username_check_is_not_atomic alice sample_now empty_store
              (Doc.mk 0 None (Some "02b2") None None (Some "alice") None None None None
                 None None (Some MetaEmpty) None (Some "active"))
              eq_refl eq_refl eq_refl eq_refl eq_refl eq_refl eq_refl) as (H200 & _).
  split; [exact H200 | reflexivity].
Defined.

(** ** register and auth-or-register, what they write *)

(** X21.  register when directory calls can fail.  It answers 201, 400,
    409 or 500.  Answered 201, it has added exactly one user record,
    carrying the address and key of the request and the time of the request
    as [lastLogin], and exactly one role assignment, keyed by the address,
    for that record's role, granted by ['system'].  Answered 400 or 409, it
    has left the store as it was and made no writing call.  Answered 500
    ([REGISTRATION_ERROR]), no role assignment was added, and the store is
    either as it was or holds the new user record without its assignment:
    the user record is not taken back when the second create fails. *)
Theorem register_stores_user_then_assignment env payload now faults s :
  let o := run_faulty faults (register env payload now) s in
  In (Res.statusCode (response o)) [201; 400; 409; 500] /\
  (Res.statusCode (response o) = 201 ->
   exists doc r,
     users (final o) = (users s ++ [doc])%list /\
     roleAssignments (final o) = (roleAssignments s ++ [r])%list /\
     Doc.bsvAddress doc = Req.bsvAddress payload /\
     Doc.appPublicKey doc = Req.appPublicKey payload /\
     Doc.lastLogin doc = Some now /\
     RoleDoc.userPrincipal r = Req.bsvAddress payload /\
     RoleDoc.roleName r = Doc.role doc /\
     RoleDoc.grantedBy r = "system" /\
     RoleDoc.id r = S (Doc.id doc)) /\
  (In (Res.statusCode (response o)) [400; 409] ->
   final o = s /\
   forall ev, In ev (trace o) -> exists qs out, ev = EvListUsers qs out) /\
  (Res.statusCode (response o) = 500 ->
   Res.code (response o) = Some "REGISTRATION_ERROR" /\
   roleAssignments (final o) = roleAssignments s /\
   (final o = s \/
    exists doc data role e,
      users (final o) = (users s ++ [doc])%list /\
      Doc.bsvAddress doc = Req.bsvAddress payload /\
      Doc.appPublicKey doc = Req.appPublicKey payload /\
      In (EvCreateUser data (Ok doc)) (trace o) /\
      In (EvCreateRole role (Threw e)) (trace o))).
Proof.
  cbv zeta. unfold register. rexplore.
  all: cbn [run_faulty record response final trace fst snd
            Res.statusCode Res.code Res.error Res.failure].
  all: (split; [repeat (first [left; reflexivity | right]) |]).
  all: (split; [intros H; try discriminate H
               | split; [intros [H | [H | []]]; try discriminate H
                        | intros H; try discriminate H]]).
  all: try (split; [reflexivity |];
            intros ev Hev; cbn in Hev;
            repeat (destruct Hev as [<- | Hev]; [eauto |]); contradiction).
  all: try (split; [reflexivity |]; split; [reflexivity |]; left; reflexivity).
  all: repeat match goal with
       | H : (if _ then _ else _) = (Ok _, _) |- _ => apply call_carried_out in H
       | H : createDocument _ _ = (Ok _, _) |- _ =>
           apply createDocument_ok in H; destruct H as [-> ->]
       | H : createRoleDocument _ _ = (Ok _, _) |- _ =>
           unfold createRoleDocument in H; injection H as <- <-
       | H : (if _ then _ else _) = (Threw _, _) |- _ =>
           apply failed_call in H;
           [subst | first [apply createDocument_threw | discriminate]]
       end.
  all: try (split; [reflexivity |]; split; [reflexivity |]; left; reflexivity).
  all: try solve [eexists; eexists; unfold with_defaults; cbn; repeat split].
  all: split; [reflexivity |]; split; [reflexivity |]; right.
  all: eexists; eexists; eexists; eexists; unfold with_defaults; cbn; repeat split; auto 10.
Qed.

Lemma register_stores_user_then_assignment_witness :
  let o := run_faulty [false; false; false; true]
             (register sample_env alice sample_now) empty_store in
  Res.statusCode (response o) = 500 /\
  Res.code (response o) = Some "REGISTRATION_ERROR" /\
  map Doc.bsvAddress (users (final o)) = [Some "1AliceAddr"] /\
  roleAssignments (final o) = [].
Proof.
  cbv zeta.
  destruct (proj2 (proj2 (proj2 (register_stores_user_then_assignment sample_env alice
                                   sample_now [false; false; false; true] empty_store)))
              eq_refl) as (Hcode & Hroles & _).
  split; [reflexivity |]. split; [exact Hcode |]. split; [reflexivity | exact Hroles].
Defined.

(** X22.  On the found path auth-or-register writes a profile field only
    when it is supplied and differs from the stored one: when every
    supplied field equals what is stored, the request makes one read, no
    write, and the store is unchanged. *)
Theorem authOrRegister_unchanged_profile_no_write payload now s user rest :
  falsy_required payload = false ->
  fresh payload now = true ->
  listDocuments (by_key payload) s = user :: rest ->
  (JS.truthy (Req.username payload) = false \/ Req.username payload = Doc.username user) ->
  (JS.truthy (Req.displayName payload) = false
   \/ Req.displayName payload = Doc.displayName user) ->
  (JS.truthy (Req.avatar payload) = false \/ Req.avatar payload = Doc.avatar user) ->
  let o := run (authOrRegister payload now) s in
  authenticated o /\
  final o = s /\
  trace o = [EvListUsers (by_key payload) (Ok (user :: rest))] /\
  Res.user (response o) = Some user.
Proof.
  intros Hreq Hfresh Hlook Hu Hd Ha.
  destruct (required_truthy _ Hreq) as (Hkey & Hsig & Hts).
  unfold fresh in Hfresh. apply negb_true_iff in Hfresh. unfold by_key in *.
  assert (Hsame : forall v w, JS.truthy v = false \/ v = w ->
                              JS.truthy v && JS.strict_neq v w = false).
  { intros v w [Hf | <-]; [now rewrite Hf |].
    destruct (JS.truthy v) eqn:E; [now rewrite (strict_neq_same _ E) | reflexivity]. }
  unfold run, authOrRegister. rewrite Hkey, Hsig, Hts, Hfresh. cbn [negb orb].
  cbn [run_interleaved await interfere tl]. rewrite Hlook.
  rewrite (Hsame _ _ Hu), (Hsame _ _ Hd), (Hsame _ _ Ha).
  cbn. unfold authenticated. cbn. repeat split.
Qed.

Lemma authOrRegister_unchanged_profile_no_write_witness :
  let o := run (authOrRegister alice (sample_now + 7)) alice_registered in
  authenticated o /\ final o = alice_registered.
Proof.
  cbv zeta.
  destruct (authOrRegister_unchanged_profile_no_write alice (sample_now + 7) alice_registered
              (Doc.mk 0 None (Some "02a1") None None (Some "alice") (Some "Alice") None
                 None None None None (Some MetaEmpty) None (Some "active"))
              [] eq_refl eq_refl eq_refl
              (or_intror eq_refl) (or_intror eq_refl) (or_introl eq_refl))
    as (Ha & Hs & _).
  split; assumption.
Defined.
